(** * gohttpclient: interceptor chain, retry controller, response cache,
      body-size limit, logger and rate limiter

    A shallow embedding of the Go package [gohttpclient] and the proofs of
    the properties its specification states about it.

    Go values are embedded as follows.
    - A nilable pointer or interface ([*http.Request], [error]) is an
      [option].
    - [[]byte] is [list byte]; where the code tests a slice against [nil]
      the slice is an [option (list byte)].
    - [int], [int64], [uint64] and [time.Duration] are [Z]; wrap-around is
      written out where the code can reach it.
    - A Go [map] is a [gmap].
    - A function that may have effects (every interceptor, every callback
      stored in an option struct, every method of an interface) is a
      computation in the monad [M]: it is passed the world, and returns a
      value with the new world, or panics. *)

From Stdlib Require Import ZArith List String Ascii Bool Lia.
From Stdlib Require Import Init.Byte.
From stdpp Require Import base option gmap strings list.

Local Open Scope string_scope.
Local Open Scope list_scope.
Local Open Scope Z_scope.

(** ** Errors *)

(** Go [error] values that the package creates or inspects.  The sentinels
    are package-level variables compared by identity; [errorString] is a
    text-backed error ([errors.New]); [withMessage] is what [pkg/errors]'
    [Wrap] and [Wrapf] build (message, then cause). *)
Inductive error : Type :=
| errorString (s : string)
| withMessage (cause : error) (msg : string)
| context_Canceled
| context_DeadlineExceeded
| ErrCacheKeyNotFound
| redis_Nil
| strconv_ErrSyntax
| strconv_ErrRange
| NumError (Func Num : string) (Err : error)
| os_ErrNotExist
| PathError (Op Path : string) (Err : error).

#[global] Instance error_eq_dec : EqDecision error.
Proof. unfold EqDecision, Decision. decide equality; apply String.string_dec. Defined.

Definition quote_char : string := String (ascii_of_nat 34) EmptyString.

(** [strconv.Quote] for text without characters that need an escape. *)
Definition strconv_Quote (s : string) : string := quote_char +:+ s +:+ quote_char.

(** The [Error()] method. *)
Fixpoint Error_ (e : error) : string :=
  match e with
  | errorString s => s
  | withMessage cause msg => msg +:+ ": " +:+ Error_ cause
  | context_Canceled => "context canceled"
  | context_DeadlineExceeded => "context deadline exceeded"
  | ErrCacheKeyNotFound => "cache key not found"
  | redis_Nil => "redis: nil"
  | strconv_ErrSyntax => "invalid syntax"
  | strconv_ErrRange => "value out of range"
  | NumError f n err => "strconv." +:+ f +:+ ": parsing " +:+ strconv_Quote n +:+ ": " +:+ Error_ err
  | os_ErrNotExist => "file does not exist"
  | PathError op path err => op +:+ " " +:+ path +:+ ": " +:+ Error_ err
  end.

Definition errors_New (msg : string) : error := errorString msg.

(** [errors.Wrap(err, msg)] and [errors.Wrapf(err, format, ...)] of
    [pkg/errors]: [nil] stays [nil]. *)
Definition errors_Wrap (err : option error) (msg : string) : option error :=
  match err with
  | None => None
  | Some e => Some (withMessage e msg)
  end.

(** [fmt.Sprintf("%v", err)] for an [error] interface value. *)
Definition fmt_v (err : option error) : string :=
  match err with
  | None => "<nil>"
  | Some e => Error_ e
  end.

(** [errors.Is(err, target)] for a sentinel [target]: identity, then the
    [Unwrap] chain. *)
Fixpoint errors_Is (err target : error) : bool :=
  if decide (err = target) then true
  else match err with
       | withMessage cause _ => errors_Is cause target
       | NumError _ _ e => errors_Is e target
       | PathError _ _ e => errors_Is e target
       | _ => false
       end.

(** [os.IsNotExist(err)]. *)
Definition os_IsNotExist (err : error) : bool :=
  match err with
  | os_ErrNotExist => true
  | PathError _ _ os_ErrNotExist => true
  | _ => false
  end.

(** [errors.Cause(err)] of [pkg/errors]. *)
Fixpoint errors_Cause (err : error) : error :=
  match err with
  | withMessage cause _ => errors_Cause cause
  | _ => err
  end.

(** ** The world and the monad of effects *)

(** What a computation can observe and change: the wall clock, in
    nanoseconds since the Unix epoch, and the state [U] that the
    collaborators own (what closures capture, a store, a trace). *)
Record World (U : Type) : Type := mkWorld { clock : Z; user : U }.
Arguments mkWorld {U} _ _.
Arguments clock {U} _.
Arguments user {U} _.

Definition setClock {U} (t : Z) (w : World U) : World U :=
  {| clock := t; user := user w |}.

Definition setUser {U} (u : U) (w : World U) : World U :=
  {| clock := clock w; user := u |}.

(** A call returns, panics, or never returns.  [Diverge] is produced only
    where a loop of the source is unrolled a bounded number of times and
    the bound is exceeded. *)
Inductive Outcome (U A : Type) : Type :=
| Ret (a : A) (w : World U)
| Panic (msg : string) (w : World U)
| Diverge.
Arguments Ret {U A} _ _.
Arguments Panic {U A} _ _.
Arguments Diverge {U A}.

Definition M (U A : Type) : Type := World U -> Outcome U A.

Definition ret {U A} (a : A) : M U A := fun w => Ret a w.

Definition bind {U A B} (m : M U A) (k : A -> M U B) : M U B :=
  fun w =>
    match m w with
    | Ret a w' => k a w'
    | Panic msg w' => Panic msg w'
    | Diverge => Diverge
    end.

Definition panic {U A} (msg : string) : M U A := fun w => Panic msg w.

Definition getWorld {U} : M U (World U) := fun w => Ret w w.

Definition time_Now {U} : M U Z := fun w => Ret (clock w) w.

Declare Scope go_scope.
Delimit Scope go_scope with go.
Notation "x <- c1 ;; c2" := (bind c1 (fun x => c2))
  (at level 20, c1 at level 99, c2 at level 200) : go_scope.
Notation "' pat <- c1 ;; c2" := (bind c1 (fun x => match x with pat => c2 end))
  (at level 20, pat pattern, c1 at level 99, c2 at level 200) : go_scope.
Notation "c1 ;; c2" := (bind c1 (fun _ => c2))
  (at level 100, c2 at level 200, right associativity) : go_scope.
Local Open Scope go_scope.

Lemma bind_ret_l {U A B} (a : A) (k : A -> M U B) (w : World U) :
  bind (ret a) k w = k a w.
Proof. reflexivity. Qed.

Lemma bind_Ret {U A B} (m : M U A) (k : A -> M U B) w a w' :
  m w = Ret a w' -> bind m k w = k a w'.
Proof. unfold bind. intros ->. reflexivity. Qed.

Lemma bind_Panic {U A B} (m : M U A) (k : A -> M U B) w msg w' :
  m w = Panic msg w' -> bind m k w = Panic msg w'.
Proof. unfold bind. intros ->. reflexivity. Qed.

(** ** net/http values *)

Module http.

(** [net/url.URL], seen through the only observation the package makes
    of it, [URL.String()]. *)
Record URL : Type := mkURL { String_ : string }.

(** A request or response body: the bytes [io.ReadAll] delivers and the
    error it ends with, if any. *)
Record Body : Type := mkBody { data : list byte; readErr : option error }.

(** [context.Context]: [Background] is never done; otherwise the [Done]
    channel is closed from instant [doneAt] on, and [Err()] is [err]
    from then on. *)
Inductive Context : Type :=
| Background
| WithDone (doneAt : Z) (err : error).

Abbreviation Header := (gmap string (list string)).

Record Request : Type := mkRequest {
  Method : string;
  URL_ : option URL;
  ReqHeader : Header;
  ReqBody : option Body;
  ctx : Context
}.

Record Response : Type := mkResponse {
  Status : string;
  StatusCode : Z;
  Proto : string;
  ProtoMajor : Z;
  ProtoMinor : Z;
  RespHeader : Header;
  RespBody : option Body;
  ContentLength : Z;
  Request_ : option Request
}.

Definition MethodGet : string := "GET".
Definition StatusOK : Z := 200.

(** The zero value [&http.Response{}]. *)
Definition emptyResponse : Response :=
  {| Status := ""; StatusCode := 0; Proto := ""; ProtoMajor := 0; ProtoMinor := 0;
     RespHeader := ∅; RespBody := None; ContentLength := 0; Request_ := None |}.

End http.

(** What an interceptor returns: [(resp *http.Response, err error)]. *)
Definition Result : Type := option http.Response * option error.

(** ** request_handler.go *)

(** [RequestHandlerFunc]: the rest of the chain, as seen by an interceptor. *)
Definition RequestHandlerFunc (U : Type) : Type :=
  option http.Request -> M U Result.

(** [RequestHandler]: an interceptor. *)
Definition RequestHandler (U : Type) : Type :=
  option http.Request -> RequestHandlerFunc U -> M U Result.

Definition noOpRequestHandler {U} : RequestHandler U :=
  fun req handlerFunc => handlerFunc req.

Definition noOpRequestHandlerFunc {U} : RequestHandlerFunc U :=
  fun req => ret (Some http.emptyResponse, None).

(** [handlers[i]]: an index out of range panics when it is evaluated. *)
Definition index {U} (handlers : list (RequestHandler U)) (i : nat) : RequestHandler U :=
  match nth_error handlers i with
  | Some h => h
  | None => fun _ _ => panic "runtime error: index out of range"
  end.

(** The loop [for i := n - 1; i > 0; i--] of [ChainRequestHandlers], entered
    with the loop variable at [i] and [currHandlerFunc] at [curr]. *)
Fixpoint chainLoop {U} (handlers : list (RequestHandler U)) (i : nat)
    (currHandlerFunc : RequestHandlerFunc U) : RequestHandlerFunc U :=
  match i with
  | O => currHandlerFunc
  | S i' =>
      let innerHandlerFunc := currHandlerFunc in
      chainLoop handlers i' (fun req => index handlers i req innerHandlerFunc)
  end.

Definition ChainRequestHandlers {U} (handlers : list (RequestHandler U)) : RequestHandler U :=
  let n := length handlers in
  match n with
  | O => noOpRequestHandler
  | S O => index handlers 0
  | _ =>
      fun req handlerFunc =>
        let currHandlerFunc := chainLoop handlers (n - 1) handlerFunc in
        index handlers 0 req currHandlerFunc
  end.

Definition getRequestContext (req : option http.Request) : http.Context :=
  match req with
  | Some r => http.ctx r
  | None => http.Background
  end.

(** *** The chain is the nested composition of its interceptors *)

(** [compose hs T]: the callable that runs the interceptors [hs] in order,
    each with the composition of the ones after it as its next-callable,
    and [T] at the end. *)
Fixpoint compose {U} (hs : list (RequestHandler U)) (T : RequestHandlerFunc U)
    : RequestHandlerFunc U :=
  match hs with
  | [] => T
  | h :: tl => fun req => h req (compose tl T)
  end.

Lemma index_app_r {U} (pre : list (RequestHandler U)) h tl :
  index (pre ++ h :: tl) (length pre) = h.
Proof.
  unfold index. induction pre as [|p pre IH]; simpl; [reflexivity | exact IH].
Qed.

(** The loop wraps the handlers from the last one down to index 1: entered
    at [i = length pre] with the composition of the handlers after [pre]
    built so far, it leaves the composition of all but the first handler. *)
Lemma chainLoop_compose {U} (h0 : RequestHandler U) (pre tl : list (RequestHandler U))
    (T : RequestHandlerFunc U) :
  chainLoop (h0 :: pre ++ tl) (length pre) (compose tl T) = compose (pre ++ tl) T.
Proof.
  revert tl. induction pre as [|p pre IH] using rev_ind; intros tl.
  - reflexivity.
  - rewrite length_app, Nat.add_comm. simpl.
    rewrite <- app_assoc. simpl.
    change (index (h0 :: pre ++ p :: tl) (S (length pre)))
      with (index (pre ++ p :: tl) (length pre)).
    rewrite index_app_r.
    exact (IH (p :: tl)).
Qed.

Lemma ChainRequestHandlers_cons {U} (h : RequestHandler U) (hs : list (RequestHandler U))
    (req : option http.Request) (T : RequestHandlerFunc U) :
  ChainRequestHandlers (h :: hs) req T = h req (compose hs T).
Proof.
  destruct hs as [|h1 hs]; [reflexivity|].
  unfold ChainRequestHandlers.
  change (length (h :: h1 :: hs)) with (S (S (length hs))).
  cbv iota beta zeta.
  replace (S (S (length hs)) - 1)%nat with (length (h1 :: hs)) by (simpl; lia).
  pose proof (chainLoop_compose h (h1 :: hs) [] T) as E.
  rewrite app_nil_r in E. simpl compose at 1 in E.
  rewrite E. reflexivity.
Qed.

Lemma ChainRequestHandlers_compose {U} (hs : list (RequestHandler U))
    (req : option http.Request) (T : RequestHandlerFunc U) :
  ChainRequestHandlers hs req T = compose hs T req.
Proof.
  destruct hs as [|h hs]; [reflexivity|]. apply ChainRequestHandlers_cons.
Qed.

Lemma ChainRequestHandlers_next {U} (hs : list (RequestHandler U)) (T : RequestHandlerFunc U) :
  (fun r => ChainRequestHandlers hs r T) = compose hs T.
Proof.
  destruct hs as [|h [|h1 hs]]; [reflexivity | reflexivity |].
  unfold ChainRequestHandlers.
  change (length (h :: h1 :: hs)) with (S (S (length hs))).
  cbv iota beta zeta.
  replace (S (S (length hs)) - 1)%nat with (length (h1 :: hs)) by (simpl; lia).
  pose proof (chainLoop_compose h (h1 :: hs) [] T) as E.
  rewrite app_nil_r in E. simpl compose at 1 in E.
  rewrite E. reflexivity.
Qed.

(** *** Observing the order of invocation *)

(** What a traversal leaves in the trace: interceptor [i] was entered, the
    terminal call ran, interceptor [i] returned. *)
Inductive Event : Type :=
| Enter (i : nat)
| Terminal
| Leave (i : nat).

#[global] Instance Event_eq_dec : EqDecision Event.
Proof. solve_decision. Defined.

Definition emit (e : Event) : M (list Event) unit :=
  fun w => Ret tt (setUser (user w ++ [e]) w).

(** An interceptor that records its entry, calls its next-callable once,
    records its exit and returns what the next-callable returned. *)
Definition forwarding (i : nat) : RequestHandler (list Event) :=
  fun req next =>
    emit (Enter i) ;;
    r <- next req ;;
    emit (Leave i) ;;
    ret r.

(** A terminal call that records that it ran and returns [r]. *)
Definition terminal (r : Result) : RequestHandlerFunc (list Event) :=
  fun req => emit Terminal ;; ret r.

Definition trace_of {A} (o : Outcome (list Event) A) : list Event :=
  match o with
  | Ret _ w => user w
  | Panic _ w => user w
  | Diverge => []
  end.

Lemma compose_forwarding (ids : list nat) (r : Result) req (w : World (list Event)) :
  compose (map forwarding ids) (terminal r) req w
  = Ret r (setUser (user w ++ map Enter ids ++ [Terminal] ++ map Leave (rev ids)) w).
Proof.
  revert w. induction ids as [|i ids IH]; intros w.
  - reflexivity.
  - simpl compose. unfold forwarding at 1. unfold bind, emit at 1.
    rewrite IH. unfold emit, ret, setUser. simpl.
    f_equal. f_equal.
    rewrite map_app. simpl.
    repeat rewrite <- app_assoc. simpl. reflexivity.
Qed.

(** How many times interceptor [i] was entered, and how many times it is
    listed in the configuration. *)
Fixpoint entries (i : nat) (tr : list Event) : nat :=
  match tr with
  | [] => 0
  | Enter j :: tl => if Nat.eqb i j then S (entries i tl) else entries i tl
  | _ :: tl => entries i tl
  end.

Fixpoint listed (i : nat) (ids : list nat) : nat :=
  match ids with
  | [] => 0
  | j :: tl => if Nat.eqb i j then S (listed i tl) else listed i tl
  end.

Lemma entries_app (i : nat) (tr1 tr2 : list Event) :
  entries i (tr1 ++ tr2) = (entries i tr1 + entries i tr2)%nat.
Proof.
  induction tr1 as [|e tr1 IH]; [reflexivity|].
  destruct e as [j| |j]; simpl; try exact IH.
  destruct (Nat.eqb i j); simpl; congruence.
Qed.

Lemma entries_map_Enter (i : nat) (ids : list nat) :
  entries i (map Enter ids) = listed i ids.
Proof.
  induction ids as [|j ids IH]; simpl; [reflexivity|].
  destruct (Nat.eqb i j); congruence.
Qed.

Lemma entries_map_Leave (i : nat) (ids : list nat) :
  entries i (map Leave ids) = 0%nat.
Proof. induction ids as [|j ids IH]; simpl; [reflexivity | exact IH]. Qed.

(** C1. [ChainRequestHandlers [h1; ...; hn]] applied to [(req, T)] runs [h1]
    with, as its next-callable, the chain of [h2; ...; hn] applied to [T].
    With no interceptor it is the call of [T]; with one it is that
    interceptor.  When every interceptor forwards to its next-callable, the
    interceptors are entered in the configured order, then [T] runs, then
    they return in the reverse order, and each interceptor is entered as
    many times as it is listed (once, when listed once). *)
Theorem ChainRequestHandlers_order :
  (forall U (T : RequestHandlerFunc U) req, ChainRequestHandlers [] req T = T req)
  /\ (forall U (h : RequestHandler U), ChainRequestHandlers [h] = h)
  /\ (forall U (h : RequestHandler U) hs req (T : RequestHandlerFunc U),
        ChainRequestHandlers (h :: hs) req T
        = h req (fun r => ChainRequestHandlers hs r T))
  /\ (forall (ids : list nat) (r : Result) req (w : World (list Event)),
        ChainRequestHandlers (map forwarding ids) req (terminal r) w
        = Ret r (setUser (user w ++ map Enter ids ++ [Terminal] ++ map Leave (rev ids)) w))
  /\ (forall (ids : list nat) (r : Result) req (i : nat) (clk : Z),
        entries i
          (trace_of (ChainRequestHandlers (map forwarding ids) req (terminal r) (mkWorld clk [])))
        = listed i ids).
Proof.
  split; [reflexivity|]. split; [reflexivity|]. split; [|split].
  - intros U h hs req T. rewrite ChainRequestHandlers_next.
    apply ChainRequestHandlers_cons.
  - intros ids r req w. rewrite ChainRequestHandlers_compose. apply compose_forwarding.
  - intros ids r req i clk.
    rewrite ChainRequestHandlers_compose, compose_forwarding. simpl.
    rewrite !entries_app, entries_map_Enter. simpl.
    rewrite entries_map_Leave. lia.
Qed.

(** ** Backoff policies (github.com/cenkalti/backoff/v4) *)

(** [backoff.Stop]: the duration that tells the caller to stop retrying. *)
Definition Stop : Z := -1.

Definition uint64_modulus : Z := 2 ^ 64.

(** A [backoff.BackOff] interface value, by the concrete types the package
    tells apart.  A constant, a stop and a zero policy are their library
    definitions.  An exponential policy draws on a random source and on the
    clock: it is its state with its [NextBackOff] and [Reset], both passed
    the clock's reading.  [OtherBackOff] is any other implementation of the
    interface, in the same form. *)
Inductive BackOff : Type :=
| ExponentialBackOff {S : Type} (s : S) (next : S -> Z -> Z * S) (reset : S -> Z -> S)
| ConstantBackOff (Interval : Z)
| StopBackOff
| ZeroBackOff
| OtherBackOff {S : Type} (s : S) (next : S -> Z -> Z * S) (reset : S -> Z -> S).

Definition BackOff_NextBackOff (b : BackOff) (now : Z) : Z * BackOff :=
  match b with
  | ExponentialBackOff s next reset =>
      let '(d, s') := next s now in (d, ExponentialBackOff s' next reset)
  | ConstantBackOff Interval => (Interval, b)
  | StopBackOff => (Stop, b)
  | ZeroBackOff => (0, b)
  | OtherBackOff s next reset =>
      let '(d, s') := next s now in (d, OtherBackOff s' next reset)
  end.

Definition BackOff_Reset (b : BackOff) (now : Z) : BackOff :=
  match b with
  | ExponentialBackOff s next reset => ExponentialBackOff (reset s now) next reset
  | OtherBackOff s next reset => OtherBackOff (reset s now) next reset
  | _ => b
  end.

(** [backoff.WithMaxRetries(b, max)]: a [*backOffTries]. *)
Record backOffTries : Type := mkBackOffTries {
  delegate : BackOff;
  maxTries : Z;
  numTries : Z
}.

Definition WithMaxRetries (b : BackOff) (max : Z) : backOffTries :=
  {| delegate := b; maxTries := max; numTries := 0 |}.

Definition backOffTries_NextBackOff (b : backOffTries) (now : Z) : Z * backOffTries :=
  if maxTries b =? 0 then (Stop, b)
  else if (0 <? maxTries b) && (maxTries b <=? numTries b) then (Stop, b)
  else
    let numTries' := if 0 <? maxTries b then (numTries b + 1) mod uint64_modulus
                     else numTries b in
    let '(d, delegate') := BackOff_NextBackOff (delegate b) now in
    (d, {| delegate := delegate'; maxTries := maxTries b; numTries := numTries' |}).

(** ** retry.go *)

Section Retry.

Context {U : Type}.

(** Which case [select] takes when the context is done and the timer has
    fired at the same instant: the runtime chooses; [true] is the [Done]
    case. *)
Variable chooseDone : Z -> bool.

Record RetryOption : Type := mkRetryOption {
  ShouldRetryFunc : option http.Request -> option http.Response -> option error -> M U bool;
  MaxRetry : Z;
  RetryBackOff : option BackOff
}.

Definition defaultShouldRetryFunc
    (req : option http.Request) (resp : option http.Response) (err : option error) : M U bool :=
  let ok := match err, resp with
            | None, Some r => http.StatusCode r <? 500
            | _, _ => false
            end in
  ret (negb ok).

Definition NewRetryOption (maxRetry : Z) (retryBackOff : option BackOff) : RetryOption :=
  {| ShouldRetryFunc := defaultShouldRetryFunc;
     MaxRetry := maxRetry;
     RetryBackOff := retryBackOff |}.

(** The type switch of [newFromBackOff]: a copy of one of the four known
    policies, reset; anything else (a [nil] interface too) panics. *)
Definition newFromBackOff (b : option BackOff) : M U BackOff :=
  match b with
  | Some (ExponentialBackOff s next reset) =>
      now <- time_Now ;; ret (BackOff_Reset (ExponentialBackOff s next reset) now)
  | Some (ConstantBackOff Interval) =>
      now <- time_Now ;; ret (BackOff_Reset (ConstantBackOff Interval) now)
  | Some StopBackOff => now <- time_Now ;; ret (BackOff_Reset StopBackOff now)
  | Some ZeroBackOff => now <- time_Now ;; ret (BackOff_Reset ZeroBackOff now)
  | _ => panic "undefind backoff"
  end.

(** [sleepContext(ctx, wait)]: a timer that fires [wait] from now (at once
    when [wait <= 0]) raced against the context's [Done] channel.  The
    clock stands, on return, at the instant of the event that won. *)
Definition sleepContext (ctx : http.Context) (wait : Z) : M U (option error) :=
  fun w =>
    let start := clock w in
    let fire := start + Z.max wait 0 in
    match ctx with
    | http.Background => Ret None (setClock fire w)
    | http.WithDone doneAt err =>
        if doneAt <? fire then Ret (Some err) (setClock (Z.max start doneAt) w)
        else if fire <? doneAt then Ret None (setClock fire w)
        else if chooseDone fire then Ret (Some err) (setClock fire w)
        else Ret None (setClock fire w)
    end.

(** The deferred function of the closure [fn]: a response that comes with
    an error is closed and dropped. *)
Definition dropFailedResponse (resp : option http.Response) (err : option error) : Result :=
  match err, resp with
  | Some _, Some _ => (None, err)
  | _, _ => (resp, err)
  end.

(** The closure [fn] of [RetryHandler]: one attempt.  It returns whether
    to go on, the values it leaves in [resp] and [err], and the state of
    the policy [b]. *)
Definition fn (opt : RetryOption) (req : option http.Request)
    (handlerFunc : RequestHandlerFunc U) (b : backOffTries)
    : M U (bool * Result * backOffTries) :=
  '(resp, err) <- handlerFunc req ;;
  should <- ShouldRetryFunc opt req resp err ;;
  if negb should then ret (false, dropFailedResponse resp err, b)
  else
    now <- time_Now ;;
    let '(d, b') := backOffTries_NextBackOff b now in
    if d =? Stop then ret (false, dropFailedResponse resp err, b')
    else
      err2 <- sleepContext (getRequestContext req) d ;;
      match err2 with
      | Some e2 =>
          let err := errors_Wrap (Some e2) (fmt_v err) in
          ret (false, dropFailedResponse resp err, b')
      | None => ret (true, dropFailedResponse resp err, b')
      end.

(** The loop [for fn() {}], unrolled at most [fuel] times. *)
Fixpoint retryLoop (fuel : nat) (opt : RetryOption) (req : option http.Request)
    (handlerFunc : RequestHandlerFunc U) (b : backOffTries) : M U Result :=
  match fuel with
  | O => fun _ => Diverge
  | S fuel' =>
      '(again, r, b') <- fn opt req handlerFunc b ;;
      if again then retryLoop fuel' opt req handlerFunc b' else ret r
  end.

(** [RetryHandler].  The policy stops the loop after [MaxRetry] waits, so
    [MaxRetry + 1] rounds of the loop are all it can make. *)
Definition RetryHandler (opt : RetryOption) : RequestHandler U :=
  fun req handlerFunc =>
    if MaxRetry opt =? 0 then handlerFunc req
    else
      b <- newFromBackOff (RetryBackOff opt) ;;
      let b := WithMaxRetries b (MaxRetry opt) in
      retryLoop (S (Z.to_nat (MaxRetry opt))) opt req handlerFunc b.

End Retry.

Arguments RetryOption U : clear implicits.

(** *** Facts about the policies *)

(** A policy the type switch of [newFromBackOff] knows. *)
Definition supported (b : BackOff) : Prop :=
  match b with
  | OtherBackOff _ _ _ => False
  | _ => True
  end.

(** A policy that never yields [Stop], in whatever state it is asked. *)
Definition neverStops (b : BackOff) : Prop :=
  match b with
  | ExponentialBackOff _ next _ => forall s now, fst (next s now) <> Stop
  | ConstantBackOff Interval => Interval <> Stop
  | StopBackOff => False
  | ZeroBackOff => True
  | OtherBackOff _ next _ => forall s now, fst (next s now) <> Stop
  end.

Lemma BackOff_Reset_keeps (b : BackOff) (now : Z) :
  supported b -> neverStops b ->
  supported (BackOff_Reset b now) /\ neverStops (BackOff_Reset b now).
Proof. destruct b; simpl; auto. Qed.

Lemma BackOff_NextBackOff_keeps (b : BackOff) (now : Z) :
  supported b -> neverStops b ->
  fst (BackOff_NextBackOff b now) <> Stop
  /\ supported (snd (BackOff_NextBackOff b now))
  /\ neverStops (snd (BackOff_NextBackOff b now)).
Proof.
  destruct b as [S s next reset|i| | |S s next reset]; simpl; intros Hs Hn;
    try contradiction.
  - pose proof (Hn s now) as Hd. destruct (next s now) as [d s']. simpl in *. auto.
  - auto.
  - split; [discriminate | auto].
Qed.

Lemma newFromBackOff_supported {U} (b : BackOff) (w : World U) :
  supported b -> newFromBackOff (Some b) w = Ret (BackOff_Reset b (clock w)) w.
Proof. destruct b; simpl; intros H; [reflexivity .. | contradiction]. Qed.

Lemma newFromBackOff_other {U} {S} (s : S) next reset (w : World U) :
  newFromBackOff (Some (OtherBackOff s next reset)) w = Panic "undefind backoff" w.
Proof. reflexivity. Qed.

(** The bounded policy hands out [maxTries] waits and then stops. *)
Lemma backOffTries_NextBackOff_go (b : backOffTries) (now : Z) :
  0 < maxTries b -> numTries b < maxTries b ->
  backOffTries_NextBackOff b now
  = (fst (BackOff_NextBackOff (delegate b) now),
     {| delegate := snd (BackOff_NextBackOff (delegate b) now);
        maxTries := maxTries b;
        numTries := (numTries b + 1) mod uint64_modulus |}).
Proof.
  intros H0 H1. unfold backOffTries_NextBackOff.
  destruct (Z.eqb_spec (maxTries b) 0) as [E|_]; [lia|].
  destruct (Z.ltb_spec 0 (maxTries b)) as [_|E]; [|lia].
  destruct (Z.leb_spec (maxTries b) (numTries b)) as [E|_]; [lia|].
  simpl. destruct (BackOff_NextBackOff (delegate b) now). reflexivity.
Qed.

Lemma backOffTries_NextBackOff_exhausted (b : backOffTries) (now : Z) :
  0 < maxTries b -> maxTries b <= numTries b ->
  backOffTries_NextBackOff b now = (Stop, b).
Proof.
  intros H0 H1. unfold backOffTries_NextBackOff.
  destruct (Z.eqb_spec (maxTries b) 0) as [E|_]; [reflexivity|].
  destruct (Z.ltb_spec 0 (maxTries b)) as [_|E]; [|lia].
  destruct (Z.leb_spec (maxTries b) (numTries b)) as [_|E]; [reflexivity|lia].
Qed.

(** A wait that is handed out was counted: the policy was not exhausted. *)
Lemma backOffTries_NextBackOff_inv (b : backOffTries) (now d : Z) (b' : backOffTries) :
  0 < maxTries b -> backOffTries_NextBackOff b now = (d, b') -> d <> Stop ->
  numTries b < maxTries b
  /\ maxTries b' = maxTries b
  /\ numTries b' = (numTries b + 1) mod uint64_modulus.
Proof.
  intros H0 E Hd.
  destruct (Z.le_gt_cases (maxTries b) (numTries b)) as [Hle|Hgt].
  - rewrite backOffTries_NextBackOff_exhausted in E by assumption.
    inversion E; subst. contradiction.
  - rewrite backOffTries_NextBackOff_go in E by lia.
    inversion E; subst. simpl. auto.
Qed.

(** *** Rounds of the retry loop *)

Section RetryRounds.

Context {U : Type}.
Variable chooseDone : Z -> bool.
Variable opt : RetryOption U.
Variable req : option http.Request.
Variable handlerFunc : RequestHandlerFunc U.

(** [Attempts n b w b' w']: from the policy state [b] and the world [w],
    [n] rounds of the loop ran and each asked for another one (the attempt
    was made, a retry was wanted, the policy handed out a wait and the wait
    was slept through); they leave the policy at [b'] and the world at [w']. *)
Inductive Attempts : nat -> backOffTries -> World U -> backOffTries -> World U -> Prop :=
| Attempts_O b w : Attempts O b w b w
| Attempts_S n b w r b1 w1 b' w' :
    fn chooseDone opt req handlerFunc b w = Ret (true, r, b1) w1 ->
    Attempts n b1 w1 b' w' ->
    Attempts (S n) b w b' w'.

Lemma retryLoop_Attempts n b w b' w' (fuel : nat) :
  Attempts n b w b' w' ->
  retryLoop chooseDone (n + fuel) opt req handlerFunc b w
  = retryLoop chooseDone fuel opt req handlerFunc b' w'.
Proof.
  induction 1 as [|n b w r b1 w1 b' w' Hfn _ IH]; [reflexivity|].
  simpl. unfold bind at 1. rewrite Hfn. exact IH.
Qed.

(** A round that asks for another one has taken a wait from the policy. *)
Lemma fn_again_inv b w r b1 w1 :
  0 < maxTries b ->
  fn chooseDone opt req handlerFunc b w = Ret (true, r, b1) w1 ->
  numTries b < maxTries b
  /\ maxTries b1 = maxTries b
  /\ numTries b1 = (numTries b + 1) mod uint64_modulus.
Proof.
  intros Hmax. unfold fn, bind, time_Now, ret.
  destruct (handlerFunc req w) as [[resp err] w0| |]; try discriminate.
  destruct (ShouldRetryFunc opt req resp err w0) as [should w2| |]; try discriminate.
  destruct should; simpl; try discriminate.
  destruct (backOffTries_NextBackOff b (clock w2)) as [d b'] eqn:E.
  destruct (Z.eqb_spec d Stop) as [->|Hd]; try discriminate.
  destruct (sleepContext chooseDone (getRequestContext req) d w2) as [[e2|] w3| |];
    try discriminate.
  intros H. inversion H; subst.
  eapply backOffTries_NextBackOff_inv; eauto.
Qed.

Lemma Attempts_numTries n b w b' w' :
  Attempts n b w b' w' ->
  0 < maxTries b < uint64_modulus -> 0 <= numTries b <= maxTries b ->
  maxTries b' = maxTries b
  /\ numTries b' = numTries b + Z.of_nat n
  /\ numTries b' <= maxTries b.
Proof.
  induction 1 as [b w|n b w r b1 w1 b' w' Hfn _ IH]; intros Hmax Hnum.
  - split; [reflexivity|]. split; lia.
  - destruct (fn_again_inv _ _ _ _ _ (proj1 Hmax) Hfn) as (Hlt & Hm & Hn).
    assert (Hn' : numTries b1 = numTries b + 1).
    { rewrite Hn. apply Z.mod_small. unfold uint64_modulus in *. lia. }
    destruct IH as (IH1 & IH2 & IH3); [rewrite Hm; exact Hmax | lia |].
    rewrite Hm in *. split; [exact IH1|]. split; lia.
Qed.

(** The loop returns or panics as long as the downstream handler and the
    retry predicate do: every round that asks for another one uses up one
    of the [maxTries] waits of the policy, so the rounds [RetryHandler]
    allows are never all used and asked for more. *)
Lemma fn_not_Diverge b w :
  (forall v, handlerFunc req v <> Diverge) ->
  (forall resp err v, ShouldRetryFunc opt req resp err v <> Diverge) ->
  fn chooseDone opt req handlerFunc b w <> Diverge.
Proof.
  intros Hf Hs. unfold fn, bind, time_Now, ret.
  specialize (Hf w).
  destruct (handlerFunc req w) as [[resp err] w0| |]; try congruence.
  specialize (Hs resp err w0).
  destruct (ShouldRetryFunc opt req resp err w0) as [should w2| |]; try congruence.
  destruct should; simpl; try discriminate.
  destruct (backOffTries_NextBackOff b (clock w2)) as [d b'].
  destruct (d =? Stop); try discriminate.
  destruct (sleepContext chooseDone (getRequestContext req) d w2) as [[e2|] w3| |] eqn:E;
    try discriminate.
  unfold sleepContext in E. destruct (getRequestContext req); [discriminate|].
  repeat match type of E with context [if ?c then _ else _] => destruct c end; discriminate.
Qed.

Lemma retryLoop_not_Diverge (fuel : nat) : forall b w,
  (forall v, handlerFunc req v <> Diverge) ->
  (forall resp err v, ShouldRetryFunc opt req resp err v <> Diverge) ->
  0 < maxTries b < uint64_modulus -> 0 <= numTries b <= maxTries b ->
  maxTries b - numTries b < Z.of_nat fuel ->
  retryLoop chooseDone fuel opt req handlerFunc b w <> Diverge.
Proof.
  induction fuel as [|fuel IH]; intros b w Hf Hs Hmax Hnum Hfuel; [lia|].
  simpl. unfold bind at 1.
  pose proof (fn_not_Diverge b w Hf Hs) as Hfn.
  destruct (fn chooseDone opt req handlerFunc b w) as [[[again r] b'] w'| |] eqn:E;
    try congruence; try discriminate.
  destruct again; [|discriminate].
  destruct (fn_again_inv _ _ _ _ _ (proj1 Hmax) E) as (Hlt & Hm & Hn).
  assert (Hn' : numTries b' = numTries b + 1).
  { rewrite Hn. apply Z.mod_small. unfold uint64_modulus in *. lia. }
  apply IH; try assumption; rewrite ?Hm; lia.
Qed.

Lemma RetryHandler_not_Diverge w :
  (forall v, handlerFunc req v <> Diverge) ->
  (forall resp err v, ShouldRetryFunc opt req resp err v <> Diverge) ->
  0 <= MaxRetry opt < uint64_modulus ->
  RetryHandler chooseDone opt req handlerFunc w <> Diverge.
Proof.
  intros Hf Hs Hk. unfold RetryHandler.
  destruct (Z.eqb_spec (MaxRetry opt) 0) as [E|E]; [apply Hf|].
  unfold bind at 1.
  destruct (newFromBackOff (RetryBackOff opt) w) as [p w0| |] eqn:Hnew; try discriminate.
  - apply retryLoop_not_Diverge; simpl; try assumption; lia.
  - exfalso. unfold newFromBackOff in Hnew.
    destruct (RetryBackOff opt) as [[ | | | | ]|]; discriminate.
Qed.

End RetryRounds.

Lemma errors_Is_refl (e : error) : errors_Is e e = true.
Proof. destruct e; cbn [errors_Is]; case_decide; congruence. Qed.

Lemma errors_Is_withMessage (cause target : error) (msg : string) :
  errors_Is cause target = true -> errors_Is (withMessage cause msg) target = true.
Proof. intros H. cbn [errors_Is]. case_decide; [reflexivity | exact H]. Qed.

(** *** A wait cut short by the context *)

Lemma sleepContext_interrupted {U} chooseDone (ctx : http.Context) t cerr d (w : World U) :
  ctx = http.WithDone t cerr -> clock w < t < clock w + d ->
  sleepContext chooseDone ctx d w = Ret (Some cerr) (setClock t w).
Proof.
  intros -> [H1 H2]. unfold sleepContext.
  destruct (Z.ltb_spec t (clock w + Z.max d 0)) as [_|H]; [|lia].
  replace (Z.max (clock w) t) with t by lia. reflexivity.
Qed.

Lemma sleepContext_Background {U} chooseDone d (w : World U) :
  sleepContext chooseDone http.Background d w = Ret None (setClock (clock w + Z.max d 0) w).
Proof. reflexivity. Qed.

Lemma fn_interrupted {U} chooseDone (opt : RetryOption U) req
    (handlerFunc : RequestHandlerFunc U) b w resp err w1 w2 d b' t cerr :
  handlerFunc req w = Ret (resp, err) w1 ->
  ShouldRetryFunc opt req resp err w1 = Ret true w2 ->
  backOffTries_NextBackOff b (clock w2) = (d, b') -> d <> Stop ->
  getRequestContext req = http.WithDone t cerr ->
  clock w2 < t < clock w2 + d ->
  fn chooseDone opt req handlerFunc b w
  = Ret (false, (None, Some (withMessage cerr (fmt_v err))), b') (setClock t w2).
Proof.
  intros Hf Hs Hb Hd Hctx Ht. unfold fn, bind, time_Now, ret.
  rewrite Hf, Hs. simpl. rewrite Hb.
  destruct (Z.eqb_spec d Stop) as [E|_]; [contradiction|].
  rewrite (sleepContext_interrupted chooseDone _ t cerr d w2 Hctx Ht).
  simpl. destruct resp; reflexivity.
Qed.

(** C3. The context of the request is done while the retry controller
    sleeps between two attempts: after [n] attempts that were each slept
    out, one more attempt is made, a retry is wanted, the policy hands out
    the wait [d], and the context fires at an instant [t] inside that wait.
    Then [RetryHandler] returns at [t], in the world the last attempt and
    its retry decision left (no attempt follows), with no response and
    with the context's error wrapped around the text of the attempt's
    error; [errors.Is] finds the context's error in it, [context.Canceled]
    when the context was cancelled. *)
Theorem RetryHandler_cancelled_during_wait {U} chooseDone (opt : RetryOption U) req
    (handlerFunc : RequestHandlerFunc U) w p w0 n bn wn resp err w1 w2 d b' t cerr :
  0 < MaxRetry opt < uint64_modulus ->
  newFromBackOff (RetryBackOff opt) w = Ret p w0 ->
  Attempts chooseDone opt req handlerFunc n (WithMaxRetries p (MaxRetry opt)) w0 bn wn ->
  handlerFunc req wn = Ret (resp, err) w1 ->
  ShouldRetryFunc opt req resp err w1 = Ret true w2 ->
  backOffTries_NextBackOff bn (clock w2) = (d, b') -> d <> Stop ->
  getRequestContext req = http.WithDone t cerr ->
  clock w2 < t < clock w2 + d ->
  RetryHandler chooseDone opt req handlerFunc w
  = Ret (None, Some (withMessage cerr (fmt_v err))) (setClock t w2)
  /\ errors_Is (withMessage cerr (fmt_v err)) cerr = true
  /\ (cerr = context_Canceled ->
      errors_Is (withMessage cerr (fmt_v err)) context_Canceled = true).
Proof.
  intros Hmax Hnew Hatt Hf Hs Hb Hd Hctx Ht.
  assert (Hwrap : errors_Is (withMessage cerr (fmt_v err)) cerr = true).
  { apply errors_Is_withMessage, errors_Is_refl. }
  split; [|split; [exact Hwrap | intros ->; exact Hwrap]].
  unfold RetryHandler.
  destruct (Z.eqb_spec (MaxRetry opt) 0) as [E|_]; [lia|].
  unfold bind at 1. rewrite Hnew.
  destruct (Attempts_numTries _ _ _ _ _ _ _ _ _ Hatt) as (Hm & Hn & _);
    [simpl; exact Hmax | simpl; lia |].
  simpl in Hm, Hn.
  destruct (backOffTries_NextBackOff_inv bn (clock w2) d b') as (Hlt & _);
    [rewrite Hm; lia | exact Hb | exact Hd |].
  assert (Hle : (n < Z.to_nat (MaxRetry opt))%nat) by lia.
  assert (Hfuel : S (Z.to_nat (MaxRetry opt))
                  = (n + S (Z.to_nat (MaxRetry opt) - n))%nat) by lia.
  rewrite Hfuel, (retryLoop_Attempts _ _ _ _ _ _ _ _ _ _ Hatt).
  simpl. unfold bind at 1.
  rewrite (fn_interrupted chooseDone opt req handlerFunc bn wn resp err w1 w2 d b' t cerr)
    by assumption.
  reflexivity.
Qed.

(** *** Counting the attempts *)

Section RetryCount.

Context {U : Type}.
Variable chooseDone : Z -> bool.
Variable opt : RetryOption U.
Variable req : option http.Request.
Variable handlerFunc : RequestHandlerFunc U.

(** [cnt] reads, off the world, how many times the downstream handler was
    invoked: each invocation returns and adds one, the retry predicate
    always answers [true] and leaves the count alone, and so does the
    passing of time. *)
Variable cnt : World U -> nat.
Hypothesis handlerFunc_counts :
  forall w, exists r w', handlerFunc req w = Ret r w' /\ cnt w' = S (cnt w).
Hypothesis should_always :
  forall resp err w, exists w',
    ShouldRetryFunc opt req resp err w = Ret true w' /\ cnt w' = cnt w.
Hypothesis clock_counts : forall t w, cnt (setClock t w) = cnt w.
Hypothesis never_done : getRequestContext req = http.Background.

Lemma fn_counts (b : backOffTries) (w : World U) :
  0 < maxTries b < uint64_modulus -> 0 <= numTries b ->
  supported (delegate b) -> neverStops (delegate b) ->
  exists r b' w',
    fn chooseDone opt req handlerFunc b w = Ret (numTries b <? maxTries b, r, b') w'
    /\ cnt w' = S (cnt w)
    /\ maxTries b' = maxTries b
    /\ (numTries b < maxTries b -> numTries b' = numTries b + 1)
    /\ supported (delegate b') /\ neverStops (delegate b').
Proof.
  intros Hmax Hnum Hsup Hnev. unfold fn, bind, time_Now, ret.
  destruct (handlerFunc_counts w) as ([resp err] & w1 & -> & Hc1).
  destruct (should_always resp err w1) as (w2 & -> & Hc2). simpl.
  destruct (Z.ltb_spec (numTries b) (maxTries b)) as [Hlt|Hge].
  - rewrite backOffTries_NextBackOff_go by lia.
    destruct (BackOff_NextBackOff_keeps (delegate b) (clock w2) Hsup Hnev)
      as (Hd & Hsup' & Hnev').
    destruct (Z.eqb_spec (BackOff_NextBackOff (delegate b) (clock w2)).1 Stop)
      as [E|_]; [contradiction|].
    rewrite never_done, sleepContext_Background.
    eexists _, _, _. split; [reflexivity|]. simpl.
    rewrite clock_counts. repeat split; try assumption; try lia.
    intros _. apply Z.mod_small. unfold uint64_modulus in *. lia.
  - rewrite backOffTries_NextBackOff_exhausted by lia. simpl.
    eexists _, _, _. split; [reflexivity|].
    repeat split; try assumption; lia.
Qed.

Lemma retryLoop_counts (n : nat) : forall (fuel : nat) (b : backOffTries) (w : World U),
  maxTries b - numTries b = Z.of_nat n ->
  0 < maxTries b < uint64_modulus -> 0 <= numTries b ->
  supported (delegate b) -> neverStops (delegate b) ->
  (n < fuel)%nat ->
  exists r w',
    retryLoop chooseDone fuel opt req handlerFunc b w = Ret r w'
    /\ cnt w' = (cnt w + n + 1)%nat.
Proof.
  induction n as [|n IH]; intros fuel b w Hrem Hmax Hnum Hsup Hnev Hfuel;
    (destruct fuel as [|fuel]; [lia|]);
    destruct (fn_counts b w Hmax Hnum Hsup Hnev)
      as (r & b' & w' & Hfn & Hc & Hm & Hn & Hsup' & Hnev');
    simpl; unfold bind at 1; rewrite Hfn.
  - destruct (Z.ltb_spec (numTries b) (maxTries b)) as [Hlt|_]; [lia|].
    eexists _, _. split; [reflexivity | lia].
  - destruct (Z.ltb_spec (numTries b) (maxTries b)) as [Hlt|Hge]; [|lia].
    specialize (Hn Hlt).
    destruct (IH fuel b' w') as (r' & w'' & Hloop & Hc');
      try assumption; try lia.
    eexists _, _. split; [exact Hloop | lia].
Qed.

Lemma RetryHandler_counts (p : BackOff) (w : World U) :
  0 <= MaxRetry opt < uint64_modulus ->
  RetryBackOff opt = Some p -> supported p -> neverStops p ->
  exists r w',
    RetryHandler chooseDone opt req handlerFunc w = Ret r w'
    /\ Z.of_nat (cnt w') = Z.of_nat (cnt w) + MaxRetry opt + 1.
Proof.
  intros Hk Hp Hsup Hnev. unfold RetryHandler.
  destruct (Z.eqb_spec (MaxRetry opt) 0) as [E|E].
  - destruct (handlerFunc_counts w) as (r & w' & Hf & Hc).
    exists r, w'. split; [exact Hf | lia].
  - unfold bind at 1. rewrite Hp, newFromBackOff_supported by assumption.
    destruct (BackOff_Reset_keeps p (clock w) Hsup Hnev) as [Hsup' Hnev'].
    destruct (retryLoop_counts (Z.to_nat (MaxRetry opt)) (S (Z.to_nat (MaxRetry opt)))
                (WithMaxRetries (BackOff_Reset p (clock w)) (MaxRetry opt)) w)
      as (r & w' & Hloop & Hc); simpl; try assumption; try lia.
    exists r, w'. split; [exact Hloop | lia].
Qed.

End RetryCount.

(** *** Concrete runs, after retry_test.go *)

Definition Millisecond : Z := 1000000.

(** A downstream handler that succeeds and counts its invocations in the
    world. *)
Definition countingHandlerFunc : RequestHandlerFunc nat :=
  fun req w => Ret (Some http.emptyResponse, None) (setUser (S (user w)) w).

(** [http.NewRequest(http.MethodGet, "https://example.com", nil)], with the
    context [ctx]. *)
Definition exampleRequest (ctx : http.Context) : http.Request :=
  {| http.Method := http.MethodGet;
     http.URL_ := Some (http.mkURL "https://example.com");
     http.ReqHeader := ∅;
     http.ReqBody := None;
     http.ctx := ctx |}.

(** Three retries, 5ms apart, and a predicate that always asks for one. *)
Definition alwaysRetryOption (b : BackOff) : RetryOption nat :=
  {| ShouldRetryFunc := fun _ _ _ => ret true;
     MaxRetry := 3;
     RetryBackOff := Some b |}.

(** The policy of [TestNewFromBackOff_NotDefined]: it never stops, and the
    type switch does not know it. *)
Definition testBackOff : BackOff :=
  OtherBackOff tt (fun s _ => (0, s)) (fun s _ => s).

(** [TestRetryRequestHandler]: the predicate counts its calls and asks for
    a retry twice; three attempts are made and two waits of 5ms slept. *)
Example RetryHandler_two_retries :
  RetryHandler (fun _ => true)
    {| ShouldRetryFunc := fun _ _ _ w => Ret (S (user w) <? 3)%nat (setUser (S (user w)) w);
       MaxRetry := 3;
       RetryBackOff := Some (ConstantBackOff (5 * Millisecond)) |}
    (Some (exampleRequest http.Background))
    (fun _ => ret (Some http.emptyResponse, None)) (mkWorld 0 0%nat)
  = Ret (Some http.emptyResponse, None) (mkWorld (10 * Millisecond) 3%nat).
Proof. reflexivity. Qed.

(** [TestRetryRequestHandler_AllFailed]: four attempts, three waits. *)
Example RetryHandler_all_failed :
  RetryHandler (fun _ => true) (alwaysRetryOption (ConstantBackOff (5 * Millisecond)))
    (Some (exampleRequest http.Background)) countingHandlerFunc (mkWorld 0 0%nat)
  = Ret (Some http.emptyResponse, None) (mkWorld (15 * Millisecond) 4%nat).
Proof. reflexivity. Qed.

(** [TestRetryRequestHandler_NoFailed]: no retry is wanted, no wait. *)
Example RetryHandler_no_failed :
  RetryHandler (fun _ => true)
    {| ShouldRetryFunc := fun _ _ _ => ret false;
       MaxRetry := 3;
       RetryBackOff := Some (ConstantBackOff (5 * Millisecond)) |}
    (Some (exampleRequest http.Background)) countingHandlerFunc (mkWorld 0 0%nat)
  = Ret (Some http.emptyResponse, None) (mkWorld 0 1%nat).
Proof. reflexivity. Qed.

(** A failed attempt leaves no response: the response that comes with an
    error is dropped, and the last error is returned when the retries are
    used up. *)
Example RetryHandler_exhausted :
  RetryHandler (fun _ => true)
    {| ShouldRetryFunc := defaultShouldRetryFunc;
       MaxRetry := 2;
       RetryBackOff := Some ZeroBackOff |}
    (Some (exampleRequest http.Background))
    (fun _ w => Ret (Some http.emptyResponse, Some (errorString "EOF")) (setUser (S (user w)) w))
    (mkWorld 0 0%nat)
  = Ret (None, Some (errorString "EOF")) (mkWorld 0 3%nat).
Proof. reflexivity. Qed.

(** C2 as stated does not hold: with [MaxRetry = 3], a predicate that
    always asks for a retry and a policy that never yields [Stop], the
    downstream handler is invoked once, not four times, when the context of
    the request is cancelled 2ms into the first wait of 5ms; and it is not
    invoked at all when the policy is of a type [newFromBackOff] does not
    know, for [RetryHandler] panics before the first attempt. *)
Lemma RetryHandler_attempts_interrupted :
  neverStops (ConstantBackOff (5 * Millisecond))
  /\ RetryHandler (fun _ => true) (alwaysRetryOption (ConstantBackOff (5 * Millisecond)))
       (Some (exampleRequest (http.WithDone (2 * Millisecond) context_Canceled)))
       countingHandlerFunc (mkWorld 0 0%nat)
     = Ret (None, Some (withMessage context_Canceled "<nil>")) (mkWorld (2 * Millisecond) 1%nat)
  /\ neverStops testBackOff
  /\ RetryHandler (fun _ => true) (alwaysRetryOption testBackOff)
       (Some (exampleRequest http.Background))
       countingHandlerFunc (mkWorld 0 0%nat)
     = Panic "undefind backoff" (mkWorld 0 0%nat).
Proof.
  split; [discriminate|]. split; [reflexivity|].
  split; [intros s now; discriminate | reflexivity].
Qed.

(** C2, amended.  [MaxRetry = k], the retry predicate always answers
    [true], the policy is one of the four that [newFromBackOff] copies and
    never yields [Stop], and the context of the request is never done.  Then
    [RetryHandler] returns after exactly [k + 1] invocations of the
    downstream handler ([cnt] counts them); and when [MaxRetry = 0]
    [RetryHandler] is the downstream call, whatever the rest of the
    option. *)
Theorem RetryHandler_attempts {U} (chooseDone : Z -> bool) (opt : RetryOption U)
    (req : option http.Request) (handlerFunc : RequestHandlerFunc U)
    (cnt : World U -> nat) (p : BackOff) (w : World U) :
  0 <= MaxRetry opt < uint64_modulus ->
  RetryBackOff opt = Some p -> supported p -> neverStops p ->
  (forall w, exists r w', handlerFunc req w = Ret r w' /\ cnt w' = S (cnt w)) ->
  (forall resp err w, exists w',
      ShouldRetryFunc opt req resp err w = Ret true w' /\ cnt w' = cnt w) ->
  (forall t w, cnt (setClock t w) = cnt w) ->
  getRequestContext req = http.Background ->
  (exists r w',
      RetryHandler chooseDone opt req handlerFunc w = Ret r w'
      /\ Z.of_nat (cnt w') = Z.of_nat (cnt w) + MaxRetry opt + 1)
  /\ (MaxRetry opt = 0 ->
      RetryHandler chooseDone opt req handlerFunc = handlerFunc req).
Proof.
  intros Hk Hp Hsup Hnev Hf Hs Hc Hctx. split.
  - eapply RetryHandler_counts; eauto.
  - intros E. unfold RetryHandler. rewrite E. reflexivity.
Qed.

(** [TestRetryRequestHandler_AllFailed]: three retries, four attempts. *)
Lemma RetryHandler_attempts_witness :
  (exists r w',
      RetryHandler (fun _ => true) (alwaysRetryOption (ConstantBackOff (5 * Millisecond)))
        (Some (exampleRequest http.Background)) countingHandlerFunc (mkWorld 0 0%nat)
      = Ret r w'
      /\ Z.of_nat (user w') = Z.of_nat 0 + 3 + 1)
  /\ (MaxRetry (alwaysRetryOption (ConstantBackOff (5 * Millisecond))) = 0 ->
      RetryHandler (fun _ => true) (alwaysRetryOption (ConstantBackOff (5 * Millisecond)))
        (Some (exampleRequest http.Background)) countingHandlerFunc
      = countingHandlerFunc (Some (exampleRequest http.Background))).
Proof.
  apply (RetryHandler_attempts (fun _ => true)
           (alwaysRetryOption (ConstantBackOff (5 * Millisecond)))
           (Some (exampleRequest http.Background)) countingHandlerFunc
           user (ConstantBackOff (5 * Millisecond)) (mkWorld 0 0%nat)).
  - simpl. unfold uint64_modulus. lia.
  - reflexivity.
  - exact I.
  - discriminate.
  - intros w. eexists _, _. split; reflexivity.
  - intros resp err w. exists w. split; reflexivity.
  - reflexivity.
  - reflexivity.
Defined.

(** [TestRetryRequestHandler_ContextCancel], with the cancellation 2ms
    into the second wait: two attempts, and the error is a cancellation. *)
Lemma RetryHandler_cancelled_during_wait_witness :
  RetryHandler (fun _ => true) (alwaysRetryOption (ConstantBackOff (5 * Millisecond)))
    (Some (exampleRequest (http.WithDone (7 * Millisecond) context_Canceled)))
    countingHandlerFunc (mkWorld 0 0%nat)
  = Ret (None, Some (withMessage context_Canceled (fmt_v None)))
        (setClock (7 * Millisecond) (mkWorld (5 * Millisecond) 2%nat))
  /\ errors_Is (withMessage context_Canceled (fmt_v None)) context_Canceled = true
  /\ (context_Canceled = context_Canceled ->
      errors_Is (withMessage context_Canceled (fmt_v None)) context_Canceled = true).
Proof.
  apply (RetryHandler_cancelled_during_wait (fun _ => true)
           (alwaysRetryOption (ConstantBackOff (5 * Millisecond)))
           (Some (exampleRequest (http.WithDone (7 * Millisecond) context_Canceled)))
           countingHandlerFunc (mkWorld 0 0%nat)
           (ConstantBackOff (5 * Millisecond)) (mkWorld 0 0%nat)
           1%nat
           {| delegate := ConstantBackOff (5 * Millisecond); maxTries := 3; numTries := 1 |}
           (mkWorld (5 * Millisecond) 1%nat)
           (Some http.emptyResponse) None
           (mkWorld (5 * Millisecond) 2%nat) (mkWorld (5 * Millisecond) 2%nat)
           (5 * Millisecond)
           {| delegate := ConstantBackOff (5 * Millisecond); maxTries := 3; numTries := 2 |}
           (7 * Millisecond) context_Canceled).
  - simpl. unfold uint64_modulus. lia.
  - reflexivity.
  - eapply Attempts_S; [reflexivity | apply Attempts_O].
  - reflexivity.
  - reflexivity.
  - reflexivity.
  - discriminate.
  - reflexivity.
  - simpl. unfold Millisecond. lia.
Defined.

(** ** net/textproto, net/http: header keys *)

Definition byteval (c : ascii) : Z := Z.of_nat (nat_of_ascii c).

Definition isLower (c : ascii) : bool := (97 <=? byteval c) && (byteval c <=? 122).
Definition isUpper (c : ascii) : bool := (65 <=? byteval c) && (byteval c <=? 90).
Definition isDigit (c : ascii) : bool := (48 <=? byteval c) && (byteval c <=? 57).

Definition toLower : Z := 32.

Definition dash : ascii := ascii_of_nat 45.

(** [validHeaderFieldByte]: the [tchar]s of RFC 7230. *)
Definition validHeaderFieldByte (c : ascii) : bool :=
  isLower c || isUpper c || isDigit c
  || existsb (Z.eqb (byteval c)) [33; 35; 36; 37; 38; 39; 42; 43; 45; 46; 94; 95; 96; 124; 126].

Fixpoint allBytes (p : ascii -> bool) (s : string) : bool :=
  match s with
  | EmptyString => true
  | String c s' => p c && allBytes p s'
  end.

(** The second loop of [canonicalMIMEHeaderKey]: upper case for the first
    letter and after each dash, lower case elsewhere. *)
Fixpoint canonicalize (upper : bool) (s : string) : string :=
  match s with
  | EmptyString => EmptyString
  | String c s' =>
      let c' := if upper && isLower c then ascii_of_nat (Z.to_nat (byteval c - toLower))
                else if negb upper && isUpper c then ascii_of_nat (Z.to_nat (byteval c + toLower))
                else c in
      String c' (canonicalize (Ascii.eqb c' dash) s')
  end.

(** [textproto.CanonicalMIMEHeaderKey]: a key with a byte that is no
    header field byte is returned as it is. *)
Definition CanonicalMIMEHeaderKey (s : string) : string :=
  if allBytes validHeaderFieldByte s then canonicalize true s else s.

(** [Header.Get]: the first value stored under the canonical form of
    [key], or the empty string. *)
Definition Header_Get (h : http.Header) (key : string) : string :=
  match h !! CanonicalMIMEHeaderKey key with
  | Some (v :: _) => v
  | _ => ""
  end.

(** [Header.Set]: the canonical form of [key] gets the one value. *)
Definition Header_Set (h : http.Header) (key value : string) : http.Header :=
  <[CanonicalMIMEHeaderKey key := [value]]> h.

(** ** strconv.ParseUint(s, 10, 64) *)

Definition maxUint64 : Z := 2 ^ 64 - 1.

(** The smallest number such that [cutoff * 10 > maxUint64]. *)
Definition cutoff : Z := maxUint64 / 10 + 1.

Definition syntaxError (fn_ str : string) : error := NumError fn_ str strconv_ErrSyntax.
Definition rangeError (fn_ str : string) : error := NumError fn_ str strconv_ErrRange.

(** The loop over the bytes of the text, with [n] so far. *)
Fixpoint ParseUint_loop (s0 : string) (s : string) (n : Z) : Z * option error :=
  match s with
  | EmptyString => (n, None)
  | String c s' =>
      if isDigit c then
        let d := byteval c - 48 in
        if cutoff <=? n then (maxUint64, Some (rangeError "ParseUint" s0))
        else
          let n := (n * 10) mod uint64_modulus in
          let n1 := (n + d) mod uint64_modulus in
          if (n1 <? n) || (maxUint64 <? n1) then (maxUint64, Some (rangeError "ParseUint" s0))
          else ParseUint_loop s0 s' n1
      else (0, Some (syntaxError "ParseUint" s0))
  end.

Definition strconv_ParseUint (s : string) : Z * option error :=
  match s with
  | EmptyString => (0, Some (syntaxError "ParseUint" s))
  | _ => ParseUint_loop s s 0
  end.

(** ** body_size.go *)

Record BodySizeOption : Type := mkBodySizeOption { MaxBodySize : Z }.

Definition NewBodySizeOption (maxBodySize : Z) : BodySizeOption :=
  {| MaxBodySize := maxBodySize |}.

Definition BodySizeHandler {U} (opt : BodySizeOption) : RequestHandler U :=
  fun req handlerFunc =>
    '(resp, err) <- handlerFunc req ;;
    match err with
    | Some _ => ret (resp, err)
    | None =>
        match resp with
        | None => panic "runtime error: invalid memory address or nil pointer dereference"
        | Some r =>
            let contentLengthStr := Header_Get (http.RespHeader r) "Content-Length" in
            let '(contentLength, err) := strconv_ParseUint contentLengthStr in
            match err with
            | Some _ =>
                ret (None, errors_Wrap err "Parse the data size of the response content")
            | None =>
                if MaxBodySize opt <? contentLength
                then ret (None, Some (errors_New "The server response data is too large"))
                else ret (resp, err)
            end
        end
    end.

(** The responses of body_size_test.go: status 200 and a [Content-Length]
    header. *)
Definition responseWithLength (contentLength : string) : http.Response :=
  {| http.Status := ""; http.StatusCode := http.StatusOK; http.Proto := "";
     http.ProtoMajor := 0; http.ProtoMinor := 0;
     http.RespHeader := {[ "Content-Length" := [contentLength] ]};
     http.RespBody := Some (http.mkBody [] None);
     http.ContentLength := 0; http.Request_ := None |}.

Example ParseUint_11 : strconv_ParseUint "11" = (11, None).
Proof. reflexivity. Qed.

Example ParseUint_max : strconv_ParseUint "18446744073709551615" = (maxUint64, None).
Proof. reflexivity. Qed.

Example ParseUint_overflow :
  strconv_ParseUint "18446744073709551616"
  = (maxUint64, Some (rangeError "ParseUint" "18446744073709551616")).
Proof. reflexivity. Qed.

Example ParseUint_Foo123 :
  strconv_ParseUint "Foo123" = (0, Some (syntaxError "ParseUint" "Foo123")).
Proof. reflexivity. Qed.

Example CanonicalMIMEHeaderKey_content_length :
  CanonicalMIMEHeaderKey "content-length" = "Content-Length".
Proof. reflexivity. Qed.

(** *** Decimal numerals *)

(** The number a text of decimal digits denotes, continuing from [n]. *)
Fixpoint numeralValue_from (s : string) (n : Z) : Z :=
  match s with
  | EmptyString => n
  | String c s' => numeralValue_from s' (n * 10 + (byteval c - 48))
  end.

Definition numeralValue (s : string) : Z := numeralValue_from s 0.

Lemma isDigit_bounds (c : ascii) : isDigit c = true -> 0 <= byteval c - 48 <= 9.
Proof. unfold isDigit. intros H. apply andb_true_iff in H. lia. Qed.

Lemma numeralValue_from_ge (s : string) : forall n,
  allBytes isDigit s = true -> 0 <= n -> n <= numeralValue_from s n.
Proof.
  induction s as [|c s IH]; intros n Hs Hn; simpl in *; [lia|].
  apply andb_true_iff in Hs as [Hc Hs]. apply isDigit_bounds in Hc.
  specialize (IH (n * 10 + (byteval c - 48)) Hs). lia.
Qed.

Lemma ParseUint_loop_numeral (s0 s : string) : forall n,
  allBytes isDigit s = true -> 0 <= n ->
  numeralValue_from s n <= maxUint64 ->
  ParseUint_loop s0 s n = (numeralValue_from s n, None).
Proof.
  assert (Ecut : cutoff = 1844674407370955162) by reflexivity.
  assert (Emax : maxUint64 = 18446744073709551615) by reflexivity.
  assert (Emod : uint64_modulus = 18446744073709551616) by reflexivity.
  induction s as [|c s IH]; intros n Hs Hn Hv; simpl in *; [reflexivity|].
  apply andb_true_iff in Hs as [Hc Hs]. rewrite Hc.
  pose proof (isDigit_bounds c Hc) as Hd.
  pose proof (numeralValue_from_ge s (n * 10 + (byteval c - 48)) Hs) as Hge.
  destruct (Z.leb_spec cutoff n) as [Hcut|Hcut]; [lia|].
  rewrite (Z.mod_small (n * 10)) by lia.
  rewrite (Z.mod_small (n * 10 + (byteval c - 48))) by lia.
  destruct (Z.ltb_spec (n * 10 + (byteval c - 48)) (n * 10)) as [H|_]; [lia|].
  destruct (Z.ltb_spec maxUint64 (n * 10 + (byteval c - 48))) as [H|_]; [lia|].
  simpl. apply IH; [assumption | lia | assumption].
Qed.

(** [ParseUint] reads a decimal numeral that fits 64 bits as its value. *)
Lemma ParseUint_numeral (s : string) :
  s <> "" -> allBytes isDigit s = true -> numeralValue s <= maxUint64 ->
  strconv_ParseUint s = (numeralValue s, None).
Proof.
  intros Hne Hs Hv. unfold strconv_ParseUint.
  destruct s as [|c s]; [contradiction|].
  apply ParseUint_loop_numeral; [assumption | lia | assumption].
Qed.

(** [TestBodySizeHandler_InvalidContentLengthString]: the header does not
    parse, and the error of the parse is wrapped. *)
Example BodySizeHandler_invalid_length :
  BodySizeHandler (NewBodySizeOption 10) (Some (exampleRequest http.Background))
    (fun _ => ret (Some (responseWithLength "Foo123"), None)) (mkWorld 0 tt)
  = Ret (None, Some (withMessage (syntaxError "ParseUint" "Foo123")
                       "Parse the data size of the response content")) (mkWorld 0 tt).
Proof. vm_compute. reflexivity. Qed.

(** C9 as stated does not hold for every response returned without error.
    The declared length is the text of the [Content-Length] header, read by
    [strconv.ParseUint].  A response that declares 2^64 bytes, more than the
    limit of 10, is rejected with the wrapped range error of the parse, not
    with the size-violation error; and a response without the header, which
    declares no length above the limit, does not pass through: it is
    rejected with the wrapped syntax error of the parse. *)
Lemma BodySizeHandler_limit_unparsed :
  BodySizeHandler (NewBodySizeOption 10) (Some (exampleRequest http.Background))
    (fun _ => ret (Some (responseWithLength "18446744073709551616"), None)) (mkWorld 0 tt)
  = Ret (None, Some (withMessage (rangeError "ParseUint" "18446744073709551616")
                       "Parse the data size of the response content")) (mkWorld 0 tt)
  /\ withMessage (rangeError "ParseUint" "18446744073709551616")
       "Parse the data size of the response content"
     <> errors_New "The server response data is too large"
  /\ MaxBodySize (NewBodySizeOption 10) < numeralValue "18446744073709551616"
  /\ BodySizeHandler (NewBodySizeOption 10) (Some (exampleRequest http.Background))
       (fun _ => ret (Some http.emptyResponse, None)) (mkWorld 0 tt)
     = Ret (None, Some (withMessage (syntaxError "ParseUint" "")
                          "Parse the data size of the response content")) (mkWorld 0 tt)
  /\ http.ContentLength http.emptyResponse <= MaxBodySize (NewBodySizeOption 10).
Proof.
  split; [vm_compute; reflexivity|]. split; [discriminate|].
  split; [vm_compute; reflexivity|]. split; [vm_compute; reflexivity|].
  simpl. lia.
Qed.

(** C9, amended.  The downstream call returns a response and no error, and
    the response declares its content length: the [Content-Length] header is a
    decimal numeral of a 64-bit value.  When that value exceeds
    [MaxBodySize], [BodySizeHandler] returns no response and the error
    "The server response data is too large"; when it is at most
    [MaxBodySize], the response and the [nil] error pass through as they
    are.  An error of the downstream call (a transport error) passes
    through as it is, so the size error is not taken for one. *)
Theorem BodySizeHandler_limit {U} (opt : BodySizeOption) (req : option http.Request)
    (handlerFunc : RequestHandlerFunc U) (w w1 : World U) (resp : http.Response) (s : string) :
  handlerFunc req w = Ret (Some resp, None) w1 ->
  Header_Get (http.RespHeader resp) "Content-Length" = s ->
  s <> "" -> allBytes isDigit s = true -> numeralValue s <= maxUint64 ->
  (MaxBodySize opt < numeralValue s ->
     BodySizeHandler opt req handlerFunc w
     = Ret (None, Some (errors_New "The server response data is too large")) w1)
  /\ (numeralValue s <= MaxBodySize opt ->
     BodySizeHandler opt req handlerFunc w = Ret (Some resp, None) w1)
  /\ (forall (g : RequestHandlerFunc U) v resp' e v1,
       g req v = Ret (resp', Some e) v1 ->
       BodySizeHandler opt req g v = Ret (resp', Some e) v1).
Proof.
  intros Hf Hh Hne Hs Hv.
  pose proof (ParseUint_numeral s Hne Hs Hv) as Hp.
  repeat split.
  - intros Hgt. unfold BodySizeHandler, bind. rewrite Hf, Hh, Hp.
    destruct (Z.ltb_spec (MaxBodySize opt) (numeralValue s)); [reflexivity | lia].
  - intros Hle. unfold BodySizeHandler, bind. rewrite Hf, Hh, Hp.
    destruct (Z.ltb_spec (MaxBodySize opt) (numeralValue s)); [lia | reflexivity].
  - intros g v resp' e v1 Hg. unfold BodySizeHandler, bind. rewrite Hg. reflexivity.
Qed.

(** [TestBodySizeHandler] and [TestBodySizeHandler_BodySizeIsOK]: a body
    of 11 bytes against a limit of 10. *)
Lemma BodySizeHandler_limit_witness :
  (MaxBodySize (NewBodySizeOption 10) < numeralValue "11" ->
     BodySizeHandler (NewBodySizeOption 10) (Some (exampleRequest http.Background))
       (fun _ => ret (Some (responseWithLength "11"), None)) (mkWorld 0 tt)
     = Ret (None, Some (errors_New "The server response data is too large")) (mkWorld 0 tt))
  /\ (numeralValue "11" <= MaxBodySize (NewBodySizeOption 10) ->
     BodySizeHandler (NewBodySizeOption 10) (Some (exampleRequest http.Background))
       (fun _ => ret (Some (responseWithLength "11"), None)) (mkWorld 0 tt)
     = Ret (Some (responseWithLength "11"), None) (mkWorld 0 tt))
  /\ (forall (g : RequestHandlerFunc unit) v resp' e v1,
       g (Some (exampleRequest http.Background)) v = Ret (resp', Some e) v1 ->
       BodySizeHandler (NewBodySizeOption 10) (Some (exampleRequest http.Background)) g v
       = Ret (resp', Some e) v1).
Proof.
  apply (BodySizeHandler_limit (NewBodySizeOption 10) (Some (exampleRequest http.Background))
           (fun _ => ret (Some (responseWithLength "11"), None))
           (mkWorld 0 tt) (mkWorld 0 tt) (responseWithLength "11") "11").
  - reflexivity.
  - vm_compute. reflexivity.
  - discriminate.
  - reflexivity.
  - vm_compute. discriminate.
Defined.

(** ** crypto/sha1 and encoding/base64 *)

Module sha1.

Definition mask32 : Z := 2 ^ 32.

Definition add32 (a b : Z) : Z := (a + b) mod mask32.

Definition rotl32 (n x : Z) : Z :=
  Z.lor (Z.shiftl x n mod mask32) (Z.shiftr x (32 - n)).

Definition not32 (x : Z) : Z := Z.lxor x (mask32 - 1).

Definition byteZ (b : byte) : Z := Z.of_N (Byte.to_N b).

Definition Zbyte (z : Z) : byte :=
  match Byte.of_N (Z.to_N (z mod 256)) with
  | Some b => b
  | None => x00
  end.

(** [n] as [k] bytes, big-endian. *)
Fixpoint bigEndian (k : nat) (n : Z) : list byte :=
  match k with
  | O => []
  | S k' => Zbyte (Z.shiftr n (8 * Z.of_nat k')) :: bigEndian k' n
  end.

Fixpoint fromBigEndian (bs : list byte) (acc : Z) : Z :=
  match bs with
  | [] => acc
  | b :: tl => fromBigEndian tl (acc * 256 + byteZ b)
  end.

(** The message, the bit 1, zero bits up to 56 modulo 64 bytes, and the
    length of the message in bits on 64 bits. *)
Definition pad (msg : list byte) : list byte :=
  let len := Z.of_nat (length msg) in
  msg ++ [x80] ++ repeat x00 (Z.to_nat ((55 - len) mod 64)) ++ bigEndian 8 (8 * len).

(** The 16 words of a block of 64 bytes. *)
Fixpoint words (k : nat) (block : list byte) : list Z :=
  match k with
  | O => []
  | S k' => fromBigEndian (firstn 4 block) 0 :: words k' (skipn 4 block)
  end.

(** The message schedule, newest word first: [n] more words. *)
Fixpoint extend (n : nat) (rs : list Z) : list Z :=
  match n with
  | O => rs
  | S n' =>
      let w := rotl32 1 (Z.lxor (Z.lxor (nth 2 rs 0) (nth 7 rs 0))
                                (Z.lxor (nth 13 rs 0) (nth 15 rs 0))) in
      extend n' (w :: rs)
  end.

Definition schedule (block : list byte) : list Z :=
  rev (extend 64 (rev (words 16 block))).

Definition State : Type := Z * Z * Z * Z * Z.

Definition round (i : nat) (st : State) (w : Z) : State :=
  let '(a, b, c, d, e) := st in
  let '(f, k) :=
    if (i <? 20)%nat then (Z.lor (Z.land b c) (Z.land (not32 b) d), 1518500249)
    else if (i <? 40)%nat then (Z.lxor (Z.lxor b c) d, 1859775393)
    else if (i <? 60)%nat then
      (Z.lor (Z.lor (Z.land b c) (Z.land b d)) (Z.land c d), 2400959708)
    else (Z.lxor (Z.lxor b c) d, 3395469782) in
  let temp := add32 (add32 (add32 (add32 (rotl32 5 a) f) e) k) w in
  (temp, a, rotl32 30 b, c, d).

Fixpoint rounds (i : nat) (ws : list Z) (st : State) : State :=
  match ws with
  | [] => st
  | w :: tl => rounds (S i) tl (round i st w)
  end.

Definition block (h : State) (blk : list byte) : State :=
  let '(h0, h1, h2, h3, h4) := h in
  let '(a, b, c, d, e) := rounds 0 (schedule blk) h in
  (add32 h0 a, add32 h1 b, add32 h2 c, add32 h3 d, add32 h4 e).

Fixpoint blocks (n : nat) (h : State) (bs : list byte) : State :=
  match n with
  | O => h
  | S n' => blocks n' (block h (firstn 64 bs)) (skipn 64 bs)
  end.

Definition init : State := (1732584193, 4023233417, 2562383102, 271733878, 3285377520).

(** [sha1.Sum]: the digest, 20 bytes. *)
Definition Sum (msg : list byte) : list byte :=
  let padded := pad msg in
  let '(h0, h1, h2, h3, h4) := blocks (length padded / 64) init padded in
  bigEndian 4 h0 ++ bigEndian 4 h1 ++ bigEndian 4 h2 ++ bigEndian 4 h3 ++ bigEndian 4 h4.

End sha1.

Module base64.

Definition encodeURL : string :=
  "ABCDEFGHIJKLMNOPQRSTUVWXYZabcdefghijklmnopqrstuvwxyz0123456789-_".

Definition digit (n : Z) : ascii :=
  match String.get (Z.to_nat n) encodeURL with
  | Some c => c
  | None => "="%char
  end.

(** [base64.URLEncoding.EncodeToString]: three bytes make four characters;
    what is left at the end is padded with [=]. *)
Fixpoint encode (fuel : nat) (src : list byte) : string :=
  match fuel, src with
  | S fuel', b0 :: b1 :: b2 :: tl =>
      let v := sha1.byteZ b0 * 65536 + sha1.byteZ b1 * 256 + sha1.byteZ b2 in
      String (digit (Z.shiftr v 18 mod 64)) (String (digit (Z.shiftr v 12 mod 64))
        (String (digit (Z.shiftr v 6 mod 64)) (String (digit (v mod 64)) (encode fuel' tl))))
  | _, [b0; b1] =>
      let v := sha1.byteZ b0 * 65536 + sha1.byteZ b1 * 256 in
      String (digit (Z.shiftr v 18 mod 64)) (String (digit (Z.shiftr v 12 mod 64))
        (String (digit (Z.shiftr v 6 mod 64)) "="))
  | _, [b0] =>
      let v := sha1.byteZ b0 * 65536 in
      String (digit (Z.shiftr v 18 mod 64)) (String (digit (Z.shiftr v 12 mod 64)) "==")
  | _, _ => EmptyString
  end.

Definition URLEncoding_EncodeToString (src : list byte) : string :=
  encode (length src) src.

End base64.

(** [[]byte(s)] and [string(b)]. *)
Definition bytes_of (s : string) : list byte := list_byte_of_string s.
Definition string_of (b : list byte) : string := string_of_list_byte b.

Example sha1_abc :
  sha1.Sum (bytes_of "abc")
  = [xa9; x99; x3e; x36; x47; x06; x81; x6a; xba; x3e;
     x25; x71; x78; x50; xc2; x6c; x9c; xd0; xd8; x9d].
Proof. vm_compute. reflexivity. Qed.

Example sha1_empty :
  sha1.Sum []
  = [xda; x39; xa3; xee; x5e; x6b; x4b; x0d; x32; x55;
     xbf; xef; x95; x60; x18; x90; xaf; xd8; x07; x09].
Proof. vm_compute. reflexivity. Qed.

(** A message of 56 bytes: two blocks. *)
Example sha1_two_blocks :
  sha1.Sum (bytes_of "abcdbcdecdefdefgefghfghighijhijkijkljklmklmnlmnomnopnopq")
  = [x84; x98; x3e; x44; x1c; x3b; xd2; x6e; xba; xae;
     x4a; xa1; xf9; x51; x29; xe5; xe5; x46; x70; xf1].
Proof. vm_compute. reflexivity. Qed.

Example base64_padding :
  base64.URLEncoding_EncodeToString (bytes_of "f") = "Zg=="
  /\ base64.URLEncoding_EncodeToString (bytes_of "fo") = "Zm8="
  /\ base64.URLEncoding_EncodeToString (bytes_of "foo") = "Zm9v"
  /\ base64.URLEncoding_EncodeToString (bytes_of "foobar") = "Zm9vYmFy".
Proof. vm_compute. repeat split. Qed.

Example base64_sha1_abc :
  base64.URLEncoding_EncodeToString (sha1.Sum (bytes_of "abc")) = "qZk-NkcGgWq6PiVxeFDCbJzQ2J0=".
Proof. vm_compute. reflexivity. Qed.

(** ** cache.go: the cache interceptor *)

(** [RequestEntry]: a request with what came of it. *)
Record RequestEntry : Type := mkRequestEntry {
  Request : option http.Request;
  Response : option http.Response;
  Error : option error
}.

(** The interface [Cacher] (cacher.go). *)
Record Cacher (U : Type) : Type := mkCacher {
  Cacher_Get : list byte -> M U (list byte * option error);
  Cacher_Set : list byte -> list byte -> Z -> M U (option error)
}.
Arguments mkCacher {U} _ _.
Arguments Cacher_Get {U} _ _.
Arguments Cacher_Set {U} _ _ _ _.

(** The interface [RequestEntryEncoderDecoder]. *)
Record RequestEntryEncoderDecoder (U : Type) : Type := mkEncoderDecoder {
  Encode : RequestEntry -> M U (list byte * option error);
  Decode : list byte -> M U (RequestEntry * option error)
}.
Arguments mkEncoderDecoder {U} _ _.
Arguments Encode {U} _ _.
Arguments Decode {U} _ _.

Record CacheOption (U : Type) : Type := mkCacheOption {
  ShouldCacheFunc : option http.Request -> option http.Response -> option error -> M U bool;
  RequestHashFunc :
    option http.Request -> option http.Response -> option error -> M U (option (list byte));
  CacheTTLFunc : option http.Request -> option http.Response -> option error -> M U Z;
  Cacher_ : Cacher U;
  EncoderDecoder : RequestEntryEncoderDecoder U
}.
Arguments mkCacheOption {U} _ _ _ _ _.
Arguments ShouldCacheFunc {U} _ _ _ _.
Arguments RequestHashFunc {U} _ _ _ _.
Arguments CacheTTLFunc {U} _ _ _ _.
Arguments Cacher_ {U} _.
Arguments EncoderDecoder {U} _.

Definition Minute : Z := 60 * 1000 * Millisecond.

Definition DefaultShouldCacheFunc {U}
    (req : option http.Request) (resp : option http.Response) (err : option error) : M U bool :=
  let ok :=
    match req with
    | Some r =>
        match http.URL_ r with
        | Some _ =>
            String.eqb (http.Method r) http.MethodGet
            && match resp with
               | Some p =>
                   (http.StatusCode p =? http.StatusOK)
                   && match err with None => true | Some _ => false end
               | None => false
               end
        | None => false
        end
    | None => false
    end in
  ret ok.

(** The fingerprint of [DefaultRequestHashFunc], without effects. *)
Definition defaultRequestHash (req : option http.Request) : option (list byte) :=
  match req with
  | Some r =>
      match http.URL_ r with
      | Some u =>
          if String.eqb (http.Method r) http.MethodGet then
            let bv := bytes_of (http.String_ u) in
            let sha := base64.URLEncoding_EncodeToString (sha1.Sum bv) in
            Some (bytes_of sha)
          else None
      | None => None
      end
  | None => None
  end.

Definition DefaultRequestHashFunc {U}
    (req : option http.Request) (resp : option http.Response) (err : option error)
    : M U (option (list byte)) :=
  ret (defaultRequestHash req).

Definition DefaultCacheTTLFunc {U}
    (req : option http.Request) (resp : option http.Response) (err : option error) : M U Z :=
  ret (5 * Minute).

Definition NewCacheOption {U} (cacher : Cacher U) (codec : RequestEntryEncoderDecoder U)
    : CacheOption U :=
  {| ShouldCacheFunc := DefaultShouldCacheFunc;
     RequestHashFunc := DefaultRequestHashFunc;
     CacheTTLFunc := DefaultCacheTTLFunc;
     Cacher_ := cacher;
     EncoderDecoder := codec |}.

(** The first part of [CacheHandler]: the entry the cache holds for the
    request, if the request has a fingerprint, the store has a value for it
    and the value decodes. *)
Definition cacheLookup {U} (opt : CacheOption U) (req : option http.Request)
    : M U (option RequestEntry) :=
  hash <- RequestHashFunc opt req None None ;;
  match hash with
  | Some hash =>
      '(cacheValue, err) <- Cacher_Get (Cacher_ opt) hash ;;
      match err with
      | None =>
          '(re, err) <- Decode (EncoderDecoder opt) cacheValue ;;
          match err with
          | None => ret (Some re)
          | Some _ => ret None
          end
      | Some _ => ret None
      end
  | None => ret None
  end.

(** The second part: the downstream call, and the storing of what it
    returned when that is to be cached. *)
Definition callAndStore {U} (opt : CacheOption U) (req : option http.Request)
    (handlerFunc : RequestHandlerFunc U) : M U Result :=
  '(resp, returnErr) <- handlerFunc req ;;
  shouldCache <- ShouldCacheFunc opt req resp returnErr ;;
  if negb shouldCache then ret (resp, returnErr)
  else
    hash <- RequestHashFunc opt req resp returnErr ;;
    match hash with
    | None => ret (resp, returnErr)
    | Some hash =>
        let re := {| Request := req; Response := resp; Error := returnErr |} in
        '(cacheValue, err) <- Encode (EncoderDecoder opt) re ;;
        match err with
        | Some _ => ret (None, errors_Wrap err "Serialization request")
        | None =>
            ttl <- CacheTTLFunc opt req resp returnErr ;;
            Cacher_Set (Cacher_ opt) hash cacheValue ttl ;;
            ret (resp, returnErr)
        end
    end.

Definition CacheHandler {U} (opt : CacheOption U) : RequestHandler U :=
  fun req handlerFunc =>
    hit <- cacheLookup opt req ;;
    match hit with
    | Some re => ret (Response re, Error re)
    | None => callAndStore opt req handlerFunc
    end.

(** C4. The request has a fingerprint.  If [Get] succeeds and the stored
    bytes decode, [CacheHandler] returns the response and the error
    recorded in the decoded entry, whatever the downstream handler is: it
    is not invoked.  If [Get] returns an error ([ErrCacheKeyNotFound] or any
    other), or the bytes do not decode, [CacheHandler] goes on as
    [callAndStore] does from the world the failed lookup left: it invokes
    the downstream handler first (a panic of it is the panic of
    [CacheHandler]), and what it returns is what the downstream handler
    returned, or no response with the error of [Encode] wrapped as
    "Serialization request"; the error of [Get] or [Decode] is dropped. *)
Theorem CacheHandler_lookup {U} (opt : CacheOption U) (req : option http.Request)
    (handlerFunc : RequestHandlerFunc U) (w w0 : World U) (hash : list byte) :
  RequestHashFunc opt req None None w = Ret (Some hash) w0 ->
  (forall value w1 re w2 (g : RequestHandlerFunc U),
      Cacher_Get (Cacher_ opt) hash w0 = Ret (value, None) w1 ->
      Decode (EncoderDecoder opt) value w1 = Ret (re, None) w2 ->
      CacheHandler opt req g w = Ret (Response re, Error re) w2)
  /\ (forall value e w1,
      Cacher_Get (Cacher_ opt) hash w0 = Ret (value, Some e) w1 ->
      CacheHandler opt req handlerFunc w = callAndStore opt req handlerFunc w1)
  /\ (forall value w1 re e w2,
      Cacher_Get (Cacher_ opt) hash w0 = Ret (value, None) w1 ->
      Decode (EncoderDecoder opt) value w1 = Ret (re, Some e) w2 ->
      CacheHandler opt req handlerFunc w = callAndStore opt req handlerFunc w2)
  /\ (forall v msg v',
      handlerFunc req v = Panic msg v' ->
      callAndStore opt req handlerFunc v = Panic msg v')
  /\ (forall v resp' err' v',
      callAndStore opt req handlerFunc v = Ret (resp', err') v' ->
      exists resp err v1,
        handlerFunc req v = Ret (resp, err) v1
        /\ ((resp', err') = (resp, err)
            \/ (resp' = None
                /\ exists value encErr v2,
                     Encode (EncoderDecoder opt)
                       {| Request := req; Response := resp; Error := err |} v2
                     = Ret (value, Some encErr) v'
                     /\ err' = Some (withMessage encErr "Serialization request")))).
Proof.
  intros Hhash. repeat split.
  - intros value w1 re w2 g Hget Hdec.
    unfold CacheHandler, cacheLookup, bind. rewrite Hhash, Hget, Hdec. reflexivity.
  - intros value e w1 Hget.
    unfold CacheHandler, cacheLookup, bind. rewrite Hhash, Hget. reflexivity.
  - intros value w1 re e w2 Hget Hdec.
    unfold CacheHandler, cacheLookup, bind. rewrite Hhash, Hget, Hdec. reflexivity.
  - intros v msg v' Hf. unfold callAndStore, bind. rewrite Hf. reflexivity.
  - intros v resp' err' v'. unfold callAndStore, bind, ret.
    destruct (handlerFunc req v) as [[resp err] v1| |]; try discriminate.
    destruct (ShouldCacheFunc opt req resp err v1) as [should v2| |]; try discriminate.
    destruct should; simpl.
    + destruct (RequestHashFunc opt req resp err v2) as [[h|] v3| |]; try discriminate.
      * destruct (Encode (EncoderDecoder opt) _ v3) as [[value [encErr|]] v4| |] eqn:Henc;
          try discriminate.
        -- intros H. inversion H; subst. exists resp, err, v1. split; [reflexivity|].
           right. split; [reflexivity|]. exists value, encErr, v3. split; [exact Henc | reflexivity].
        -- destruct (CacheTTLFunc opt req resp err v4) as [ttl v5| |]; try discriminate.
           destruct (Cacher_Set (Cacher_ opt) h value ttl v5) as [e6 v6| |]; try discriminate.
           intros H. inversion H; subst. exists resp', err', v1. split; [reflexivity | left; reflexivity].
      * intros H. inversion H; subst. exists resp', err', v1. split; [reflexivity | left; reflexivity].
    + intros H. inversion H; subst. exists resp', err', v1. split; [reflexivity | left; reflexivity].
Qed.

(** C5. [DefaultRequestHashFunc] has no effect, and it yields a fingerprint
    exactly for a [GET] request with a URL: the SHA-1 digest of the URL's
    text, in the URL alphabet of base64.  Any other request (another
    method, no URL, no request) has the [nil] fingerprint, whatever the
    response and its status code are.  With that hash function, a request
    without fingerprint goes through [CacheHandler] as through the
    downstream handler followed by the question whether to cache: neither
    [Get] nor [Set] of the store is called. *)
Theorem DefaultRequestHashFunc_only_GET :
  (forall U req resp err (w : World U),
      DefaultRequestHashFunc req resp err w = Ret (defaultRequestHash req) w)
  /\ (forall req,
      is_Some (defaultRequestHash req)
      <-> exists r u, req = Some r /\ http.URL_ r = Some u /\ http.Method r = http.MethodGet)
  /\ (forall r u,
      http.URL_ r = Some u -> http.Method r = http.MethodGet ->
      defaultRequestHash (Some r)
      = Some (bytes_of (base64.URLEncoding_EncodeToString
                          (sha1.Sum (bytes_of (http.String_ u))))))
  /\ (forall r, http.Method r <> http.MethodGet -> defaultRequestHash (Some r) = None)
  /\ (forall U (opt : CacheOption U) req (handlerFunc : RequestHandlerFunc U) w,
      RequestHashFunc opt = DefaultRequestHashFunc ->
      defaultRequestHash req = None ->
      CacheHandler opt req handlerFunc w
      = (r <- handlerFunc req ;; ShouldCacheFunc opt req (fst r) (snd r) ;; ret r) w).
Proof.
  split; [reflexivity|]. split; [|split; [|split]].
  - intros req. unfold defaultRequestHash. split.
    + intros [h Hh]. destruct req as [r|]; [|discriminate].
      destruct (http.URL_ r) as [u|] eqn:Hu; [|discriminate].
      destruct (String.eqb_spec (http.Method r) http.MethodGet) as [Hm|]; [|discriminate].
      exists r, u. auto.
    + intros (r & u & -> & -> & ->). simpl. eauto.
  - intros r u Hu Hm. unfold defaultRequestHash. rewrite Hu, Hm. reflexivity.
  - intros r Hm. unfold defaultRequestHash.
    destruct (http.URL_ r); [|reflexivity].
    destruct (String.eqb_spec (http.Method r) http.MethodGet); [contradiction | reflexivity].
  - intros U opt req handlerFunc w Hopt Hnone.
    unfold CacheHandler, cacheLookup, callAndStore, bind.
    rewrite Hopt. unfold DefaultRequestHashFunc, ret. rewrite Hnone.
    destruct (handlerFunc req w) as [[resp err] w1| |]; try reflexivity. simpl.
    destruct (ShouldCacheFunc opt req resp err w1) as [[|] w2| |]; reflexivity.
Qed.

(** ** cache.go: the codec of request entries *)

Module HRR.

(** [HTTPRequestResponse]: the serialized form of an entry.  [Error] is
    tested against [nil] by [Decode]. *)
Record HTTPRequestResponse : Type := mk {
  Method : string;
  URL : string;
  RequestHeader : gmap string string;
  RequestBody : list byte;
  Status : string;
  StatusCode : Z;
  Proto : string;
  ProtoMajor : Z;
  ProtoMinor : Z;
  ResponseHeader : gmap string string;
  ResponseBody : list byte;
  Error : option (list byte)
}.

(** The zero value. *)
Definition zero : HTTPRequestResponse :=
  {| Method := ""; URL := ""; RequestHeader := ∅; RequestBody := [];
     Status := ""; StatusCode := 0; Proto := ""; ProtoMajor := 0; ProtoMinor := 0;
     ResponseHeader := ∅; ResponseBody := []; Error := None |}.

End HRR.

(** [httpHeaderToMap]: every key of the header with what [Header.Get]
    returns for it. *)
Definition httpHeaderToMap (header : http.Header) : gmap string string :=
  map_imap (fun key _ => Some (Header_Get header key)) header.

(** [mapToHTTPHeader]: [Header.Set] of every pair of the map.  Go ranges
    over a map in no fixed order; the order matters only when two keys
    have the same canonical form. *)
Definition mapToHTTPHeader (m : gmap string string) : http.Header :=
  map_fold (fun key value header => Header_Set header key value) ∅ m.

(** [io.ReadAll] of a body. *)
Definition io_ReadAll (b : http.Body) : list byte * option error :=
  (http.data b, http.readErr b).

(** [copyHTTPRequestBody], [copyHTTPResponseBody]: the bytes of the body;
    the body is replaced by a fresh reader over the same bytes, which is
    the same body in this model. *)
Definition copyHTTPBody (b : http.Body) : list byte * option error :=
  let '(body, err) := io_ReadAll b in
  match err with
  | Some _ => ([], err)
  | None => (body, None)
  end.

Definition zeroRequestEntry : RequestEntry :=
  {| Request := None; Response := None; Error := None |}.

Section Codec.

Context {U : Type}.

(** [msgpack.Marshal] and [msgpack.Unmarshal] at [HTTPRequestResponse]
    (github.com/vmihailenco/msgpack/v5). *)
Variable msgpack_Marshal : HRR.HTTPRequestResponse -> list byte * option error.
Variable msgpack_Unmarshal : list byte -> HRR.HTTPRequestResponse * option error.

(** [url.Parse], followed by the removal of an empty port from the host
    that [http.NewRequest] performs on its result. *)
Variable url_Parse : string -> http.URL + error.

(** The entry as [Encode] hands it to [msgpack.Marshal]. *)
Definition encodeEntry (entry : RequestEntry) : HRR.HTTPRequestResponse * option error :=
  let r := Request entry in
  let w := Response entry in
  match r with
  | None => (HRR.zero, Some (errors_New "Request not found in RequestEntry"))
  | Some r =>
      match http.URL_ r with
      | None => (HRR.zero, Some (errors_New "URL not found in RequestEntry"))
      | Some u =>
          let '(requestBody, err) :=
            match http.ReqBody r with
            | Some b => copyHTTPBody b
            | None => ([], None)
            end in
          match err with
          | Some _ => (HRR.zero, err)
          | None =>
              let e := {| HRR.Method := http.Method r;
                          HRR.URL := http.String_ u;
                          HRR.RequestHeader := httpHeaderToMap (http.ReqHeader r);
                          HRR.RequestBody := requestBody;
                          HRR.Status := ""; HRR.StatusCode := 0; HRR.Proto := "";
                          HRR.ProtoMajor := 0; HRR.ProtoMinor := 0;
                          HRR.ResponseHeader := ∅; HRR.ResponseBody := [];
                          HRR.Error := None |} in
              let '(responseBody, err) :=
                match w with
                | Some w =>
                    match http.RespBody w with
                    | Some b => copyHTTPBody b
                    | None => ([], None)
                    end
                | None => ([], None)
                end in
              match err with
              | Some _ => (HRR.zero, err)
              | None =>
                  let e :=
                    match w with
                    | Some w =>
                        {| HRR.Method := HRR.Method e;
                           HRR.URL := HRR.URL e;
                           HRR.RequestHeader := HRR.RequestHeader e;
                           HRR.RequestBody := HRR.RequestBody e;
                           HRR.Status := http.Status w;
                           HRR.StatusCode := http.StatusCode w;
                           HRR.Proto := http.Proto w;
                           HRR.ProtoMajor := http.ProtoMajor w;
                           HRR.ProtoMinor := http.ProtoMinor w;
                           HRR.ResponseHeader := httpHeaderToMap (http.RespHeader w);
                           HRR.ResponseBody := responseBody;
                           HRR.Error := HRR.Error e |}
                    | None => e
                    end in
                  let e :=
                    match Error entry with
                    | Some err =>
                        {| HRR.Method := HRR.Method e;
                           HRR.URL := HRR.URL e;
                           HRR.RequestHeader := HRR.RequestHeader e;
                           HRR.RequestBody := HRR.RequestBody e;
                           HRR.Status := HRR.Status e;
                           HRR.StatusCode := HRR.StatusCode e;
                           HRR.Proto := HRR.Proto e;
                           HRR.ProtoMajor := HRR.ProtoMajor e;
                           HRR.ProtoMinor := HRR.ProtoMinor e;
                           HRR.ResponseHeader := HRR.ResponseHeader e;
                           HRR.ResponseBody := HRR.ResponseBody e;
                           HRR.Error := Some (bytes_of (Error_ err)) |}
                    | None => e
                    end in
                  (e, None)
              end
          end
      end
  end.

(** [requestEntryEncoderDecoder.Encode]. *)
Definition requestEntry_Encode (entry : RequestEntry) : list byte * option error :=
  let '(e, err) := encodeEntry entry in
  match err with
  | Some _ => ([], err)
  | None => msgpack_Marshal e
  end.

(** [validMethod] of net/http: a token. *)
Definition validMethod (method : string) : bool :=
  negb (String.eqb method "") && allBytes validHeaderFieldByte method.

(** [http.NewRequest(method, url, bytes.NewReader(body))]. *)
Definition http_NewRequest (method url : string) (body : list byte)
    : option http.Request * option error :=
  let method := if String.eqb method "" then "GET" else method in
  if negb (validMethod method)
  then (None, Some (errorString ("net/http: invalid method " +:+ strconv_Quote method)))
  else
    match url_Parse url with
    | inr err => (None, Some err)
    | inl u =>
        (Some {| http.Method := method;
                 http.URL_ := Some u;
                 http.ReqHeader := ∅;
                 http.ReqBody := Some (http.mkBody body None);
                 http.ctx := http.Background |}, None)
    end.

(** What [Decode] makes of the entry [msgpack.Unmarshal] filled in. *)
Definition decodeEntry (e : HRR.HTTPRequestResponse) : RequestEntry * option error :=
  let '(req, err) := http_NewRequest (HRR.Method e) (HRR.URL e) (HRR.RequestBody e) in
  match err with
  | Some _ => (zeroRequestEntry, err)
  | None =>
      let resp :=
        if 0 <? HRR.StatusCode e then
          Some {| http.Status := HRR.Proto e;
                  http.StatusCode := HRR.StatusCode e;
                  http.Proto := HRR.Proto e;
                  http.ProtoMajor := HRR.ProtoMajor e;
                  http.ProtoMinor := HRR.ProtoMinor e;
                  http.RespBody := Some (http.mkBody (HRR.ResponseBody e) None);
                  http.ContentLength := Z.of_nat (length (HRR.ResponseBody e));
                  http.Request_ := req;
                  http.RespHeader := mapToHTTPHeader (HRR.ResponseHeader e) |}
        else None in
      let entryError :=
        match HRR.Error e with
        | Some msg => Some (errors_New (string_of msg))
        | None => None
        end in
      ({| Request := req; Response := resp; Error := entryError |}, None)
  end.

(** [requestEntryEncoderDecoder.Decode]. *)
Definition requestEntry_Decode (value : list byte) : RequestEntry * option error :=
  let '(e, err) := msgpack_Unmarshal value in
  match err with
  | Some _ => (zeroRequestEntry, err)
  | None => decodeEntry e
  end.

(** The value [requestEntryEncoderDecoder{}] of the interface. *)
Definition requestEntryEncoderDecoder : RequestEntryEncoderDecoder U :=
  {| Encode := fun entry => ret (requestEntry_Encode entry);
     Decode := fun value => ret (requestEntry_Decode value) |}.

End Codec.

(** *** Headers through the serialized form *)

Lemma httpHeaderToMap_lookup (header : http.Header) (key : string) :
  httpHeaderToMap header !! key = (fun _ => Header_Get header key) <$> header !! key.
Proof.
  unfold httpHeaderToMap. rewrite map_lookup_imap.
  destruct (header !! key); reflexivity.
Qed.

(** Every key of the header is in canonical form, as the keys of a header
    filled by [Header.Set], [Header.Add] or the HTTP transport are. *)
Definition canonicalKeys {A} (m : gmap string A) : Prop :=
  forall k v, m !! k = Some v -> CanonicalMIMEHeaderKey k = k.

Lemma httpHeaderToMap_canonical (header : http.Header) :
  canonicalKeys header -> httpHeaderToMap header = hd "" <$> header.
Proof.
  intros Hc. apply map_eq. intros k.
  rewrite httpHeaderToMap_lookup, lookup_fmap.
  destruct (header !! k) as [vs|] eqn:E; [|reflexivity]. simpl.
  unfold Header_Get. rewrite (Hc k vs E), E. destruct vs; reflexivity.
Qed.

Lemma mapToHTTPHeader_canonical (m : gmap string string) :
  canonicalKeys m -> mapToHTTPHeader m = (fun v => [v]) <$> m.
Proof.
  unfold mapToHTTPHeader.
  apply (map_fold_weak_ind
           (fun (r : http.Header) (m : gmap string string) =>
              canonicalKeys m -> r = (fun v => [v]) <$> m)).
  - intros _. rewrite fmap_empty. reflexivity.
  - intros k v m' r Hk IH Hc.
    unfold Header_Set. rewrite (Hc k v) by apply lookup_insert_eq.
    rewrite fmap_insert. f_equal. apply IH.
    intros k' v' Hk'. apply (Hc k' v').
    rewrite lookup_insert_ne; [exact Hk' | congruence].
Qed.

Lemma canonicalKeys_fmap {A B} (f : A -> B) (m : gmap string A) :
  canonicalKeys m -> canonicalKeys (f <$> m).
Proof.
  intros Hc k v Hk. rewrite lookup_fmap in Hk.
  destruct (m !! k) as [a|] eqn:E; [|discriminate]. exact (Hc k a E).
Qed.

(** A header with canonical keys comes back with the first value of each
    name. *)
Lemma header_roundtrip (header : http.Header) :
  canonicalKeys header ->
  mapToHTTPHeader (httpHeaderToMap header) = (fun vs => [hd "" vs]) <$> header.
Proof.
  intros Hc. rewrite httpHeaderToMap_canonical by assumption.
  rewrite mapToHTTPHeader_canonical by (apply canonicalKeys_fmap; assumption).
  rewrite <- map_fmap_compose. reflexivity.
Qed.

(** *** A serialization with the round trip of msgpack *)

(** The development is parametric in [msgpack.Marshal] and
    [msgpack.Unmarshal].  For closed examples it is instantiated with the
    serialization below: the entry is numbered ([encode] of [Countable]),
    the number is written bit by bit after a leading byte, and reading
    undoes both.  Its round trip is proved for every entry. *)
Module refcodec.

#[global] Instance byte_eq_dec : EqDecision byte := Stdlib.Strings.Byte.byte_eq_dec.

#[global] Instance byte_countable : Countable byte :=
  inj_countable Byte.to_N Byte.of_N Stdlib.Strings.Byte.of_to_N.

Fixpoint posBits (p : positive) : list byte :=
  match p with
  | xH => []
  | xO p' => x00 :: posBits p'
  | xI p' => x01 :: posBits p'
  end.

Fixpoint bitsPos (bs : list byte) : option positive :=
  match bs with
  | [] => Some xH
  | b :: tl =>
      match bitsPos tl with
      | Some p =>
          if decide (b = x00) then Some (xO p)
          else if decide (b = x01) then Some (xI p)
          else None
      | None => None
      end
  end.

Lemma bitsPos_posBits (p : positive) : bitsPos (posBits p) = Some p.
Proof. induction p as [p IH|p IH|]; simpl; rewrite ?IH; reflexivity. Qed.

Definition write {A} `{Countable A} (a : A) : list byte := xff :: posBits (encode a).

Definition read {A} `{Countable A} (bs : list byte) : option A :=
  match bs with
  | b :: tl => if decide (b = xff) then bitsPos tl ≫= decode else None
  | [] => None
  end.

Lemma read_write {A} `{Countable A} (a : A) : read (write a) = Some a.
Proof.
  unfold read, write. simpl. rewrite bitsPos_posBits. simpl. apply decode_encode.
Qed.

Definition HRR_tuple (e : HRR.HTTPRequestResponse) :=
  (HRR.Method e, HRR.URL e, HRR.RequestHeader e, HRR.RequestBody e,
   HRR.Status e, HRR.StatusCode e, HRR.Proto e, HRR.ProtoMajor e, HRR.ProtoMinor e,
   HRR.ResponseHeader e, HRR.ResponseBody e, HRR.Error e).

Definition HRR_untuple t : HRR.HTTPRequestResponse :=
  let '(a, b, c, d, e, f, g, h, i, j, k, l) := t in HRR.mk a b c d e f g h i j k l.

#[global] Instance HRR_eq_dec : EqDecision HRR.HTTPRequestResponse.
Proof. solve_decision. Defined.

#[global] Instance HRR_countable : Countable HRR.HTTPRequestResponse.
Proof.
  apply (inj_countable' HRR_tuple HRR_untuple). intros []. reflexivity.
Defined.

Definition Marshal (e : HRR.HTTPRequestResponse) : list byte * option error :=
  (write e, None).

Definition Unmarshal (bs : list byte) : HRR.HTTPRequestResponse * option error :=
  match read bs with
  | Some e => (e, None)
  | None => (HRR.zero, Some (errorString "msgpack: invalid code"))
  end.

Lemma Unmarshal_Marshal (e : HRR.HTTPRequestResponse) :
  Unmarshal (fst (Marshal e)) = (e, None).
Proof. unfold Unmarshal, Marshal. simpl fst. rewrite read_write. reflexivity. Qed.

(** A [url.Parse] that accepts every text and keeps it. *)
Definition Parse (s : string) : http.URL + error := inl (http.mkURL s).

Definition Encode := requestEntry_Encode Marshal.
Definition Decode := requestEntry_Decode Unmarshal Parse.

End refcodec.

(** *** What [Encode] records of a header *)

(** A response as cache_test.go builds them: a status code, a header and a
    body. *)
Definition responseOf (code : Z) (header : http.Header) (body : list byte) : http.Response :=
  {| http.Status := ""; http.StatusCode := code; http.Proto := "";
     http.ProtoMajor := 0; http.ProtoMinor := 0;
     http.RespHeader := header;
     http.RespBody := Some (http.mkBody body None);
     http.ContentLength := 0; http.Request_ := None |}.

(** A header whose name [X-Test] was written twice: first ["first"], then
    ["last"] ([Header.Add] appends). *)
Definition twiceWritten : http.Header := {[ "X-Test" := ["first"; "last"] ]}.

(** C7 as stated does not hold: of a name that carries the values
    ["first"] and ["last"], in the order they were written, the serialized
    form records ["first"], for a request header as for a response
    header. *)
Lemma httpHeaderToMap_not_last :
  httpHeaderToMap twiceWritten !! "X-Test" = Some "first"
  /\ List.last ["first"; "last"] "" = "last"
  /\ HRR.ResponseHeader
       (fst (encodeEntry
               {| Request := Some (exampleRequest http.Background);
                  Response := Some (responseOf 200 twiceWritten []);
                  Error := None |})) !! "X-Test"
     = Some "first".
Proof.
  split; [vm_compute; reflexivity|]. split; [reflexivity|].
  vm_compute. reflexivity.
Qed.

(** C7, amended.  When [Encode] flattens the request and response headers
    into the one-value-per-name mapping of the serialized form, a name in
    canonical form that carries several values is recorded with the first
    of them, the value [Header.Get] returns. *)
Theorem httpHeaderToMap_first_value (entry : RequestEntry) (e : HRR.HTTPRequestResponse)
    (key v : string) (vs : list string) :
  CanonicalMIMEHeaderKey key = key ->
  encodeEntry entry = (e, None) ->
  (forall header : http.Header,
      header !! key = Some (v :: vs) -> httpHeaderToMap header !! key = Some v)
  /\ (forall r, Request entry = Some r ->
        http.ReqHeader r !! key = Some (v :: vs) -> HRR.RequestHeader e !! key = Some v)
  /\ (forall w, Response entry = Some w ->
        http.RespHeader w !! key = Some (v :: vs) -> HRR.ResponseHeader e !! key = Some v).
Proof.
  intros Hkey Henc.
  assert (Hget : forall header : http.Header,
            header !! key = Some (v :: vs) -> httpHeaderToMap header !! key = Some v).
  { intros header Hh. rewrite httpHeaderToMap_lookup, Hh. simpl.
    unfold Header_Get. rewrite Hkey, Hh. reflexivity. }
  split; [exact Hget|].
  unfold encodeEntry in Henc.
  destruct (Request entry) as [r|]; [|discriminate].
  destruct (http.URL_ r) as [u|]; [|discriminate].
  destruct (match http.ReqBody r with Some b => copyHTTPBody b | None => ([], None) end)
    as [requestBody [err1|]]; [discriminate|].
  destruct (Response entry) as [w|].
  - destruct (match http.RespBody w with Some b => copyHTTPBody b | None => ([], None) end)
      as [responseBody [err2|]]; [discriminate|].
    destruct (Error entry); inversion Henc; subst e; simpl; split.
    all: try (intros r0 Hr; inversion Hr; subst r0; apply Hget).
    all: intros w0 Hw; inversion Hw; subst w0; apply Hget.
  - destruct (Error entry); inversion Henc; subst e; simpl; split.
    all: try (intros r0 Hr; inversion Hr; subst r0; apply Hget).
    all: intros w0 Hw; discriminate.
Qed.

Lemma httpHeaderToMap_first_value_witness :
  (forall header : http.Header,
      header !! "X-Test" = Some ["first"; "last"] ->
      httpHeaderToMap header !! "X-Test" = Some "first")
  /\ (forall r,
        Request {| Request := Some (exampleRequest http.Background);
                   Response := Some (responseOf 200 twiceWritten []);
                   Error := None |} = Some r ->
        http.ReqHeader r !! "X-Test" = Some ["first"; "last"] ->
        HRR.RequestHeader
          (fst (encodeEntry
                  {| Request := Some (exampleRequest http.Background);
                     Response := Some (responseOf 200 twiceWritten []);
                     Error := None |})) !! "X-Test" = Some "first")
  /\ (forall w,
        Response {| Request := Some (exampleRequest http.Background);
                    Response := Some (responseOf 200 twiceWritten []);
                    Error := None |} = Some w ->
        http.RespHeader w !! "X-Test" = Some ["first"; "last"] ->
        HRR.ResponseHeader
          (fst (encodeEntry
                  {| Request := Some (exampleRequest http.Background);
                     Response := Some (responseOf 200 twiceWritten []);
                     Error := None |})) !! "X-Test" = Some "first").
Proof.
  apply (httpHeaderToMap_first_value
           {| Request := Some (exampleRequest http.Background);
              Response := Some (responseOf 200 twiceWritten []);
              Error := None |}
           (fst (encodeEntry
                   {| Request := Some (exampleRequest http.Background);
                      Response := Some (responseOf 200 twiceWritten []);
                      Error := None |}))
           "X-Test" "first" ["last"]).
  - reflexivity.
  - reflexivity.
Defined.

(** *** The round trip of an entry *)

(** The bytes a body delivers; a [nil] body delivers none. *)
Definition bodyBytes (b : option http.Body) : list byte :=
  match b with
  | Some b => http.data b
  | None => []
  end.

(** A body that is read to its end without error. *)
Definition readable (b : option http.Body) : Prop :=
  match b with
  | Some b => http.readErr b = None
  | None => True
  end.

(** The serialized form of an entry whose bodies are readable. *)
Definition serialized (r : http.Request) (u : http.URL) (w : option http.Response)
    (err : option error) : HRR.HTTPRequestResponse :=
  {| HRR.Method := http.Method r;
     HRR.URL := http.String_ u;
     HRR.RequestHeader := httpHeaderToMap (http.ReqHeader r);
     HRR.RequestBody := bodyBytes (http.ReqBody r);
     HRR.Status := from_option http.Status "" w;
     HRR.StatusCode := from_option http.StatusCode 0 w;
     HRR.Proto := from_option http.Proto "" w;
     HRR.ProtoMajor := from_option http.ProtoMajor 0 w;
     HRR.ProtoMinor := from_option http.ProtoMinor 0 w;
     HRR.ResponseHeader := from_option (fun w => httpHeaderToMap (http.RespHeader w)) ∅ w;
     HRR.ResponseBody := from_option (fun w => bodyBytes (http.RespBody w)) [] w;
     HRR.Error := (fun e => bytes_of (Error_ e)) <$> err |}.

Lemma copyHTTPBody_readable (b : option http.Body) :
  readable b ->
  match b with Some b => copyHTTPBody b | None => ([], None) end = (bodyBytes b, None).
Proof.
  destruct b as [[d e]|]; simpl; [|reflexivity].
  intros ->. reflexivity.
Qed.

Lemma encodeEntry_readable (t : RequestEntry) r u :
  Request t = Some r -> http.URL_ r = Some u ->
  readable (http.ReqBody r) ->
  (forall w, Response t = Some w -> readable (http.RespBody w)) ->
  encodeEntry t = (serialized r u (Response t) (Error t), None).
Proof.
  intros Hr Hu Hb Hw. unfold encodeEntry. rewrite Hr, Hu.
  rewrite (copyHTTPBody_readable _ Hb).
  destruct (Response t) as [w|].
  - rewrite (copyHTTPBody_readable _ (Hw w eq_refl)).
    destruct (Error t); reflexivity.
  - destruct (Error t); reflexivity.
Qed.

Lemma validMethod_nonempty (method : string) :
  validMethod method = true -> String.eqb method "" = false.
Proof.
  unfold validMethod. intros H. apply andb_true_iff in H as [H _].
  apply negb_true_iff in H. exact H.
Qed.

(** The request and the response [Decode] rebuilds. *)
Definition decodedRequest (r : http.Request) (u' : http.URL) : http.Request :=
  {| http.Method := http.Method r;
     http.URL_ := Some u';
     http.ReqHeader := ∅;
     http.ReqBody := Some (http.mkBody (bodyBytes (http.ReqBody r)) None);
     http.ctx := http.Background |}.

Definition decodedResponse (r' : http.Request) (w : http.Response) : http.Response :=
  {| http.Status := http.Proto w;
     http.StatusCode := http.StatusCode w;
     http.Proto := http.Proto w;
     http.ProtoMajor := http.ProtoMajor w;
     http.ProtoMinor := http.ProtoMinor w;
     http.RespBody := Some (http.mkBody (bodyBytes (http.RespBody w)) None);
     http.ContentLength := Z.of_nat (length (bodyBytes (http.RespBody w)));
     http.Request_ := Some r';
     http.RespHeader := mapToHTTPHeader (httpHeaderToMap (http.RespHeader w)) |}.

Definition decodedEntry (r : http.Request) (u' : http.URL) (w : option http.Response)
    (err : option error) : RequestEntry :=
  {| Request := Some (decodedRequest r u');
     Response := match w with
                 | Some w => if 0 <? http.StatusCode w
                             then Some (decodedResponse (decodedRequest r u') w)
                             else None
                 | None => None
                 end;
     Error := (fun e => errors_New (Error_ e)) <$> err |}.

Lemma decodeEntry_serialized (url_Parse : string -> http.URL + error)
    (r : http.Request) (u u' : http.URL) (w : option http.Response) (err : option error) :
  validMethod (http.Method r) = true ->
  url_Parse (http.String_ u) = inl u' ->
  decodeEntry url_Parse (serialized r u w err) = (decodedEntry r u' w err, None).
Proof.
  intros Hm Hp. unfold decodeEntry, http_NewRequest.
  cbn [HRR.Method HRR.URL HRR.RequestBody serialized].
  rewrite (validMethod_nonempty _ Hm), Hm, Hp. cbn [negb].
  unfold decodedEntry. f_equal. f_equal.
  - destruct w as [w|]; simpl; [|reflexivity].
    destruct (0 <? http.StatusCode w); reflexivity.
  - destruct err as [e|]; simpl; [|reflexivity].
    unfold string_of, bytes_of. rewrite string_of_list_byte_of_string. reflexivity.
Qed.

(** C6, amended.  The entry has a request with a URL; its bodies are read
    without error; the method is a token; the text of the URL parses back
    to a URL of the same text; the names of the response header are in
    canonical form; and msgpack returns, from the bytes it made of the
    serialized entry, that serialized entry.  Then [Encode] succeeds, and
    [Decode] of its bytes succeeds with an entry that has: a request with
    the same method, the same URL text and the same body bytes; a response
    exactly when a response with a positive status code was recorded, and
    then with the same status code, the same body bytes and, for every
    name of the header, its first value; and an error exactly when one was
    recorded, with the same message text. *)
Theorem requestEntry_roundtrip
    (msgpack_Marshal : HRR.HTTPRequestResponse -> list byte * option error)
    (msgpack_Unmarshal : list byte -> HRR.HTTPRequestResponse * option error)
    (url_Parse : string -> http.URL + error)
    (t : RequestEntry) (r : http.Request) (u u' : http.URL) (bs : list byte) :
  Request t = Some r -> http.URL_ r = Some u ->
  readable (http.ReqBody r) ->
  (forall w, Response t = Some w ->
             readable (http.RespBody w) /\ canonicalKeys (http.RespHeader w)) ->
  validMethod (http.Method r) = true ->
  url_Parse (http.String_ u) = inl u' -> http.String_ u' = http.String_ u ->
  msgpack_Marshal (fst (encodeEntry t)) = (bs, None) ->
  msgpack_Unmarshal bs = (fst (encodeEntry t), None) ->
  requestEntry_Encode msgpack_Marshal t = (bs, None)
  /\ exists r' resp' err',
       requestEntry_Decode msgpack_Unmarshal url_Parse bs
       = ({| Request := Some r'; Response := resp'; Error := err' |}, None)
       /\ http.Method r' = http.Method r
       /\ http.String_ <$> http.URL_ r' = Some (http.String_ u)
       /\ bodyBytes (http.ReqBody r') = bodyBytes (http.ReqBody r)
       /\ (is_Some resp' <-> exists w, Response t = Some w /\ 0 < http.StatusCode w)
       /\ (forall w w', Response t = Some w -> resp' = Some w' ->
             http.StatusCode w' = http.StatusCode w
             /\ bodyBytes (http.RespBody w') = bodyBytes (http.RespBody w)
             /\ http.RespHeader w' = (fun vs => [hd "" vs]) <$> http.RespHeader w)
       /\ (is_Some err' <-> is_Some (Error t))
       /\ Error_ <$> err' = Error_ <$> Error t.
Proof.
  intros Hr Hu Hb Hw Hm Hp Hs Hmar Hun.
  rewrite (encodeEntry_readable t r u Hr Hu Hb (fun w E => proj1 (Hw w E))) in Hmar, Hun.
  simpl fst in Hmar, Hun.
  split.
  { unfold requestEntry_Encode.
    rewrite (encodeEntry_readable t r u Hr Hu Hb (fun w E => proj1 (Hw w E))).
    exact Hmar. }
  unfold requestEntry_Decode. rewrite Hun.
  rewrite (decodeEntry_serialized url_Parse r u u' _ _ Hm Hp).
  eexists _, _, _. split; [reflexivity|].
  split; [reflexivity|]. split; [simpl; congruence|]. split; [reflexivity|].
  split; [|split; [|split]].
  - destruct (Response t) as [w|]; simpl.
    + destruct (Z.ltb_spec 0 (http.StatusCode w)) as [Hc|Hc]; split.
      * intros _. exists w. auto.
      * intros _. eauto.
      * intros [x Hx]. discriminate.
      * intros (w0 & Hw0 & Hc0). inversion Hw0; subst. lia.
    + split; [intros [x Hx]; discriminate | intros (w0 & Hw0 & _); discriminate].
  - intros w w' Hrw. rewrite Hrw. simpl.
    destruct (Z.ltb_spec 0 (http.StatusCode w)) as [Hc|Hc]; [|discriminate].
    intros Hw'. inversion Hw'; subst w'. simpl.
    split; [reflexivity|]. split; [reflexivity|].
    apply header_roundtrip. exact (proj2 (Hw w Hrw)).
  - destruct (Error t); simpl; split; intros [x Hx]; eauto; discriminate.
  - destruct (Error t) as [e|]; reflexivity.
Qed.

(** *** Entries of cache_test.go *)

(** [testErrReader]: every read fails. *)
Definition testErrReader : http.Body :=
  {| http.data := []; http.readErr := Some (errorString "error found") |}.

Definition requestOf (method : string) (header : http.Header) (body : option http.Body)
    : http.Request :=
  {| http.Method := method;
     http.URL_ := Some (http.mkURL "https://example.com");
     http.ReqHeader := header;
     http.ReqBody := body;
     http.ctx := http.Background |}.

(** A request whose body cannot be read. *)
Definition unreadableEntry : RequestEntry :=
  {| Request := Some (requestOf "GET" ∅ (Some testErrReader));
     Response := None; Error := None |}.

(** A request whose method is no token. *)
Definition badMethodEntry : RequestEntry :=
  {| Request := Some (requestOf "()" ∅ None); Response := None; Error := None |}.

(** A response with two values for one name; a request with a header. *)
Definition twoValuesEntry : RequestEntry :=
  {| Request := Some (requestOf "GET" {[ "Accept" := ["text/html"] ]} None);
     Response := Some (responseOf 200 twiceWritten (bytes_of "hello world"));
     Error := None |}.

(** The first entry of [TestRequestEntryEncoderDecoder], with the header of
    [TestCacheHandler]. *)
Definition helloEntry : RequestEntry :=
  {| Request := Some (requestOf "GET" ∅ None);
     Response := Some (responseOf 200 {[ "X-Test" := ["OK"] ]} (bytes_of "hello world"));
     Error := None |}.

Lemma refcodec_Decode_Encode (t : RequestEntry) r u :
  Request t = Some r -> http.URL_ r = Some u ->
  readable (http.ReqBody r) ->
  (forall w, Response t = Some w -> readable (http.RespBody w)) ->
  snd (refcodec.Encode t) = None
  /\ refcodec.Decode (fst (refcodec.Encode t))
     = decodeEntry refcodec.Parse (serialized r u (Response t) (Error t)).
Proof.
  intros Hr Hu Hb Hw.
  unfold refcodec.Encode, refcodec.Decode, requestEntry_Encode, requestEntry_Decode.
  rewrite (encodeEntry_readable t r u Hr Hu Hb Hw).
  cbv beta iota. split; [reflexivity|].
  rewrite refcodec.Unmarshal_Marshal. reflexivity.
Qed.

(** C6 as stated does not hold, for entries with a request and a URL.
    [Encode] fails when a body cannot be read (the third entry of
    [TestRequestEntryEncoderDecoder_EncodeWithInvalidInput]).  [Decode]
    fails on what [Encode] made of a request whose method is no token (the
    method of [TestRequestEntryEncoderDecoder_DecodeWithInvalidInput]).  Of
    a response header with two values for a name, the first comes back
    alone.  The header of the request does not come back. *)
Lemma requestEntry_roundtrip_fails :
  snd (refcodec.Encode unreadableEntry) = Some (errorString "error found")
  /\ (snd (refcodec.Encode badMethodEntry) = None
      /\ refcodec.Decode (fst (refcodec.Encode badMethodEntry))
         = (zeroRequestEntry,
            Some (errorString ("net/http: invalid method " +:+ strconv_Quote "()"))))
  /\ (snd (refcodec.Encode twoValuesEntry) = None
      /\ snd (refcodec.Decode (fst (refcodec.Encode twoValuesEntry))) = None
      /\ (http.RespHeader <$> Response (fst (refcodec.Decode (fst (refcodec.Encode twoValuesEntry)))))
         = Some {[ "X-Test" := ["first"] ]}
      /\ (http.RespHeader <$> Response twoValuesEntry)
         = Some {[ "X-Test" := ["first"; "last"] ]}
      /\ (http.ReqHeader <$> Request (fst (refcodec.Decode (fst (refcodec.Encode twoValuesEntry)))))
         = Some ∅
      /\ (http.ReqHeader <$> Request twoValuesEntry)
         = Some {[ "Accept" := ["text/html"] ]}).
Proof.
  split; [reflexivity|]. split.
  - destruct (refcodec_Decode_Encode badMethodEntry
                (requestOf "()" ∅ None) (http.mkURL "https://example.com")
                eq_refl eq_refl I) as [H1 H2].
    { intros w Hw. discriminate. }
    split; [exact H1|]. rewrite H2. vm_compute. reflexivity.
  - destruct (refcodec_Decode_Encode twoValuesEntry
                (requestOf "GET" {[ "Accept" := ["text/html"] ]} None)
                (http.mkURL "https://example.com")
                eq_refl eq_refl I) as [H1 H2].
    { intros w Hw. inversion Hw. reflexivity. }
    split; [exact H1|]. rewrite H2.
    repeat split; vm_compute; reflexivity.
Qed.

(** [TestRequestEntryEncoderDecoder]: the entry with a response comes
    back. *)
Lemma requestEntry_roundtrip_witness :
  requestEntry_Encode refcodec.Marshal helloEntry
  = (refcodec.write (fst (encodeEntry helloEntry)), None)
  /\ exists r' resp' err',
       requestEntry_Decode refcodec.Unmarshal refcodec.Parse
         (refcodec.write (fst (encodeEntry helloEntry)))
       = ({| Request := Some r'; Response := resp'; Error := err' |}, None)
       /\ http.Method r' = http.Method (requestOf "GET" ∅ None)
       /\ http.String_ <$> http.URL_ r' = Some (http.String_ (http.mkURL "https://example.com"))
       /\ bodyBytes (http.ReqBody r') = bodyBytes (http.ReqBody (requestOf "GET" ∅ None))
       /\ (is_Some resp' <-> exists w, Response helloEntry = Some w /\ 0 < http.StatusCode w)
       /\ (forall w w', Response helloEntry = Some w -> resp' = Some w' ->
             http.StatusCode w' = http.StatusCode w
             /\ bodyBytes (http.RespBody w') = bodyBytes (http.RespBody w)
             /\ http.RespHeader w' = (fun vs => [hd "" vs]) <$> http.RespHeader w)
       /\ (is_Some err' <-> is_Some (Error helloEntry))
       /\ Error_ <$> err' = Error_ <$> Error helloEntry.
Proof.
  apply (requestEntry_roundtrip refcodec.Marshal refcodec.Unmarshal refcodec.Parse
           helloEntry (requestOf "GET" ∅ None)
           (http.mkURL "https://example.com") (http.mkURL "https://example.com")
           (refcodec.write (fst (encodeEntry helloEntry)))).
  - reflexivity.
  - reflexivity.
  - exact I.
  - intros w Hw. inversion Hw. split; [reflexivity|].
    intros k v Hk. simpl in Hk.
    apply lookup_singleton_Some in Hk as [<- _]. reflexivity.
  - reflexivity.
  - reflexivity.
  - reflexivity.
  - reflexivity.
  - exact (refcodec.Unmarshal_Marshal (fst (encodeEntry helloEntry))).
Defined.

(** ** cacher.go: the storage backends *)

(** Instants are nanoseconds since the Unix epoch.  [Time.UnixNano]
    delivers an instant as an [int64]: it wraps outside the years 1678 to
    2262. *)
Definition int64_modulus : Z := 2 ^ 64.
Definition maxInt64 : Z := 2 ^ 63 - 1.
Definition minInt64 : Z := - 2 ^ 63.

Definition wrap_int64 (z : Z) : Z := (z + 2 ^ 63) mod int64_modulus - 2 ^ 63.

Definition Time_UnixNano (t : Z) : Z := wrap_int64 t.

(** [Time.Add]. *)
Definition Time_Add (t d : Z) : Z := t + d.

(** [time.Unix(nsec/1e9, nsec%1e9)]: the instant [nsec]. *)
Definition time_Unix (nsec : Z) : Z := Z.quot nsec 1000000000 * 1000000000 + Z.rem nsec 1000000000.

(** [Time.Sub]: the difference, held within the range of a [Duration]. *)
Definition Time_Sub (t u : Z) : Z := Z.max minInt64 (Z.min maxInt64 (t - u)).

Lemma wrap_int64_small (z : Z) : minInt64 <= z <= maxInt64 -> wrap_int64 z = z.
Proof.
  unfold wrap_int64, minInt64, maxInt64, int64_modulus. intros H.
  rewrite Z.mod_small; lia.
Qed.

Lemma time_Unix_id (nsec : Z) : time_Unix nsec = nsec.
Proof.
  unfold time_Unix. pose proof (Z.quot_rem' nsec 1000000000). lia.
Qed.

(** *** MemoryCache, over github.com/patrickmn/go-cache *)

(** Modelled from the spec: the in-memory store behind [MemoryCache], a
    library outside the repository.  Values live until their TTL has
    elapsed, and a periodic sweep evicts them; a zero TTL means the default
    expiration of the cache, none for the cache [NewMemoryCache] builds.
    [Set_], [Get] and [DeleteExpired] follow the library's functions of
    these names. *)
Module gocache.

Definition NoExpiration : Z := -1.
Definition DefaultExpiration : Z := 0.

Record Item : Type := mkItem { Object : list byte; Expiration : Z }.

(** A [*cache.Cache]: its default expiration and its items. *)
Record Cache : Type := mkCache { defaultExpiration : Z; items : gmap string Item }.

Definition New (defaultExpiration : Z) : Cache :=
  {| defaultExpiration := defaultExpiration; items := ∅ |}.

(** [Cache.Set(k, x, d)]. *)
Definition Set_ (k : string) (x : list byte) (d : Z) : M Cache unit :=
  fun w =>
    let c := user w in
    let d := if d =? DefaultExpiration then defaultExpiration c else d in
    let e := if 0 <? d then Time_UnixNano (Time_Add (clock w) d) else 0 in
    Ret tt (setUser {| defaultExpiration := defaultExpiration c;
                       items := <[k := {| Object := x; Expiration := e |}]> (items c) |} w).

(** [Cache.Get(k)]: an item past its expiration is not found. *)
Definition Get (k : string) : M Cache (list byte * bool) :=
  fun w =>
    match items (user w) !! k with
    | None => Ret ([], false) w
    | Some item =>
        if (0 <? Expiration item) && (Expiration item <? Time_UnixNano (clock w))
        then Ret ([], false) w
        else Ret (Object item, true) w
    end.

(** [Cache.DeleteExpired], what the janitor runs every cleanup interval. *)
Definition DeleteExpired : M Cache unit :=
  fun w =>
    let c := user w in
    let live (item : Item) : bool :=
      negb ((0 <? Expiration item) && (Expiration item <? Time_UnixNano (clock w))) in
    Ret tt (setUser {| defaultExpiration := defaultExpiration c;
                       items := filter (fun kv => live (snd kv) = true) (items c) |} w).

End gocache.

Record MemoryCache : Type := mkMemoryCache { }.

(** [NewMemoryCache]: the cache it builds has no default expiration. *)
Definition NewMemoryCache_cache : gocache.Cache := gocache.New gocache.NoExpiration.

Definition MemoryCache_Get (c : MemoryCache) (key : list byte)
    : M gocache.Cache (list byte * option error) :=
  '(value, found) <- gocache.Get (string_of key) ;;
  if negb found then ret ([], Some ErrCacheKeyNotFound)
  else ret (value, None).

Definition MemoryCache_Set (c : MemoryCache) (key value : list byte) (ttl : Z)
    : M gocache.Cache (option error) :=
  gocache.Set_ (string_of key) value ttl ;;
  ret None.

Definition MemoryCacher (c : MemoryCache) : Cacher gocache.Cache :=
  {| Cacher_Get := MemoryCache_Get c; Cacher_Set := MemoryCache_Set c |}.

(** What a call returned, without the world. *)
Definition returned {U A} (o : Outcome U A) : option A :=
  match o with
  | Ret a _ => Some a
  | _ => None
  end.

(** The janitor's sweep removes only items that [Get] no longer finds: it
    changes no answer of [MemoryCache.Get]. *)
Lemma MemoryCache_Get_after_sweep (c : MemoryCache) (key : list byte)
    (w w' : World gocache.Cache) :
  gocache.DeleteExpired w = Ret tt w' ->
  returned (MemoryCache_Get c key w') = returned (MemoryCache_Get c key w).
Proof.
  unfold gocache.DeleteExpired. intros H. inversion H; subst w'; clear H.
  unfold MemoryCache_Get, bind, gocache.Get.
  cbn [user setUser clock gocache.items].
  rewrite map_lookup_filter.
  destruct (gocache.items (user w) !! string_of key) as [item|]; simpl; [|reflexivity].
  destruct ((0 <? gocache.Expiration item)
            && (gocache.Expiration item <? Time_UnixNano (clock w))) eqn:E; simpl.
  - reflexivity.
  - rewrite E. reflexivity.
Qed.

(** *** FileCache, over the file system *)

(** Modelled from the spec: the file system behind [FileCache], one file
    per key.  The files are kept by path; every operation of package [os]
    succeeds unless the file it needs is missing. *)
Abbreviation FS := (gmap string (list byte)).

Definition os_Stat (path : string) : M FS (option error) :=
  fun w =>
    match user w !! path with
    | Some _ => Ret None w
    | None => Ret (Some (PathError "stat" path os_ErrNotExist)) w
    end.

Definition os_ReadFile (path : string) : M FS (list byte * option error) :=
  fun w =>
    match user w !! path with
    | Some data => Ret (data, None) w
    | None => Ret ([], Some (PathError "open" path os_ErrNotExist)) w
    end.

Definition os_Remove (path : string) : M FS (option error) :=
  fun w =>
    match user w !! path with
    | Some _ => Ret None (setUser (delete path (user w)) w)
    | None => Ret (Some (PathError "remove" path os_ErrNotExist)) w
    end.

Definition os_WriteFile (path : string) (data : list byte) (perm : Z) : M FS (option error) :=
  fun w => Ret None (setUser (<[path := data]> (user w)) w).

Record fileCacheEntry : Type := mkFileCacheEntry {
  Key : list byte;
  Value : list byte;
  Start : Z;
  TTL : Z
}.

Definition zeroFileCacheEntry : fileCacheEntry :=
  {| Key := []; Value := []; Start := 0; TTL := 0 |}.

Record FileCache : Type := mkFileCache {
  RootDir : string;
  TimeNowFunc : M FS Z;
  Permission : Z
}.

Section FileCacheModel.

(** [msgpack.Marshal] and [msgpack.Unmarshal] at [fileCacheEntry], and
    [path.Join]. *)
Variable msgpack_Marshal : fileCacheEntry -> list byte * option error.
Variable msgpack_Unmarshal : list byte -> fileCacheEntry * option error.
Variable path_Join : string -> string -> string.

Definition NewFileCache (rootDir : string) : FileCache :=
  {| RootDir := rootDir; TimeNowFunc := time_Now; Permission := 420 |}.

Definition FileCache_path (c : FileCache) (key : list byte) : string :=
  path_Join (RootDir c) (string_of key +:+ ".cache").

Definition keyMessage (what : string) (key : list byte) : string :=
  what +:+ ", cache key '" +:+ string_of key +:+ "'".

Definition FileCache_Get (c : FileCache) (key : list byte) : M FS (list byte * option error) :=
  let path := FileCache_path c key in
  err <- os_Stat path ;;
  match err with
  | Some e =>
      if os_IsNotExist e then ret ([], Some ErrCacheKeyNotFound)
      else ret ([], errors_Wrap err (keyMessage "Error checking if file exists" key))
  | None =>
      '(data, err) <- os_ReadFile path ;;
      match err with
      | Some _ => ret ([], errors_Wrap err (keyMessage "Error reading file contents" key))
      | None =>
          let '(e, err) := msgpack_Unmarshal data in
          match err with
          | Some _ => ret ([], errors_Wrap err (keyMessage "Error deserializing cached data" key))
          | None =>
              let nsec := TTL e in
              let ttl := time_Unix nsec in
              now <- TimeNowFunc c ;;
              if 0 <=? Time_Sub ttl now then ret (Value e, None)
              else
                err <- os_Remove path ;;
                match err with
                | Some _ =>
                    ret ([], errors_Wrap err (keyMessage "Error deleting an expired file" key))
                | None => ret ([], Some ErrCacheKeyNotFound)
                end
          end
      end
  end.

Definition FileCache_Set (c : FileCache) (key value : list byte) (ttl : Z) : M FS (option error) :=
  now <- TimeNowFunc c ;;
  let e := {| Key := key; Value := value;
              Start := Time_UnixNano now;
              TTL := Time_UnixNano (Time_Add now ttl) |} in
  let '(data, err) := msgpack_Marshal e in
  match err with
  | Some _ => ret (errors_Wrap err (keyMessage "Error serializing cached data" key))
  | None =>
      let path := FileCache_path c key in
      err <- os_WriteFile path data (Permission c) ;;
      ret (errors_Wrap err (keyMessage "Error writing file contents" key))
  end.

Definition FileCacher (c : FileCache) : Cacher FS :=
  {| Cacher_Get := FileCache_Get c; Cacher_Set := FileCache_Set c |}.

End FileCacheModel.

(** *** RedisCache, over a redis server *)

Module redis.

(** Modelled from the spec: the remote key-value store, which the
    repository reaches through github.com/go-redis/redis.  The store keeps
    a value per key with, when a positive expiration was given, the instant
    from which the key is gone (its native expiration); a key that is
    absent or gone is signalled by [redis.Nil]; a store that cannot be
    reached answers every command with an error. *)
Record Server : Type := mkServer {
  reachable : bool;
  keys : gmap string (string * option Z)
}.

Definition unreachable : error := errorString "dial tcp: connection refused".

(** Modelled from the spec: [GET], with the missing-key signal. *)
Definition Get (key : string) : M Server (string * option error) :=
  fun w =>
    if negb (reachable (user w)) then Ret ("", Some unreachable) w
    else
      match keys (user w) !! key with
      | Some (value, expiry) =>
          match expiry with
          | Some at_ => if at_ <? clock w then Ret ("", Some redis_Nil) w
                        else Ret (value, None) w
          | None => Ret (value, None) w
          end
      | None => Ret ("", Some redis_Nil) w
      end.

(** Modelled from the spec: [SET], with the store's native expiration for
    a positive TTL. *)
Definition Set_ (key value : string) (expiration : Z) : M Server (string * option error) :=
  fun w =>
    if negb (reachable (user w)) then Ret ("", Some unreachable) w
    else
      let expiry := if 0 <? expiration then Some (clock w + expiration) else None in
      Ret ("OK", None)
          (setUser {| reachable := true;
                      keys := <[key := (value, expiry)]> (keys (user w)) |} w).

End redis.

Record RedisCache : Type := mkRedisCache { Prefix : string }.

Definition NewRedisCache : RedisCache := {| Prefix := "" |}.

Definition RedisCache_key (c : RedisCache) (key : list byte) : string :=
  Prefix c +:+ string_of key.

Definition RedisCache_Get (c : RedisCache) (key : list byte)
    : M redis.Server (list byte * option error) :=
  '(value, err) <- redis.Get (RedisCache_key c key) ;;
  match err with
  | Some e =>
      if decide (e = redis_Nil) then ret ([], Some ErrCacheKeyNotFound)
      else ret ([], errors_Wrap err ("Get for cache key '" +:+ string_of key +:+ "'"))
  | None => ret (bytes_of value, None)
  end.

Definition RedisCache_Set (c : RedisCache) (key value : list byte) (ttl : Z)
    : M redis.Server (option error) :=
  '(_, err) <- redis.Set_ (RedisCache_key c key) (string_of value) ttl ;;
  ret (errors_Wrap err ("Set for cache key '" +:+ string_of key +:+ "'")).

Definition RedisCacher (c : RedisCache) : Cacher redis.Server :=
  {| Cacher_Get := RedisCache_Get c; Cacher_Set := RedisCache_Set c |}.

(** *** The contract of the three backends *)

(** Time passes until the clock reads [t]. *)
Definition waitUntil {U} (t : Z) : M U unit := fun w => Ret tt (setClock t w).

(** [Set(key, value, ttl)], then, when the clock reads [t1], [Get(key)]. *)
Definition setThenGet {U} (cacher : Cacher U) (key value : list byte) (ttl t1 : Z)
    : M U (list byte * option error) :=
  Cacher_Set cacher key value ttl ;;
  waitUntil t1 ;;
  Cacher_Get cacher key.

Definition notFound : list byte * option error := ([], Some ErrCacheKeyNotFound).

Lemma string_of_bytes_of (s : string) : string_of (bytes_of s) = s.
Proof. apply string_of_list_byte_of_string. Qed.

Lemma bytes_of_string_of (b : list byte) : bytes_of (string_of b) = b.
Proof. apply list_byte_of_string_of_list_byte. Qed.

Section Backends.

Variables (key value : list byte) (ttl t0 t1 : Z).

(** The clock reads [t0] at the [Set] and [t1] at the [Get]; both instants
    and the expiry are instants [UnixNano] represents, after the epoch. *)
Hypothesis ttl_positive : 0 < ttl.
Hypothesis clock_range : 0 <= t0 <= t1 /\ t1 <= maxInt64.
Hypothesis expiry_range : t0 + ttl <= maxInt64.

Lemma UnixNano_t1 : Time_UnixNano t1 = t1.
Proof. apply wrap_int64_small. unfold minInt64, maxInt64 in *. lia. Qed.

Lemma UnixNano_expiry : Time_UnixNano (Time_Add t0 ttl) = t0 + ttl.
Proof. apply wrap_int64_small. unfold Time_Add, minInt64, maxInt64 in *. lia. Qed.

Lemma MemoryCache_absent (c : MemoryCache) (w : World gocache.Cache) :
  gocache.items (user w) !! string_of key = None ->
  MemoryCache_Get c key w = Ret notFound w.
Proof.
  intros H. unfold MemoryCache_Get, bind, gocache.Get. rewrite H. reflexivity.
Qed.

Lemma MemoryCache_setThenGet (c : MemoryCache) (w : World gocache.Cache) :
  clock w = t0 ->
  exists w', clock w' = t1
    /\ setThenGet (MemoryCacher c) key value ttl t1 w
       = Ret (if t1 <=? t0 + ttl then (value, None) else notFound) w'.
Proof.
  intros Hc.
  unfold setThenGet, MemoryCacher, Cacher_Set, Cacher_Get, MemoryCache_Set, MemoryCache_Get,
    bind, ret, waitUntil, gocache.Set_, gocache.Get, gocache.DefaultExpiration.
  destruct (Z.eqb_spec ttl 0) as [E|_]; [lia|].
  destruct (Z.ltb_spec 0 ttl) as [_|E]; [|lia].
  cbn [user setUser setClock clock gocache.items].
  rewrite lookup_insert_eq. cbn [gocache.Expiration gocache.Object].
  rewrite Hc, UnixNano_expiry, UnixNano_t1.
  destruct (Z.ltb_spec 0 (t0 + ttl)) as [_|E]; [|lia].
  eexists. split; [|destruct (Z.ltb_spec (t0 + ttl) t1), (Z.leb_spec t1 (t0 + ttl));
                     try lia; reflexivity].
  reflexivity.
Qed.

Lemma RedisCache_absent (c : RedisCache) (w : World redis.Server) :
  redis.reachable (user w) = true ->
  redis.keys (user w) !! RedisCache_key c key = None ->
  RedisCache_Get c key w = Ret notFound w.
Proof.
  intros Hr H. unfold RedisCache_Get, bind, redis.Get. rewrite Hr, H. reflexivity.
Qed.

Lemma RedisCache_setThenGet (c : RedisCache) (w : World redis.Server) :
  clock w = t0 -> redis.reachable (user w) = true ->
  exists w', clock w' = t1
    /\ setThenGet (RedisCacher c) key value ttl t1 w
       = Ret (if t1 <=? t0 + ttl then (value, None) else notFound) w'.
Proof.
  intros Hc Hr.
  unfold setThenGet, RedisCacher, Cacher_Set, Cacher_Get, RedisCache_Set, RedisCache_Get,
    bind, ret, waitUntil, redis.Set_, redis.Get.
  rewrite Hr. cbn [negb].
  destruct (Z.ltb_spec 0 ttl) as [_|E]; [|lia].
  cbn [user setUser setClock clock redis.keys redis.reachable negb errors_Wrap].
  rewrite lookup_insert_eq, Hc.
  eexists. split; [|destruct (Z.ltb_spec (t0 + ttl) t1), (Z.leb_spec t1 (t0 + ttl));
                     try lia; cbn; rewrite ?bytes_of_string_of; reflexivity].
  reflexivity.
Qed.

End Backends.

Section FileBackend.

Variable msgpack_Marshal : fileCacheEntry -> list byte * option error.
Variable msgpack_Unmarshal : list byte -> fileCacheEntry * option error.
Variable path_Join : string -> string -> string.

Variables (c : FileCache) (key value : list byte) (ttl t0 t1 : Z) (data : list byte).

Let path : string := FileCache_path path_Join c key.

(** The entry [Set] writes when the clock reads [t0]. *)
Let entry : fileCacheEntry :=
  {| Key := key; Value := value;
     Start := Time_UnixNano t0; TTL := Time_UnixNano (Time_Add t0 ttl) |}.

(** The cache reads the clock, [UnixNano] represents the instant of the
    expiry, and msgpack gives the entry back from the bytes it made of
    it. *)
Hypothesis reads_clock : TimeNowFunc c = time_Now.
Hypothesis expiry : minInt64 <= t0 + ttl <= maxInt64.
Hypothesis marshals : msgpack_Marshal entry = (data, None).
Hypothesis unmarshals : msgpack_Unmarshal data = (entry, None).

Lemma FileCache_absent (w : World FS) :
  user w !! FileCache_path path_Join c key = None ->
  FileCache_Get msgpack_Unmarshal path_Join c key w = Ret notFound w.
Proof.
  intros H. unfold FileCache_Get, bind, os_Stat. rewrite H. reflexivity.
Qed.

Lemma FileCache_Set_writes (w : World FS) :
  clock w = t0 ->
  FileCache_Set msgpack_Marshal path_Join c key value ttl w
  = Ret None (setUser (<[path := data]> (user w)) w).
Proof.
  intros Hc. unfold FileCache_Set, bind. rewrite reads_clock. unfold time_Now.
  rewrite Hc. fold entry. rewrite marshals. reflexivity.
Qed.

Lemma FileCache_Get_written (w : World FS) :
  clock w = t1 -> user w !! path = Some data ->
  FileCache_Get msgpack_Unmarshal path_Join c key w
  = if t1 <=? t0 + ttl then Ret (value, None) w
    else Ret notFound (setUser (delete path (user w)) w).
Proof.
  intros Hc Hfile. unfold FileCache_Get, bind, os_Stat, os_ReadFile, os_Remove.
  fold path. rewrite Hfile. cbv beta iota. rewrite Hfile. cbv beta iota.
  rewrite unmarshals, reads_clock. unfold time_Now. cbv beta iota.
  cbn [TTL entry Value]. rewrite time_Unix_id, Hc.
  unfold Time_UnixNano.
  rewrite (wrap_int64_small (Time_Add t0 ttl)) by exact expiry.
  unfold Time_Add, Time_Sub, minInt64, maxInt64 in *.
  destruct (Z.leb_spec 0 (Z.max (- 2 ^ 63) (Z.min (2 ^ 63 - 1) (t0 + ttl - t1)))),
           (Z.leb_spec t1 (t0 + ttl)); try lia; [reflexivity|].
  rewrite Hfile. reflexivity.
Qed.

Lemma FileCache_setThenGet (w : World FS) :
  clock w = t0 ->
  setThenGet (FileCacher msgpack_Marshal msgpack_Unmarshal path_Join c) key value ttl t1 w
  = if t1 <=? t0 + ttl
    then Ret (value, None) (setClock t1 (setUser (<[path := data]> (user w)) w))
    else Ret notFound (setClock t1 (setUser (delete path (user w)) w)).
Proof.
  intros Hc. unfold setThenGet, FileCacher, Cacher_Set, Cacher_Get.
  unfold bind at 1. rewrite (FileCache_Set_writes w Hc).
  unfold bind at 1, waitUntil.
  rewrite FileCache_Get_written; [| reflexivity | apply lookup_insert_eq].
  destruct (t1 <=? t0 + ttl); [reflexivity|].
  cbn [user setUser setClock clock]. rewrite delete_insert_eq. reflexivity.
Qed.

End FileBackend.

(** *** A serialization of file entries, and a path join, for closed examples *)

Module reffile.

Definition tuple (e : fileCacheEntry) := (Key e, Value e, Start e, TTL e).

Definition untuple (t : list byte * list byte * Z * Z) : fileCacheEntry :=
  let '(k, v, s, t) := t in mkFileCacheEntry k v s t.

#[global] Instance fileCacheEntry_eq_dec : EqDecision fileCacheEntry.
Proof. solve_decision. Defined.

#[global] Instance fileCacheEntry_countable : Countable fileCacheEntry.
Proof. apply (inj_countable' tuple untuple). intros []. reflexivity. Defined.

Definition Marshal (e : fileCacheEntry) : list byte * option error :=
  (refcodec.write e, None).

Definition Unmarshal (bs : list byte) : fileCacheEntry * option error :=
  match refcodec.read bs with
  | Some e => (e, None)
  | None => (zeroFileCacheEntry, Some (errorString "msgpack: invalid code"))
  end.

Lemma Unmarshal_Marshal_entry (e : fileCacheEntry) : Unmarshal (fst (Marshal e)) = (e, None).
Proof. unfold Unmarshal, Marshal. simpl fst. rewrite refcodec.read_write. reflexivity. Qed.

(** [path.Join] of a clean directory and a file name without separator. *)
Definition Join (dir name : string) : string := dir +:+ "/" +:+ name.

End reffile.

(** C8. [Set(key, value, ttl)] is called when the clock reads [t0], with a
    positive [ttl], and [Get(key)] when it reads [t1], not before [t0].
    For the memory, the file and the redis backend: [Get] of a key the store
    does not hold returns [ErrCacheKeyNotFound]; [Get] after [Set] returns
    the stored bytes as long as the TTL has not elapsed ([t1 <= t0 + ttl],
    at once in particular); and returns [ErrCacheKeyNotFound] once it has
    ([t0 + ttl < t1]).  For the file backend that read deletes the file,
    and every later read returns [ErrCacheKeyNotFound]. *)
Theorem Cacher_backends_contract
    (msgpack_Marshal : fileCacheEntry -> list byte * option error)
    (msgpack_Unmarshal : list byte -> fileCacheEntry * option error)
    (path_Join : string -> string -> string)
    (mc : MemoryCache) (fc : FileCache) (rc : RedisCache)
    (key value : list byte) (ttl t0 t1 : Z) (data : list byte)
    (wm : World gocache.Cache) (wf : World FS) (wr : World redis.Server) :
  0 < ttl -> 0 <= t0 <= t1 /\ t1 <= maxInt64 -> t0 + ttl <= maxInt64 ->
  clock wm = t0 -> clock wf = t0 -> clock wr = t0 ->
  TimeNowFunc fc = time_Now ->
  msgpack_Marshal {| Key := key; Value := value; Start := Time_UnixNano t0;
                     TTL := Time_UnixNano (Time_Add t0 ttl) |} = (data, None) ->
  msgpack_Unmarshal data
  = ({| Key := key; Value := value; Start := Time_UnixNano t0;
        TTL := Time_UnixNano (Time_Add t0 ttl) |}, None) ->
  redis.reachable (user wr) = true ->
  (gocache.items (user wm) !! string_of key = None ->
     MemoryCache_Get mc key wm = Ret notFound wm)
  /\ (user wf !! FileCache_path path_Join fc key = None ->
     FileCache_Get msgpack_Unmarshal path_Join fc key wf = Ret notFound wf)
  /\ (redis.keys (user wr) !! RedisCache_key rc key = None ->
     RedisCache_Get rc key wr = Ret notFound wr)
  /\ (t1 <= t0 + ttl ->
     (exists w', setThenGet (MemoryCacher mc) key value ttl t1 wm = Ret (value, None) w')
     /\ (exists w', setThenGet (FileCacher msgpack_Marshal msgpack_Unmarshal path_Join fc)
                      key value ttl t1 wf = Ret (value, None) w')
     /\ (exists w', setThenGet (RedisCacher rc) key value ttl t1 wr = Ret (value, None) w'))
  /\ (t0 + ttl < t1 ->
     (exists w', setThenGet (MemoryCacher mc) key value ttl t1 wm = Ret notFound w')
     /\ (exists w', setThenGet (RedisCacher rc) key value ttl t1 wr = Ret notFound w')
     /\ (exists w',
           setThenGet (FileCacher msgpack_Marshal msgpack_Unmarshal path_Join fc)
             key value ttl t1 wf = Ret notFound w'
           /\ user w' !! FileCache_path path_Join fc key = None
           /\ forall t2,
                FileCache_Get msgpack_Unmarshal path_Join fc key (setClock t2 w')
                = Ret notFound (setClock t2 w'))).
Proof.
  intros Httl Hclk Hexp Hm Hf Hr Hnow Hmar Hun Hreach.
  assert (Hexp' : minInt64 <= t0 + ttl <= maxInt64)
    by (unfold minInt64, maxInt64 in *; lia).
  destruct (MemoryCache_setThenGet key value ttl t0 t1 Httl Hclk Hexp mc wm Hm)
    as (wm' & _ & Hmem).
  destruct (RedisCache_setThenGet key value ttl t0 t1 Httl rc wr Hr Hreach)
    as (wr' & _ & Hred).
  pose proof (FileCache_setThenGet msgpack_Marshal msgpack_Unmarshal path_Join
                fc key value ttl t0 t1 data Hnow Hexp' Hmar Hun wf Hf) as Hfile.
  split; [apply MemoryCache_absent|].
  split; [apply FileCache_absent|].
  split; [apply RedisCache_absent; assumption|].
  split.
  - intros Hle.
    destruct (Z.leb_spec t1 (t0 + ttl)) as [_|E]; [|lia].
    repeat split; eexists; eassumption.
  - intros Hgt.
    destruct (Z.leb_spec t1 (t0 + ttl)) as [E|_]; [lia|].
    split; [eexists; eassumption|]. split; [eexists; eassumption|].
    eexists. split; [exact Hfile|].
    split; [apply lookup_delete_eq|].
    intros t2. apply FileCache_absent. apply lookup_delete_eq.
Qed.

Lemma MemoryCache_zero_ttl (c : MemoryCache) (key value : list byte) (t : Z)
    (w : World gocache.Cache) :
  gocache.defaultExpiration (user w) = gocache.NoExpiration ->
  exists w', setThenGet (MemoryCacher c) key value 0 t w = Ret (value, None) w'.
Proof.
  intros Hd.
  unfold setThenGet, MemoryCacher, Cacher_Set, Cacher_Get, MemoryCache_Set, MemoryCache_Get,
    bind, ret, waitUntil, gocache.Set_, gocache.Get, gocache.DefaultExpiration.
  rewrite Hd. cbn [Z.eqb gocache.NoExpiration Z.ltb Z.compare].
  cbn [user setUser setClock clock gocache.items].
  rewrite lookup_insert_eq. cbn. eexists. reflexivity.
Qed.

(** C10. [Set(key, value, 0)] on the file backend, when the clock reads
    [t0], writes an entry whose expiry is its start, the instant [t0].  A
    [Get(key)] whose clock reads a later instant [t1] finds the entry
    expired: it deletes the file and returns [ErrCacheKeyNotFound].  On the
    memory backend, as [NewMemoryCache] builds it, [Set] with a zero TTL
    stores the value for good: [Get] returns it at any instant. *)
Theorem FileCache_zero_ttl
    (msgpack_Marshal : fileCacheEntry -> list byte * option error)
    (msgpack_Unmarshal : list byte -> fileCacheEntry * option error)
    (path_Join : string -> string -> string)
    (mc : MemoryCache) (fc : FileCache)
    (key value : list byte) (t0 t1 : Z) (data : list byte)
    (wm : World gocache.Cache) (wf : World FS) :
  minInt64 <= t0 <= maxInt64 -> t0 < t1 ->
  clock wf = t0 -> clock wm = t0 ->
  TimeNowFunc fc = time_Now ->
  gocache.defaultExpiration (user wm) = gocache.NoExpiration ->
  msgpack_Marshal {| Key := key; Value := value; Start := Time_UnixNano t0;
                     TTL := Time_UnixNano (Time_Add t0 0) |} = (data, None) ->
  msgpack_Unmarshal data
  = ({| Key := key; Value := value; Start := Time_UnixNano t0;
        TTL := Time_UnixNano (Time_Add t0 0) |}, None) ->
  (Time_UnixNano (Time_Add t0 0) = Time_UnixNano t0 /\ Time_UnixNano t0 = t0)
  /\ FileCache_Set msgpack_Marshal path_Join fc key value 0 wf
     = Ret None (setUser (<[FileCache_path path_Join fc key := data]> (user wf)) wf)
  /\ setThenGet (FileCacher msgpack_Marshal msgpack_Unmarshal path_Join fc) key value 0 t1 wf
     = Ret notFound (setClock t1 (setUser (delete (FileCache_path path_Join fc key) (user wf)) wf))
  /\ user (setClock t1 (setUser (delete (FileCache_path path_Join fc key) (user wf)) wf))
       !! FileCache_path path_Join fc key = None
  /\ (forall t, exists w',
        setThenGet (MemoryCacher mc) key value 0 t wm = Ret (value, None) w').
Proof.
  intros Ht0 Hlt Hf Hm Hnow Hdef Hmar Hun.
  assert (Hexp : minInt64 <= t0 + 0 <= maxInt64) by lia.
  split.
  { unfold Time_Add. rewrite Z.add_0_r. split; [reflexivity|].
    apply wrap_int64_small. exact Ht0. }
  split.
  { exact (FileCache_Set_writes msgpack_Marshal path_Join fc key value 0 t0 data
             Hnow Hmar wf Hf). }
  split.
  { rewrite (FileCache_setThenGet msgpack_Marshal msgpack_Unmarshal path_Join
               fc key value 0 t0 t1 data Hnow Hexp Hmar Hun wf Hf).
    destruct (Z.leb_spec t1 (t0 + 0)) as [E|_]; [lia | reflexivity]. }
  split.
  { cbn [user setUser setClock]. apply lookup_delete_eq. }
  intros t. apply MemoryCache_zero_ttl. exact Hdef.
Qed.

(** *** The runs of option_test.go and cache_test.go *)

Definition exampleKey : list byte := bytes_of "c65fa2b3-4b8b-4485-af0e-3beea0d3373a".
Definition exampleValue : list byte := bytes_of "value".

Definition tmpFileCache : FileCache := NewFileCache "/tmp".

(** The entry [Set] writes at the instant [t0] with the TTL [ttl], and the
    bytes of its file. *)
Definition exampleFileEntry (t0 ttl : Z) : fileCacheEntry :=
  {| Key := exampleKey; Value := exampleValue;
     Start := Time_UnixNano t0; TTL := Time_UnixNano (Time_Add t0 ttl) |}.

Definition exampleFileData (t0 ttl : Z) : list byte :=
  refcodec.write (exampleFileEntry t0 ttl).

Definition emptyMemory (t0 : Z) : World gocache.Cache := mkWorld t0 NewMemoryCache_cache.
Definition emptyDisk (t0 : Z) : World FS := mkWorld t0 ∅.
Definition emptyRedis (t0 : Z) : World redis.Server :=
  mkWorld t0 {| redis.reachable := true; redis.keys := ∅ |}.

(** [TestFileCache] and [TestRedisCache]: a TTL of 100ms, and a [Get] right
    after the [Set]. *)
Lemma Cacher_backends_contract_witness :
  (gocache.items (user (emptyMemory 1000)) !! string_of exampleKey = None ->
     MemoryCache_Get mkMemoryCache exampleKey (emptyMemory 1000)
     = Ret notFound (emptyMemory 1000))
  /\ (user (emptyDisk 1000) !! FileCache_path reffile.Join tmpFileCache exampleKey = None ->
     FileCache_Get reffile.Unmarshal reffile.Join tmpFileCache exampleKey (emptyDisk 1000)
     = Ret notFound (emptyDisk 1000))
  /\ (redis.keys (user (emptyRedis 1000)) !! RedisCache_key NewRedisCache exampleKey = None ->
     RedisCache_Get NewRedisCache exampleKey (emptyRedis 1000) = Ret notFound (emptyRedis 1000))
  /\ (1000 <= 1000 + 100 * Millisecond ->
     (exists w', setThenGet (MemoryCacher mkMemoryCache) exampleKey exampleValue
                   (100 * Millisecond) 1000 (emptyMemory 1000) = Ret (exampleValue, None) w')
     /\ (exists w', setThenGet (FileCacher reffile.Marshal reffile.Unmarshal reffile.Join tmpFileCache)
                      exampleKey exampleValue (100 * Millisecond) 1000 (emptyDisk 1000)
                    = Ret (exampleValue, None) w')
     /\ (exists w', setThenGet (RedisCacher NewRedisCache) exampleKey exampleValue
                      (100 * Millisecond) 1000 (emptyRedis 1000) = Ret (exampleValue, None) w'))
  /\ (1000 + 100 * Millisecond < 1000 ->
     (exists w', setThenGet (MemoryCacher mkMemoryCache) exampleKey exampleValue
                   (100 * Millisecond) 1000 (emptyMemory 1000) = Ret notFound w')
     /\ (exists w', setThenGet (RedisCacher NewRedisCache) exampleKey exampleValue
                      (100 * Millisecond) 1000 (emptyRedis 1000) = Ret notFound w')
     /\ (exists w',
           setThenGet (FileCacher reffile.Marshal reffile.Unmarshal reffile.Join tmpFileCache)
             exampleKey exampleValue (100 * Millisecond) 1000 (emptyDisk 1000)
           = Ret notFound w'
           /\ user w' !! FileCache_path reffile.Join tmpFileCache exampleKey = None
           /\ forall t2,
                FileCache_Get reffile.Unmarshal reffile.Join tmpFileCache exampleKey
                  (setClock t2 w')
                = Ret notFound (setClock t2 w'))).
Proof.
  apply (Cacher_backends_contract reffile.Marshal reffile.Unmarshal reffile.Join
           mkMemoryCache tmpFileCache NewRedisCache exampleKey exampleValue
           (100 * Millisecond) 1000 1000 (exampleFileData 1000 (100 * Millisecond))
           (emptyMemory 1000) (emptyDisk 1000) (emptyRedis 1000)).
  - unfold Millisecond. lia.
  - unfold maxInt64. lia.
  - unfold maxInt64, Millisecond. lia.
  - reflexivity.
  - reflexivity.
  - reflexivity.
  - reflexivity.
  - reflexivity.
  - exact (reffile.Unmarshal_Marshal_entry (exampleFileEntry 1000 (100 * Millisecond))).
  - reflexivity.
Defined.

(** A zero TTL, and a [Get] one nanosecond after the [Set]. *)
Lemma FileCache_zero_ttl_witness :
  (Time_UnixNano (Time_Add 1000 0) = Time_UnixNano 1000 /\ Time_UnixNano 1000 = 1000)
  /\ FileCache_Set reffile.Marshal reffile.Join tmpFileCache exampleKey exampleValue 0
       (emptyDisk 1000)
     = Ret None
         (setUser (<[FileCache_path reffile.Join tmpFileCache exampleKey
                     := exampleFileData 1000 0]> (user (emptyDisk 1000))) (emptyDisk 1000))
  /\ setThenGet (FileCacher reffile.Marshal reffile.Unmarshal reffile.Join tmpFileCache)
       exampleKey exampleValue 0 1001 (emptyDisk 1000)
     = Ret notFound
         (setClock 1001
            (setUser (delete (FileCache_path reffile.Join tmpFileCache exampleKey)
                        (user (emptyDisk 1000))) (emptyDisk 1000)))
  /\ user (setClock 1001
             (setUser (delete (FileCache_path reffile.Join tmpFileCache exampleKey)
                         (user (emptyDisk 1000))) (emptyDisk 1000)))
       !! FileCache_path reffile.Join tmpFileCache exampleKey = None
  /\ (forall t, exists w',
        setThenGet (MemoryCacher mkMemoryCache) exampleKey exampleValue 0 t (emptyMemory 1000)
        = Ret (exampleValue, None) w').
Proof.
  apply (FileCache_zero_ttl reffile.Marshal reffile.Unmarshal reffile.Join
           mkMemoryCache tmpFileCache exampleKey exampleValue 1000 1001
           (exampleFileData 1000 0) (emptyMemory 1000) (emptyDisk 1000)).
  - unfold minInt64, maxInt64. lia.
  - lia.
  - reflexivity.
  - reflexivity.
  - reflexivity.
  - reflexivity.
  - reflexivity.
  - exact (reffile.Unmarshal_Marshal_entry (exampleFileEntry 1000 0)).
Defined.

(** The option of [NewMemoryCacheOption], with the reference
    serialization. *)
Definition memoryCacheOption : CacheOption gocache.Cache :=
  NewCacheOption (MemoryCacher mkMemoryCache)
    (requestEntryEncoderDecoder refcodec.Marshal refcodec.Unmarshal refcodec.Parse).

Definition exampleHash : list byte :=
  bytes_of (base64.URLEncoding_EncodeToString (sha1.Sum (bytes_of "https://example.com"))).

Definition helloDownstream : RequestHandlerFunc gocache.Cache :=
  fun req => ret (Some (responseOf 200 {[ "X-Test" := ["OK"] ]} (bytes_of "hello world")), None).

(** [TestCacheHandler]: a [GET] of https://example.com has a fingerprint. *)
Lemma CacheHandler_lookup_witness :
  (forall value w1 re w2 (g : RequestHandlerFunc gocache.Cache),
      Cacher_Get (Cacher_ memoryCacheOption) exampleHash (emptyMemory 1000) = Ret (value, None) w1 ->
      Decode (EncoderDecoder memoryCacheOption) value w1 = Ret (re, None) w2 ->
      CacheHandler memoryCacheOption (Some (exampleRequest http.Background)) g (emptyMemory 1000)
      = Ret (Response re, Error re) w2)
  /\ (forall value e w1,
      Cacher_Get (Cacher_ memoryCacheOption) exampleHash (emptyMemory 1000)
      = Ret (value, Some e) w1 ->
      CacheHandler memoryCacheOption (Some (exampleRequest http.Background))
        helloDownstream (emptyMemory 1000)
      = callAndStore memoryCacheOption (Some (exampleRequest http.Background))
          helloDownstream w1)
  /\ (forall value w1 re e w2,
      Cacher_Get (Cacher_ memoryCacheOption) exampleHash (emptyMemory 1000)
      = Ret (value, None) w1 ->
      Decode (EncoderDecoder memoryCacheOption) value w1 = Ret (re, Some e) w2 ->
      CacheHandler memoryCacheOption (Some (exampleRequest http.Background))
        helloDownstream (emptyMemory 1000)
      = callAndStore memoryCacheOption (Some (exampleRequest http.Background))
          helloDownstream w2)
  /\ (forall v msg v',
      helloDownstream (Some (exampleRequest http.Background)) v = Panic msg v' ->
      callAndStore memoryCacheOption (Some (exampleRequest http.Background))
        helloDownstream v = Panic msg v')
  /\ (forall v resp' err' v',
      callAndStore memoryCacheOption (Some (exampleRequest http.Background))
        helloDownstream v = Ret (resp', err') v' ->
      exists resp err v1,
        helloDownstream (Some (exampleRequest http.Background)) v = Ret (resp, err) v1
        /\ ((resp', err') = (resp, err)
            \/ (resp' = None
                /\ exists value encErr v2,
                     Encode (EncoderDecoder memoryCacheOption)
                       {| Request := Some (exampleRequest http.Background);
                          Response := resp; Error := err |} v2
                     = Ret (value, Some encErr) v'
                     /\ err' = Some (withMessage encErr "Serialization request")))).
Proof.
  apply (CacheHandler_lookup memoryCacheOption (Some (exampleRequest http.Background))
           helloDownstream (emptyMemory 1000) (emptyMemory 1000) exampleHash).
  change (Ret (defaultRequestHash (Some (exampleRequest http.Background))) (emptyMemory 1000)
          = Ret (Some exampleHash) (emptyMemory 1000)).
  unfold defaultRequestHash, exampleRequest, exampleHash.
  cbn [http.URL_ http.Method http.String_].
  reflexivity.
Defined.

(** *** A cached response is served without the downstream handler *)

Lemma defaultRequestHash_GET (r : http.Request) (u : http.URL) :
  http.URL_ r = Some u -> http.Method r = http.MethodGet ->
  defaultRequestHash (Some r)
  = Some (bytes_of (base64.URLEncoding_EncodeToString (sha1.Sum (bytes_of (http.String_ u))))).
Proof. intros Hu Hm. unfold defaultRequestHash. rewrite Hu, Hm. reflexivity. Qed.

(** The fingerprint of a URL. *)
Definition fingerprint (u : http.URL) : list byte :=
  bytes_of (base64.URLEncoding_EncodeToString (sha1.Sum (bytes_of (http.String_ u)))).

(** [NewMemoryCacheOption]: the default option over the memory store.  Its
    codec is [requestEntryEncoderDecoder{}], which calls msgpack and
    [url.Parse]; they are passed in. *)
Definition NewMemoryCacheOption
    (msgpack_Marshal : HRR.HTTPRequestResponse -> list byte * option error)
    (msgpack_Unmarshal : list byte -> HRR.HTTPRequestResponse * option error)
    (url_Parse : string -> http.URL + error) : CacheOption gocache.Cache :=
  NewCacheOption (MemoryCacher mkMemoryCache)
    (requestEntryEncoderDecoder msgpack_Marshal msgpack_Unmarshal url_Parse).

(** The memory store after the bytes [bs] were stored for the URL [u] at
    the instant [t0] with the default TTL. *)
Definition storedWorld (u : http.URL) (bs : list byte) (wA : World gocache.Cache) (t0 : Z)
    : World gocache.Cache :=
  setUser {| gocache.defaultExpiration := gocache.defaultExpiration (user wA);
             gocache.items :=
               <[string_of (fingerprint u)
                 := {| gocache.Object := bs;
                       gocache.Expiration := t0 + 5 * Minute |}]>
                 (gocache.items (user wA)) |} wA.

Section CachedResponse.

Variable msgpack_Marshal : HRR.HTTPRequestResponse -> list byte * option error.
Variable msgpack_Unmarshal : list byte -> HRR.HTTPRequestResponse * option error.
Variable url_Parse : string -> http.URL + error.

Variables (r : http.Request) (u u' : http.URL) (resp : http.Response) (bs : list byte).
Variable handlerFunc : RequestHandlerFunc gocache.Cache.
Variables (w wA : World gocache.Cache) (t0 : Z).

Let opt : CacheOption gocache.Cache :=
  NewMemoryCacheOption msgpack_Marshal msgpack_Unmarshal url_Parse.

(** A [GET] request and a response with status 200, as
    [DefaultShouldCacheFunc] wants them; the downstream handler returns the
    response at the instant [t0], and nothing is stored yet for the
    request. *)
Hypothesis is_GET : http.Method r = http.MethodGet.
Hypothesis has_URL : http.URL_ r = Some u.
Hypothesis request_readable : readable (http.ReqBody r).
Hypothesis is_OK : http.StatusCode resp = http.StatusOK.
Hypothesis response_readable : readable (http.RespBody resp).
Hypothesis downstream : handlerFunc (Some r) w = Ret (Some resp, None) wA.
Hypothesis at_t0 : clock wA = t0.
Hypothesis t0_range : 0 <= t0 /\ t0 + 5 * Minute <= maxInt64.
Hypothesis nothing_stored : gocache.items (user w) !! string_of (fingerprint u) = None.

(** msgpack makes the bytes [bs] of the serialized entry and returns the
    serialized entry from them, and [url.Parse] accepts the text of the
    URL. *)
Hypothesis marshals : msgpack_Marshal (serialized r u (Some resp) None) = (bs, None).
Hypothesis unmarshals : msgpack_Unmarshal bs = (serialized r u (Some resp) None, None).
Hypothesis parses : url_Parse (http.String_ u) = inl u'.

Lemma NewMemoryCacheOption_hash req resp' err' (v : World gocache.Cache) :
  RequestHashFunc opt req resp' err' v = Ret (defaultRequestHash req) v.
Proof. reflexivity. Qed.

Lemma NewMemoryCacheOption_Encode :
  requestEntry_Encode msgpack_Marshal
    {| Request := Some r; Response := Some resp; Error := None |}
  = (bs, None).
Proof.
  unfold requestEntry_Encode.
  rewrite (encodeEntry_readable {| Request := Some r; Response := Some resp; Error := None |}
             r u eq_refl has_URL request_readable).
  - exact marshals.
  - intros w0 Hw0. inversion Hw0; subst. exact response_readable.
Qed.

Lemma NewMemoryCacheOption_Decode :
  requestEntry_Decode msgpack_Unmarshal url_Parse bs
  = (decodedEntry r u' (Some resp) None, None).
Proof.
  unfold requestEntry_Decode. rewrite unmarshals.
  apply decodeEntry_serialized; [rewrite is_GET; reflexivity | exact parses].
Qed.

Lemma CacheHandler_first_call :
  CacheHandler opt (Some r) handlerFunc w = Ret (Some resp, None) (storedWorld u bs wA t0).
Proof.
  unfold CacheHandler, cacheLookup. unfold bind at 1. unfold bind at 1.
  rewrite NewMemoryCacheOption_hash, (defaultRequestHash_GET r u has_URL is_GET).
  fold (fingerprint u).
  change (Cacher_Get (Cacher_ opt)) with (MemoryCache_Get mkMemoryCache).
  unfold bind at 1.
  rewrite (MemoryCache_absent (fingerprint u) mkMemoryCache w nothing_stored).
  unfold notFound. cbv beta iota. unfold ret at 1.
  unfold callAndStore. unfold bind at 1. rewrite downstream.
  change (ShouldCacheFunc opt) with (@DefaultShouldCacheFunc gocache.Cache).
  unfold bind at 1, DefaultShouldCacheFunc, ret at 1.
  rewrite has_URL, is_GET, is_OK. cbn [String.eqb Ascii.eqb Bool.eqb http.MethodGet
    http.StatusOK Z.eqb Pos.eqb andb negb].
  unfold bind at 1.
  rewrite NewMemoryCacheOption_hash, (defaultRequestHash_GET r u has_URL is_GET).
  fold (fingerprint u).
  change (Encode (EncoderDecoder opt))
    with (fun entry => @ret gocache.Cache _ (requestEntry_Encode msgpack_Marshal entry)).
  unfold bind at 1, ret at 1. rewrite NewMemoryCacheOption_Encode.
  change (CacheTTLFunc opt) with (@DefaultCacheTTLFunc gocache.Cache).
  change (Cacher_Set (Cacher_ opt)) with (MemoryCache_Set mkMemoryCache).
  unfold bind, DefaultCacheTTLFunc, MemoryCache_Set, ret, gocache.Set_,
    gocache.DefaultExpiration, storedWorld.
  assert (Hpos : 0 < 5 * Minute) by (unfold Minute, Millisecond; lia).
  destruct (Z.eqb_spec (5 * Minute) 0) as [E|_]; [lia|].
  destruct (Z.ltb_spec 0 (5 * Minute)) as [_|E]; [|lia].
  unfold bind. cbv beta iota.
  unfold Time_UnixNano, Time_Add. rewrite at_t0.
  rewrite wrap_int64_small by (unfold minInt64, maxInt64 in *; lia).
  reflexivity.
Qed.

Lemma MemoryCache_Get_stored (t1 : Z) :
  0 <= t1 <= maxInt64 ->
  MemoryCache_Get mkMemoryCache (fingerprint u) (setClock t1 (storedWorld u bs wA t0))
  = Ret (if t1 <=? t0 + 5 * Minute then (bs, None) else notFound)
        (setClock t1 (storedWorld u bs wA t0)).
Proof.
  intros Ht1. unfold MemoryCache_Get, bind, gocache.Get, storedWorld.
  cbn [user setUser setClock clock gocache.items].
  rewrite lookup_insert_eq. cbn [gocache.Expiration gocache.Object].
  unfold Time_UnixNano. rewrite wrap_int64_small by (unfold minInt64, maxInt64 in *; lia).
  assert (Hpos : 0 < 5 * Minute) by (unfold Minute, Millisecond; lia).
  destruct (Z.ltb_spec 0 (t0 + 5 * Minute)) as [_|E]; [|lia].
  destruct (Z.ltb_spec (t0 + 5 * Minute) t1), (Z.leb_spec t1 (t0 + 5 * Minute));
    try lia; reflexivity.
Qed.

(** A later [GET] of a URL with the same text, whatever else the request
    holds. *)
Lemma CacheHandler_hit (r2 : http.Request) (u2 : http.URL)
    (g : RequestHandlerFunc gocache.Cache) (t1 : Z) :
  http.Method r2 = http.MethodGet -> http.URL_ r2 = Some u2 ->
  http.String_ u2 = http.String_ u ->
  0 <= t1 <= t0 + 5 * Minute ->
  CacheHandler opt (Some r2) g (setClock t1 (storedWorld u bs wA t0))
  = Ret (Some (decodedResponse (decodedRequest r u') resp), None)
        (setClock t1 (storedWorld u bs wA t0)).
Proof.
  intros Hget2 Hurl2 Hsame Ht1.
  unfold CacheHandler, cacheLookup. unfold bind at 1. unfold bind at 1.
  rewrite NewMemoryCacheOption_hash, (defaultRequestHash_GET r2 u2 Hurl2 Hget2), Hsame.
  fold (fingerprint u).
  change (Cacher_Get (Cacher_ opt)) with (MemoryCache_Get mkMemoryCache).
  unfold bind at 1. rewrite MemoryCache_Get_stored by lia.
  destruct (Z.leb_spec t1 (t0 + 5 * Minute)) as [_|E]; [|lia].
  change (Decode (EncoderDecoder opt))
    with (fun value => @ret gocache.Cache _
                         (requestEntry_Decode msgpack_Unmarshal url_Parse value)).
  unfold bind, ret. rewrite NewMemoryCacheOption_Decode.
  unfold decodedEntry. cbn [Response Error fmap option_fmap option_map].
  rewrite is_OK. reflexivity.
Qed.

Lemma CacheHandler_expired (g : RequestHandlerFunc gocache.Cache) (t1 : Z) :
  t0 + 5 * Minute < t1 <= maxInt64 ->
  CacheHandler opt (Some r) g (setClock t1 (storedWorld u bs wA t0))
  = callAndStore opt (Some r) g (setClock t1 (storedWorld u bs wA t0)).
Proof.
  intros Ht1. unfold CacheHandler, cacheLookup. unfold bind at 1. unfold bind at 1.
  rewrite NewMemoryCacheOption_hash, (defaultRequestHash_GET r u has_URL is_GET).
  fold (fingerprint u).
  change (Cacher_Get (Cacher_ opt)) with (MemoryCache_Get mkMemoryCache).
  assert (Hpos : 0 < 5 * Minute) by (unfold Minute, Millisecond; lia).
  unfold bind at 1. rewrite MemoryCache_Get_stored by lia.
  destruct (Z.leb_spec t1 (t0 + 5 * Minute)) as [E|_]; [lia|].
  reflexivity.
Qed.

End CachedResponse.

(** X1 ([TestCacheHandler]).  The option is the one of
    [NewMemoryCacheOption]; msgpack makes bytes of the serialized entry and
    returns the serialized entry from them, and [url.Parse] accepts the text
    of the URL.  A first [GET] that the downstream handler answers with
    status 200 is stored under the fingerprint of its URL.  For the five
    minutes of the default TTL the same request is answered from the store,
    whatever the downstream handler is: the transport was invoked once.
    After that the lookup misses and [CacheHandler] calls downstream
    again. *)
Theorem CacheHandler_serves_cached
    (msgpack_Marshal : HRR.HTTPRequestResponse -> list byte * option error)
    (msgpack_Unmarshal : list byte -> HRR.HTTPRequestResponse * option error)
    (url_Parse : string -> http.URL + error)
    (r : http.Request) (u u' : http.URL) (resp : http.Response) (bs : list byte)
    (handlerFunc : RequestHandlerFunc gocache.Cache) (w wA : World gocache.Cache) (t0 : Z) :
  http.Method r = http.MethodGet -> http.URL_ r = Some u ->
  readable (http.ReqBody r) ->
  http.StatusCode resp = http.StatusOK -> readable (http.RespBody resp) ->
  handlerFunc (Some r) w = Ret (Some resp, None) wA -> clock wA = t0 ->
  0 <= t0 /\ t0 + 5 * Minute <= maxInt64 ->
  gocache.items (user w) !! string_of (fingerprint u) = None ->
  msgpack_Marshal (serialized r u (Some resp) None) = (bs, None) ->
  msgpack_Unmarshal bs = (serialized r u (Some resp) None, None) ->
  url_Parse (http.String_ u) = inl u' ->
  CacheHandler (NewMemoryCacheOption msgpack_Marshal msgpack_Unmarshal url_Parse)
    (Some r) handlerFunc w
  = Ret (Some resp, None) (storedWorld u bs wA t0)
  /\ (forall (g : RequestHandlerFunc gocache.Cache) t1,
        t0 <= t1 <= t0 + 5 * Minute ->
        CacheHandler (NewMemoryCacheOption msgpack_Marshal msgpack_Unmarshal url_Parse)
          (Some r) g (setClock t1 (storedWorld u bs wA t0))
        = Ret (Some (decodedResponse (decodedRequest r u') resp), None)
              (setClock t1 (storedWorld u bs wA t0)))
  /\ (forall (g : RequestHandlerFunc gocache.Cache) t1,
        t0 + 5 * Minute < t1 <= maxInt64 ->
        CacheHandler (NewMemoryCacheOption msgpack_Marshal msgpack_Unmarshal url_Parse)
          (Some r) g (setClock t1 (storedWorld u bs wA t0))
        = callAndStore (NewMemoryCacheOption msgpack_Marshal msgpack_Unmarshal url_Parse)
            (Some r) g (setClock t1 (storedWorld u bs wA t0))).
Proof.
  intros Hget Hurl Hrb Hok Hwb Hf Ht0 Hrange Hnone Hmar Hun Hp. split; [|split].
  - eapply CacheHandler_first_call; eassumption.
  - intros g t1 Ht1.
    apply (CacheHandler_hit msgpack_Marshal msgpack_Unmarshal url_Parse r u u' resp bs wA t0
             Hget Hok Hrange Hun Hp r u g t1 Hget Hurl eq_refl).
    lia.
  - intros g t1 Ht1. eapply CacheHandler_expired; eassumption.
Qed.

(** The bytes the reference serialization makes of the entry of
    [TestCacheHandler]. *)
Definition helloBytes : list byte :=
  refcodec.write (serialized (requestOf "GET" ∅ None) (http.mkURL "https://example.com")
                    (Some (responseOf 200 {[ "X-Test" := ["OK"] ]} (bytes_of "hello world")))
                    None).

Lemma CacheHandler_serves_cached_witness :
  CacheHandler (NewMemoryCacheOption refcodec.Marshal refcodec.Unmarshal refcodec.Parse)
    (Some (requestOf "GET" ∅ None)) helloDownstream (emptyMemory 1000)
  = Ret (Some (responseOf 200 {[ "X-Test" := ["OK"] ]} (bytes_of "hello world")), None)
        (storedWorld (http.mkURL "https://example.com") helloBytes (emptyMemory 1000) 1000)
  /\ (forall (g : RequestHandlerFunc gocache.Cache) t1,
        1000 <= t1 <= 1000 + 5 * Minute ->
        CacheHandler (NewMemoryCacheOption refcodec.Marshal refcodec.Unmarshal refcodec.Parse)
          (Some (requestOf "GET" ∅ None)) g
          (setClock t1
             (storedWorld (http.mkURL "https://example.com") helloBytes (emptyMemory 1000) 1000))
        = Ret (Some (decodedResponse
                       (decodedRequest (requestOf "GET" ∅ None)
                          (http.mkURL "https://example.com"))
                       (responseOf 200 {[ "X-Test" := ["OK"] ]} (bytes_of "hello world"))),
               None)
              (setClock t1
                 (storedWorld (http.mkURL "https://example.com") helloBytes
                    (emptyMemory 1000) 1000)))
  /\ (forall (g : RequestHandlerFunc gocache.Cache) t1,
        1000 + 5 * Minute < t1 <= maxInt64 ->
        CacheHandler (NewMemoryCacheOption refcodec.Marshal refcodec.Unmarshal refcodec.Parse)
          (Some (requestOf "GET" ∅ None)) g
          (setClock t1
             (storedWorld (http.mkURL "https://example.com") helloBytes (emptyMemory 1000) 1000))
        = callAndStore
            (NewMemoryCacheOption refcodec.Marshal refcodec.Unmarshal refcodec.Parse)
            (Some (requestOf "GET" ∅ None)) g
            (setClock t1
               (storedWorld (http.mkURL "https://example.com") helloBytes
                  (emptyMemory 1000) 1000))).
Proof.
  apply (CacheHandler_serves_cached refcodec.Marshal refcodec.Unmarshal refcodec.Parse
           (requestOf "GET" ∅ None)
           (http.mkURL "https://example.com") (http.mkURL "https://example.com")
           (responseOf 200 {[ "X-Test" := ["OK"] ]} (bytes_of "hello world"))
           helloBytes helloDownstream (emptyMemory 1000) (emptyMemory 1000) 1000).
  - reflexivity.
  - reflexivity.
  - exact I.
  - reflexivity.
  - reflexivity.
  - reflexivity.
  - reflexivity.
  - unfold maxInt64, Minute, Millisecond. lia.
  - apply lookup_empty.
  - reflexivity.
  - exact (refcodec.Unmarshal_Marshal
             (serialized (requestOf "GET" ∅ None) (http.mkURL "https://example.com")
                (Some (responseOf 200 {[ "X-Test" := ["OK"] ]} (bytes_of "hello world")))
                None)).
  - reflexivity.
Defined.

(** ** Further properties of the chain and of the retry controller *)

(** An interceptor that records its entry and answers [r] itself, without
    calling its next-callable (a cache hit, an open circuit). *)
Definition answering (i : nat) (r : Result) : RequestHandler (list Event) :=
  fun req next => emit (Enter i) ;; ret r.

Lemma compose_answering (ids : list nat) (i : nat) (r : Result)
    (post : list (RequestHandler (list Event))) (T : RequestHandlerFunc (list Event))
    req (w : World (list Event)) :
  compose (map forwarding ids ++ answering i r :: post) T req w
  = Ret r (setUser (user w ++ map Enter ids ++ [Enter i] ++ map Leave (rev ids)) w).
Proof.
  revert w. induction ids as [|j ids IH]; intros w.
  - reflexivity.
  - simpl app. simpl compose. unfold forwarding at 1. unfold bind, emit at 1.
    rewrite IH. unfold emit, ret, setUser. simpl.
    f_equal. f_equal.
    rewrite map_app. simpl.
    repeat rewrite <- app_assoc. simpl. reflexivity.
Qed.

(** X2.  An interceptor that does not call its next-callable cuts the chain
    short: the interceptors before it are entered in order and return in
    reverse order, and neither the interceptors after it nor the terminal
    call run, whatever they are. *)
Theorem ChainRequestHandlers_short_circuit (ids : list nat) (i : nat) (r : Result)
    (post : list (RequestHandler (list Event))) (T : RequestHandlerFunc (list Event))
    (req : option http.Request) (w : World (list Event)) :
  ChainRequestHandlers (map forwarding ids ++ answering i r :: post) req T w
  = Ret r (setUser (user w ++ map Enter ids ++ [Enter i] ++ map Leave (rev ids)) w).
Proof. rewrite ChainRequestHandlers_compose. apply compose_answering. Qed.

(** X3.  A policy of a type [newFromBackOff] does not know, or no policy at all,
    makes [RetryHandler] panic before the first attempt, whenever retries
    are configured; the world is left as it was. *)
Theorem RetryHandler_unknown_policy {U} (chooseDone : Z -> bool) (opt : RetryOption U)
    (req : option http.Request) (handlerFunc : RequestHandlerFunc U) (w : World U) :
  MaxRetry opt <> 0 ->
  RetryBackOff opt = None
  \/ (exists S (s : S) next reset, RetryBackOff opt = Some (OtherBackOff s next reset)) ->
  RetryHandler chooseDone opt req handlerFunc w = Panic "undefind backoff" w.
Proof.
  intros Hk Hp. unfold RetryHandler.
  destruct (Z.eqb_spec (MaxRetry opt) 0) as [E|_]; [contradiction|].
  unfold bind. destruct Hp as [-> | (S & s & next & reset & ->)]; reflexivity.
Qed.

(** [TestNewFromBackOff_NotDefined]. *)
Lemma RetryHandler_unknown_policy_witness :
  RetryHandler (fun _ => true) (alwaysRetryOption testBackOff)
    (Some (exampleRequest http.Background)) countingHandlerFunc (mkWorld 0 0%nat)
  = Panic "undefind backoff" (mkWorld 0 0%nat).
Proof.
  apply (RetryHandler_unknown_policy (fun _ => true) (alwaysRetryOption testBackOff)
           (Some (exampleRequest http.Background)) countingHandlerFunc (mkWorld 0 0%nat)).
  - discriminate.
  - right. exists unit, tt, (fun s _ => (0, s)), (fun s _ => s). reflexivity.
Defined.

Section RetryBound.

Context {U : Type}.
Variable chooseDone : Z -> bool.
Variable opt : RetryOption U.
Variable req : option http.Request.
Variable handlerFunc : RequestHandlerFunc U.

(** [cnt] counts the invocations of the downstream handler: one more with
    each return of it, and none with a return of the retry predicate or
    with the passing of time. *)
Variable cnt : World U -> nat.
Hypothesis handlerFunc_counts :
  forall w r w', handlerFunc req w = Ret r w' -> cnt w' = S (cnt w).
Hypothesis should_keeps :
  forall resp err w b w', ShouldRetryFunc opt req resp err w = Ret b w' -> cnt w' = cnt w.
Hypothesis clock_keeps : forall t w, cnt (setClock t w) = cnt w.

Lemma sleepContext_keeps ctx d w o w' :
  sleepContext chooseDone ctx d w = Ret o w' -> cnt w' = cnt w.
Proof.
  unfold sleepContext. destruct ctx as [|t e].
  - intros H. inversion H; subst. apply clock_keeps.
  - repeat match goal with |- context [if ?c then _ else _] => destruct c end;
      intros H; inversion H; subst; apply clock_keeps.
Qed.

Lemma fn_one_attempt b w again r b' w' :
  fn chooseDone opt req handlerFunc b w = Ret (again, r, b') w' -> cnt w' = S (cnt w).
Proof.
  unfold fn, bind, time_Now, ret.
  destruct (handlerFunc req w) as [[resp err] w0| |] eqn:Hf; try discriminate.
  apply handlerFunc_counts in Hf.
  destruct (ShouldRetryFunc opt req resp err w0) as [should w2| |] eqn:Hs; try discriminate.
  apply should_keeps in Hs.
  destruct should; simpl.
  - destruct (backOffTries_NextBackOff b (clock w2)) as [d b1].
    destruct (d =? Stop).
    + intros H. inversion H; subst. congruence.
    + destruct (sleepContext chooseDone (getRequestContext req) d w2) as [[e2|] w3| |] eqn:Hsl;
        try discriminate; apply sleepContext_keeps in Hsl;
        intros H; inversion H; subst; congruence.
  - intros H. inversion H; subst. congruence.
Qed.

Lemma retryLoop_at_most (fuel : nat) : forall b w r w',
  0 < maxTries b < uint64_modulus -> 0 <= numTries b <= maxTries b ->
  retryLoop chooseDone fuel opt req handlerFunc b w = Ret r w' ->
  (cnt w < cnt w')%nat
  /\ Z.of_nat (cnt w') <= Z.of_nat (cnt w) + (maxTries b - numTries b) + 1.
Proof.
  induction fuel as [|fuel IH]; intros b w r w' Hmax Hnum; simpl; [discriminate|].
  unfold bind at 1.
  destruct (fn chooseDone opt req handlerFunc b w) as [[[again r1] b1] w1| |] eqn:Hfn;
    try discriminate.
  pose proof (fn_one_attempt _ _ _ _ _ _ Hfn) as Hc.
  destruct again.
  - destruct (fn_again_inv _ _ _ _ _ _ _ _ _ (proj1 Hmax) Hfn) as (Hlt & Hm & Hn).
    assert (Hn' : numTries b1 = numTries b + 1).
    { rewrite Hn. apply Z.mod_small. unfold uint64_modulus in *. lia. }
    intros Hloop. apply IH in Hloop; [| rewrite Hm; lia | rewrite Hm; lia].
    rewrite Hm, Hn' in Hloop. lia.
  - intros H. inversion H; subst. lia.
Qed.

End RetryBound.

(** X4.  Whatever the retry predicate, the policy and the context of the request
    are: when [RetryHandler] returns, the downstream handler was invoked at
    least once and at most [MaxRetry + 1] times. *)
Theorem RetryHandler_at_most {U} (chooseDone : Z -> bool) (opt : RetryOption U)
    (req : option http.Request) (handlerFunc : RequestHandlerFunc U)
    (cnt : World U -> nat) (w w' : World U) (r : Result) :
  (forall w r w', handlerFunc req w = Ret r w' -> cnt w' = S (cnt w)) ->
  (forall resp err w b w', ShouldRetryFunc opt req resp err w = Ret b w' -> cnt w' = cnt w) ->
  (forall t w, cnt (setClock t w) = cnt w) ->
  0 <= MaxRetry opt < uint64_modulus ->
  RetryHandler chooseDone opt req handlerFunc w = Ret r w' ->
  (cnt w < cnt w')%nat
  /\ Z.of_nat (cnt w') <= Z.of_nat (cnt w) + MaxRetry opt + 1.
Proof.
  intros Hf Hs Hc Hk. unfold RetryHandler.
  destruct (Z.eqb_spec (MaxRetry opt) 0) as [E|E].
  - intros H. apply Hf in H. lia.
  - unfold bind at 1.
    destruct (newFromBackOff (RetryBackOff opt) w) as [p w0| |] eqn:Hnew; try discriminate.
    assert (w0 = w) as ->.
    { unfold newFromBackOff in Hnew.
      destruct (RetryBackOff opt) as [[ | | | | ]|]; inversion Hnew; reflexivity. }
    intros Hloop.
    apply (retryLoop_at_most chooseDone opt req handlerFunc cnt Hf Hs Hc) in Hloop;
      simpl in *; lia.
Qed.

(** Cancellation 2ms into the first wait: one attempt, of at most four. *)
Lemma RetryHandler_at_most_witness :
  (user (mkWorld 0 0%nat) < user (mkWorld (2 * Millisecond) 1%nat))%nat
  /\ Z.of_nat (user (mkWorld (2 * Millisecond) 1%nat))
     <= Z.of_nat (user (mkWorld 0 0%nat))
        + MaxRetry (alwaysRetryOption (ConstantBackOff (5 * Millisecond))) + 1.
Proof.
  apply (RetryHandler_at_most (fun _ => true)
           (alwaysRetryOption (ConstantBackOff (5 * Millisecond)))
           (Some (exampleRequest (http.WithDone (2 * Millisecond) context_Canceled)))
           countingHandlerFunc user (mkWorld 0 0%nat) (mkWorld (2 * Millisecond) 1%nat)
           (None, Some (withMessage context_Canceled "<nil>"))).
  - intros w r w' H. inversion H. reflexivity.
  - intros resp err w b w' H. inversion H. reflexivity.
  - reflexivity.
  - simpl. unfold uint64_modulus. lia.
  - reflexivity.
Defined.

(** X6.  [defaultShouldRetryFunc] asks for a retry unless there is no error and
    there is a response whose status is below 500; it has no effect. *)
Theorem defaultShouldRetryFunc_spec {U} (req : option http.Request)
    (resp : option http.Response) (err : option error) (w : World U) :
  exists b,
    defaultShouldRetryFunc req resp err w = Ret b w
    /\ (b = false <-> err = None /\ exists r, resp = Some r /\ http.StatusCode r < 500).
Proof.
  unfold defaultShouldRetryFunc, ret. eexists. split; [reflexivity|].
  destruct err as [e|], resp as [r|]; simpl; split;
    try discriminate; try (intros [H _]; discriminate);
    try (intros [_ (r0 & H & _)]; discriminate).
  - intros H. apply negb_false_iff in H. apply Z.ltb_lt in H.
    split; [reflexivity | exists r; auto].
  - intros [_ (r0 & Hr & Hlt)]. inversion Hr; subst.
    apply negb_false_iff. apply Z.ltb_lt. exact Hlt.
Qed.

(** ** Further properties of the cache interceptor *)

(** X7.  [DefaultShouldCacheFunc] says yes exactly for a [GET] request with a
    URL, answered without error with status 200: a request with another
    method is not stored, whatever the status code. *)
Theorem DefaultShouldCacheFunc_spec {U} (req : option http.Request)
    (resp : option http.Response) (err : option error) (w : World U) :
  exists b,
    DefaultShouldCacheFunc req resp err w = Ret b w
    /\ (b = true <->
        exists r u p, req = Some r /\ http.URL_ r = Some u
                      /\ http.Method r = http.MethodGet
                      /\ resp = Some p /\ http.StatusCode p = http.StatusOK
                      /\ err = None).
Proof.
  unfold DefaultShouldCacheFunc, ret. eexists. split; [reflexivity|].
  split.
  - destruct req as [r|]; [|discriminate].
    destruct (http.URL_ r) as [u|] eqn:Hu; [|discriminate].
    destruct (String.eqb_spec (http.Method r) http.MethodGet) as [Hm|]; [|discriminate].
    destruct resp as [p|]; [|discriminate].
    destruct (Z.eqb_spec (http.StatusCode p) http.StatusOK) as [Hc|]; [|discriminate].
    destruct err; [discriminate|].
    intros _. exists r, u, p. repeat split; assumption.
  - intros (r & u & p & -> & Hu & Hm & -> & Hc & ->).
    rewrite Hu, Hm, Hc. reflexivity.
Qed.

(** X8.  After the downstream call, a result that is to be cached and has a
    fingerprint is returned as it is whatever [Set] of the store answers:
    an error of the store on writing is dropped.  An error of [Encode] is
    returned, wrapped, with no response. *)
Theorem callAndStore_write_errors {U} (opt : CacheOption U) (req : option http.Request)
    (handlerFunc : RequestHandlerFunc U) (w w1 w2 w3 w4 : World U)
    (resp : option http.Response) (err : option error) (hash value : list byte)
    (encErr : option error) :
  handlerFunc req w = Ret (resp, err) w1 ->
  ShouldCacheFunc opt req resp err w1 = Ret true w2 ->
  RequestHashFunc opt req resp err w2 = Ret (Some hash) w3 ->
  Encode (EncoderDecoder opt) {| Request := req; Response := resp; Error := err |} w3
  = Ret (value, encErr) w4 ->
  match encErr with
  | Some e =>
      callAndStore opt req handlerFunc w
      = Ret (None, Some (withMessage e "Serialization request")) w4
  | None =>
      forall ttl w5 setErr w6,
        CacheTTLFunc opt req resp err w4 = Ret ttl w5 ->
        Cacher_Set (Cacher_ opt) hash value ttl w5 = Ret setErr w6 ->
        callAndStore opt req handlerFunc w = Ret (resp, err) w6
  end.
Proof.
  intros Hf Hs Hh He. unfold callAndStore, bind.
  rewrite Hf, Hs. simpl. rewrite Hh, He.
  destruct encErr as [e|]; [reflexivity|].
  intros ttl w5 setErr w6 Ht Hset. rewrite Ht, Hset. reflexivity.
Qed.

(** A store whose [Set] always fails. *)
Definition brokenCacher : Cacher unit :=
  {| Cacher_Get := fun _ => ret ([], Some ErrCacheKeyNotFound);
     Cacher_Set := fun _ _ _ => ret (Some (errorString "disk full")) |}.

Lemma callAndStore_write_errors_witness :
  Cacher_Set brokenCacher (fingerprint (http.mkURL "https://example.com"))
    (refcodec.write (fst (encodeEntry helloEntry))) (5 * Minute) (mkWorld 0 tt)
  = Ret (Some (errorString "disk full")) (mkWorld 0 tt)
  /\ callAndStore
       (NewCacheOption brokenCacher
          (requestEntryEncoderDecoder refcodec.Marshal refcodec.Unmarshal refcodec.Parse))
       (Some (requestOf "GET" ∅ None)) (fun _ => ret (Response helloEntry, None))
       (mkWorld 0 tt)
     = Ret (Response helloEntry, None) (mkWorld 0 tt).
Proof.
  split; [reflexivity|].
  exact (callAndStore_write_errors
           (NewCacheOption brokenCacher
              (requestEntryEncoderDecoder refcodec.Marshal refcodec.Unmarshal refcodec.Parse))
           (Some (requestOf "GET" ∅ None)) (fun _ => ret (Response helloEntry, None))
           (mkWorld 0 tt) (mkWorld 0 tt) (mkWorld 0 tt) (mkWorld 0 tt) (mkWorld 0 tt)
           (Response helloEntry) None
           (fingerprint (http.mkURL "https://example.com"))
           (refcodec.write (fst (encodeEntry helloEntry))) None
           eq_refl eq_refl eq_refl eq_refl
           (5 * Minute) (mkWorld 0 tt) (Some (errorString "disk full")) (mkWorld 0 tt)
           eq_refl eq_refl).
Defined.

(** X9.  [Encode] fails on an entry without request, and on a request without
    URL, whatever msgpack is
    ([TestRequestEntryEncoderDecoder_EncodeWithInvalidInput]). *)
Theorem requestEntry_Encode_needs_request
    (msgpack_Marshal : HRR.HTTPRequestResponse -> list byte * option error) :
  (forall t, Request t = None ->
     requestEntry_Encode msgpack_Marshal t
     = ([], Some (errors_New "Request not found in RequestEntry")))
  /\ (forall t r, Request t = Some r -> http.URL_ r = None ->
     requestEntry_Encode msgpack_Marshal t
     = ([], Some (errors_New "URL not found in RequestEntry"))).
Proof.
  split.
  - intros t Ht. unfold requestEntry_Encode, encodeEntry. rewrite Ht. reflexivity.
  - intros t r Ht Hu. unfold requestEntry_Encode, encodeEntry. rewrite Ht, Hu. reflexivity.
Qed.

(** X5.  [RetryHandler] returns or panics whenever the downstream handler
    and the retry predicate do: the loop of attempts ends, whatever the
    policy and the context are. *)
Theorem RetryHandler_terminates {U} (chooseDone : Z -> bool) (opt : RetryOption U)
    (req : option http.Request) (handlerFunc : RequestHandlerFunc U) (w : World U) :
  (forall v, handlerFunc req v <> Diverge) ->
  (forall resp err v, ShouldRetryFunc opt req resp err v <> Diverge) ->
  0 <= MaxRetry opt < uint64_modulus ->
  RetryHandler chooseDone opt req handlerFunc w <> Diverge.
Proof. apply RetryHandler_not_Diverge. Qed.

Lemma RetryHandler_terminates_witness :
  RetryHandler (fun _ => true) (alwaysRetryOption (ConstantBackOff (5 * Millisecond)))
    (Some (exampleRequest http.Background)) countingHandlerFunc (mkWorld 0 0%nat)
  <> Diverge.
Proof.
  apply (RetryHandler_terminates (fun _ => true)
           (alwaysRetryOption (ConstantBackOff (5 * Millisecond)))
           (Some (exampleRequest http.Background)) countingHandlerFunc (mkWorld 0 0%nat)).
  - intros v. discriminate.
  - intros resp err v. discriminate.
  - simpl. unfold uint64_modulus. lia.
Defined.

(** X10.  The periodic sweep of the memory store changes no answer of
    [MemoryCache.Get]: it removes only items that [Get] no longer finds. *)
Theorem MemoryCache_sweep_invisible (c : MemoryCache) (key : list byte)
    (w : World gocache.Cache) :
  exists w',
    gocache.DeleteExpired w = Ret tt w'
    /\ clock w' = clock w
    /\ returned (MemoryCache_Get c key w') = returned (MemoryCache_Get c key w).
Proof.
  eexists. split; [reflexivity|]. split; [reflexivity|].
  apply MemoryCache_Get_after_sweep. reflexivity.
Qed.

(** ** Further properties of the interceptors *)

(** *** body_size.go: which responses pass *)

(** [ParseUint] succeeds on nothing but a decimal numeral that fits 64
    bits. *)
Lemma ParseUint_loop_inv (s0 s : string) : forall n v,
  0 <= n <= maxUint64 ->
  ParseUint_loop s0 s n = (v, None) ->
  allBytes isDigit s = true /\ v = numeralValue_from s n /\ v <= maxUint64.
Proof.
  assert (Ecut : cutoff = 1844674407370955162) by reflexivity.
  assert (Emax : maxUint64 = 18446744073709551615) by reflexivity.
  assert (Emod : uint64_modulus = 18446744073709551616) by reflexivity.
  induction s as [|c s IH]; intros n v Hn H; simpl in *.
  - inversion H; subst. repeat split; lia.
  - destruct (isDigit c) eqn:Hc; [|discriminate].
    pose proof (isDigit_bounds c Hc) as Hd.
    destruct (Z.leb_spec cutoff n) as [Hcut|Hcut]; [discriminate|].
    rewrite (Z.mod_small (n * 10)) in H by lia.
    destruct (Z.lt_ge_cases (n * 10 + (byteval c - 48)) uint64_modulus) as [Hlt|Hge].
    + rewrite (Z.mod_small (n * 10 + (byteval c - 48))) in H by lia.
      destruct (Z.ltb_spec (n * 10 + (byteval c - 48)) (n * 10)) as [E|_]; [lia|].
      destruct (Z.ltb_spec maxUint64 (n * 10 + (byteval c - 48))) as [E|E];
        [discriminate|].
      simpl in H. apply IH in H; [|lia]. tauto.
    + exfalso.
      assert (Em : (n * 10 + (byteval c - 48)) mod uint64_modulus
                   = n * 10 + (byteval c - 48) - uint64_modulus).
      { symmetry. apply Z.mod_unique with (q := 1); lia. }
      rewrite Em in H.
      destruct (Z.ltb_spec (n * 10 + (byteval c - 48) - uint64_modulus) (n * 10)) as [_|E];
        [discriminate | lia].
Qed.

Lemma ParseUint_ok_iff (s : string) :
  snd (strconv_ParseUint s) = None
  <-> s <> "" /\ allBytes isDigit s = true /\ numeralValue s <= maxUint64.
Proof.
  split.
  - destruct s as [|c s]; [discriminate|].
    intros H. unfold strconv_ParseUint in H.
    destruct (ParseUint_loop (String c s) (String c s) 0) as [v e] eqn:E.
    simpl in H. subst e.
    apply ParseUint_loop_inv in E; [|unfold maxUint64; lia].
    destruct E as (Hd & Hv & Hle). unfold numeralValue. rewrite <- Hv.
    split; [discriminate | auto].
  - intros (Hne & Hd & Hv). rewrite ParseUint_numeral by assumption. reflexivity.
Qed.

(** The text of a response's [Content-Length] header that
    [BodySizeHandler] lets pass under the limit [max]. *)
Definition acceptedLength (max : Z) (s : string) : Prop :=
  s <> "" /\ allBytes isDigit s = true
  /\ numeralValue s <= maxUint64 /\ numeralValue s <= max.

(** X11.  The downstream call returns a response and no error.  Then
    [BodySizeHandler] returns that response, or no response and an error;
    it returns the response exactly when the [Content-Length] header of the
    response is a decimal numeral of a 64-bit value that is at most
    [MaxBodySize].  A response without [Content-Length] header is turned
    into the wrapped syntax error of [ParseUint], whatever the limit is. *)
Theorem BodySizeHandler_accepts_iff {U} (opt : BodySizeOption) (req : option http.Request)
    (handlerFunc : RequestHandlerFunc U) (w w1 : World U) (resp : http.Response) :
  handlerFunc req w = Ret (Some resp, None) w1 ->
  (BodySizeHandler opt req handlerFunc w = Ret (Some resp, None) w1
   \/ exists e, BodySizeHandler opt req handlerFunc w = Ret (None, Some e) w1)
  /\ (BodySizeHandler opt req handlerFunc w = Ret (Some resp, None) w1
      <-> acceptedLength (MaxBodySize opt)
            (Header_Get (http.RespHeader resp) "Content-Length"))
  /\ (http.RespHeader resp !! "Content-Length" = None ->
      BodySizeHandler opt req handlerFunc w
      = Ret (None, Some (withMessage (syntaxError "ParseUint" "")
                           "Parse the data size of the response content")) w1).
Proof.
  intros Hf. unfold acceptedLength.
  pose proof (ParseUint_ok_iff (Header_Get (http.RespHeader resp) "Content-Length")) as Hiff.
  assert (Hrun : BodySizeHandler opt req handlerFunc w
                 = let '(contentLength, err) :=
                     strconv_ParseUint (Header_Get (http.RespHeader resp) "Content-Length") in
                   match err with
                   | Some _ =>
                       Ret (None, errors_Wrap err "Parse the data size of the response content") w1
                   | None =>
                       if MaxBodySize opt <? contentLength
                       then Ret (None, Some (errors_New "The server response data is too large")) w1
                       else Ret (Some resp, None) w1
                   end).
  { unfold BodySizeHandler, bind. rewrite Hf.
    destruct (strconv_ParseUint (Header_Get (http.RespHeader resp) "Content-Length"))
      as [n [e|]]; [reflexivity|].
    destruct (MaxBodySize opt <? n); reflexivity. }
  rewrite Hrun. clear Hrun.
  destruct (strconv_ParseUint (Header_Get (http.RespHeader resp) "Content-Length"))
    as [n [e|]] eqn:Hp; simpl in Hiff.
  - split; [right; eexists; reflexivity|]. split.
    + split; [discriminate|]. intros (H1 & H2 & H3 & _).
      assert (Some e = None) by (apply Hiff; auto). discriminate.
    + intros Hnone. unfold Header_Get in Hp.
      change (CanonicalMIMEHeaderKey "Content-Length") with "Content-Length" in Hp.
      rewrite Hnone in Hp. inversion Hp; subst. reflexivity.
  - destruct Hiff as [Hok _]. destruct (Hok eq_refl) as (Hne & Hd & Hv).
    rewrite (ParseUint_numeral _ Hne Hd Hv) in Hp. inversion Hp; subst n.
    destruct (Z.ltb_spec (MaxBodySize opt)
                (numeralValue (Header_Get (http.RespHeader resp) "Content-Length")))
      as [Hgt|Hle].
    + split; [right; eexists; reflexivity|]. split.
      * split; [discriminate | intros (_ & _ & _ & H); lia].
      * intros Hnone. exfalso. apply Hne. unfold Header_Get.
        change (CanonicalMIMEHeaderKey "Content-Length") with "Content-Length".
        rewrite Hnone. reflexivity.
    + split; [left; reflexivity|]. split.
      * split; [auto | reflexivity].
      * intros Hnone. exfalso. apply Hne. unfold Header_Get.
        change (CanonicalMIMEHeaderKey "Content-Length") with "Content-Length".
        rewrite Hnone. reflexivity.
Qed.

(** A response without [Content-Length] header, as a server that streams
    its body sends it, against a limit of 10 bytes. *)
Lemma BodySizeHandler_accepts_iff_witness :
  (BodySizeHandler (NewBodySizeOption 10) (Some (exampleRequest http.Background))
     (fun _ => ret (Some http.emptyResponse, None)) (mkWorld 0 tt)
   = Ret (Some http.emptyResponse, None) (mkWorld 0 tt)
   \/ exists e,
        BodySizeHandler (NewBodySizeOption 10) (Some (exampleRequest http.Background))
          (fun _ => ret (Some http.emptyResponse, None)) (mkWorld 0 tt)
        = Ret (None, Some e) (mkWorld 0 tt))
  /\ (BodySizeHandler (NewBodySizeOption 10) (Some (exampleRequest http.Background))
        (fun _ => ret (Some http.emptyResponse, None)) (mkWorld 0 tt)
      = Ret (Some http.emptyResponse, None) (mkWorld 0 tt)
      <-> acceptedLength (MaxBodySize (NewBodySizeOption 10))
            (Header_Get (http.RespHeader http.emptyResponse) "Content-Length"))
  /\ (http.RespHeader http.emptyResponse !! "Content-Length" = None ->
      BodySizeHandler (NewBodySizeOption 10) (Some (exampleRequest http.Background))
        (fun _ => ret (Some http.emptyResponse, None)) (mkWorld 0 tt)
      = Ret (None, Some (withMessage (syntaxError "ParseUint" "")
                           "Parse the data size of the response content")) (mkWorld 0 tt)).
Proof.
  apply (BodySizeHandler_accepts_iff (NewBodySizeOption 10)
           (Some (exampleRequest http.Background))
           (fun _ => ret (Some http.emptyResponse, None))
           (mkWorld 0 tt) (mkWorld 0 tt) http.emptyResponse).
  reflexivity.
Defined.

(** *** cache.go: what the default option keeps away from the store *)

(** X12.  Under the default fingerprint and the default cache predicate, a
    request that is no [GET] with a URL (a [POST], a request without URL, no
    request) goes past the cache: [CacheHandler] is the downstream call, and
    neither [Get] nor [Set] of the store nor the codec is used, whatever
    they are. *)
Theorem CacheHandler_bypass {U} (cacher : Cacher U) (codec : RequestEntryEncoderDecoder U)
    (req : option http.Request) (handlerFunc : RequestHandlerFunc U) (w : World U) :
  defaultRequestHash req = None ->
  CacheHandler (NewCacheOption cacher codec) req handlerFunc w = handlerFunc req w.
Proof.
  intros Hh.
  unfold CacheHandler, cacheLookup, callAndStore, NewCacheOption, DefaultRequestHashFunc,
    DefaultShouldCacheFunc, bind, ret.
  cbn [RequestHashFunc ShouldCacheFunc]. rewrite Hh.
  destruct (handlerFunc req w) as [[resp err] w1| |]; try reflexivity.
  unfold defaultRequestHash in Hh.
  destruct req as [r|]; [|reflexivity].
  destruct (http.URL_ r) as [u|]; [|reflexivity].
  destruct (String.eqb (http.Method r) http.MethodGet); [discriminate | reflexivity].
Qed.

(** A [POST] through a store that holds nothing and fails every write. *)
Lemma CacheHandler_bypass_witness :
  CacheHandler
    (NewCacheOption brokenCacher
       (requestEntryEncoderDecoder refcodec.Marshal refcodec.Unmarshal refcodec.Parse))
    (Some (requestOf "POST" ∅ None)) (fun _ => ret (Response helloEntry, None)) (mkWorld 0 tt)
  = Ret (Response helloEntry, None) (mkWorld 0 tt).
Proof.
  exact (CacheHandler_bypass brokenCacher
           (requestEntryEncoderDecoder refcodec.Marshal refcodec.Unmarshal refcodec.Parse)
           (Some (requestOf "POST" ∅ None)) (fun _ => ret (Response helloEntry, None))
           (mkWorld 0 tt) eq_refl).
Defined.

(** A result [DefaultShouldCacheFunc] does not want stored: an error, no
    response, or a status other than 200. *)
Definition failedResult (resp : option http.Response) (err : option error) : Prop :=
  err <> None \/ resp = None
  \/ exists p, resp = Some p /\ http.StatusCode p <> http.StatusOK.

(** X13.  Under the default cache predicate a failed downstream call is
    never stored: after a lookup that found nothing, [CacheHandler] returns
    what the downstream handler returned and leaves the world as the
    downstream handler left it, so [Encode] and [Set] were not run. *)
Theorem CacheHandler_failure_not_stored {U} (cacher : Cacher U)
    (codec : RequestEntryEncoderDecoder U) (req : option http.Request)
    (handlerFunc : RequestHandlerFunc U) (w w0 w1 : World U)
    (resp : option http.Response) (err : option error) :
  cacheLookup (NewCacheOption cacher codec) req w = Ret None w0 ->
  handlerFunc req w0 = Ret (resp, err) w1 ->
  failedResult resp err ->
  CacheHandler (NewCacheOption cacher codec) req handlerFunc w = Ret (resp, err) w1.
Proof.
  intros Hl Hf Hfail. unfold CacheHandler. unfold bind at 1. rewrite Hl.
  unfold callAndStore. unfold bind at 1. rewrite Hf.
  cbn [ShouldCacheFunc NewCacheOption]. unfold DefaultShouldCacheFunc, bind, ret.
  destruct req as [r|]; [|reflexivity].
  destruct (http.URL_ r) as [u|]; [|reflexivity].
  destruct (String.eqb (http.Method r) http.MethodGet); [|reflexivity].
  destruct Hfail as [He | [-> | (p & -> & Hp)]].
  - destruct resp as [p|]; [|reflexivity].
    destruct err; [|contradiction].
    destruct (http.StatusCode p =? http.StatusOK); reflexivity.
  - reflexivity.
  - destruct (Z.eqb_spec (http.StatusCode p) http.StatusOK) as [E|_]; [contradiction|].
    reflexivity.
Qed.

(** A [GET] that the server answers with status 500, through the empty
    memory store. *)
Lemma CacheHandler_failure_not_stored_witness :
  CacheHandler memoryCacheOption (Some (requestOf "GET" ∅ None))
    (fun _ => ret (Some (responseOf 500 ∅ []), None)) (emptyMemory 1000)
  = Ret (Some (responseOf 500 ∅ []), None) (emptyMemory 1000).
Proof.
  apply (CacheHandler_failure_not_stored (MemoryCacher mkMemoryCache)
           (requestEntryEncoderDecoder refcodec.Marshal refcodec.Unmarshal refcodec.Parse)
           (Some (requestOf "GET" ∅ None))
           (fun _ => ret (Some (responseOf 500 ∅ []), None))
           (emptyMemory 1000) (emptyMemory 1000) (emptyMemory 1000)
           (Some (responseOf 500 ∅ [])) None).
  - unfold cacheLookup, NewCacheOption. cbn [RequestHashFunc Cacher_ EncoderDecoder].
    unfold DefaultRequestHashFunc. unfold bind at 1, ret at 1.
    rewrite (defaultRequestHash_GET (requestOf "GET" ∅ None)
               (http.mkURL "https://example.com") eq_refl eq_refl).
    cbn [MemoryCacher Cacher_Get]. unfold bind.
    rewrite (MemoryCache_absent _ mkMemoryCache (emptyMemory 1000)) by apply lookup_empty.
    reflexivity.
  - reflexivity.
  - right. right. eexists. split; [reflexivity | discriminate].
Defined.

(** *** cache.go: the shape of the default fingerprint *)

(** The characters [base64.URLEncoding] writes: letters, digits, [-], [_]
    and the padding [=].  None of them is a path separator or a dot. *)
Definition base64URLChar (c : ascii) : bool :=
  isLower c || isUpper c || isDigit c
  || existsb (Z.eqb (byteval c)) [45; 95; 61].

Lemma sha1_Sum_length (msg : list byte) : length (sha1.Sum msg) = 20%nat.
Proof.
  unfold sha1.Sum.
  destruct (sha1.blocks _ sha1.init (sha1.pad msg)) as [[[[h0 h1] h2] h3] h4].
  reflexivity.
Qed.

Lemma base64_digit_char (z : Z) : base64URLChar (base64.digit (z mod 64)) = true.
Proof.
  assert (Hall : forallb (fun i => base64URLChar (base64.digit (Z.of_nat i))) (seq 0 64) = true)
    by (vm_compute; reflexivity).
  rewrite forallb_forall in Hall.
  pose proof (Z.mod_pos_bound z 64 ltac:(lia)) as Hz.
  rewrite <- (Z2Nat.id (z mod 64)) by lia.
  apply Hall. apply in_seq. lia.
Qed.

Lemma base64_encode_20 (src : list byte) :
  length src = 20%nat ->
  String.length (base64.URLEncoding_EncodeToString src) = 28%nat
  /\ allBytes base64URLChar (base64.URLEncoding_EncodeToString src) = true.
Proof.
  intros Hlen. unfold base64.URLEncoding_EncodeToString. rewrite Hlen.
  do 20 (destruct src as [|? src]; [discriminate|]).
  destruct src; [|discriminate].
  cbn [base64.encode]. split; [reflexivity|].
  cbn [allBytes]. rewrite !base64_digit_char. reflexivity.
Qed.

Lemma bytes_of_length (s : string) : length (bytes_of s) = String.length s.
Proof.
  unfold bytes_of, list_byte_of_string. rewrite length_map.
  induction s as [|c s IH]; simpl; [reflexivity | now rewrite IH].
Qed.

(** X14.  A fingerprint of [DefaultRequestHashFunc] is 28 bytes long and
    made of letters, digits, [-], [_] and [=] only, whatever the URL is:
    used as a file name by [FileCache] or as a key by [RedisCache], it holds
    no path separator and no dot. *)
Theorem DefaultRequestHashFunc_shape {U} (req : option http.Request)
    (resp : option http.Response) (err : option error) (w w' : World U) (hash : list byte) :
  DefaultRequestHashFunc req resp err w = Ret (Some hash) w' ->
  length hash = 28%nat /\ allBytes base64URLChar (string_of hash) = true.
Proof.
  unfold DefaultRequestHashFunc, ret, defaultRequestHash. intros H.
  destruct req as [r|]; [|discriminate].
  destruct (http.URL_ r) as [u|]; [|discriminate].
  destruct (String.eqb (http.Method r) http.MethodGet); [|discriminate].
  inversion H; subst hash w'; clear H.
  destruct (base64_encode_20 (sha1.Sum (bytes_of (http.String_ u))) (sha1_Sum_length _))
    as [Hlen Hall].
  rewrite bytes_of_length, string_of_bytes_of. auto.
Qed.

Lemma DefaultRequestHashFunc_shape_witness :
  length exampleHash = 28%nat /\ allBytes base64URLChar (string_of exampleHash) = true.
Proof.
  apply (@DefaultRequestHashFunc_shape unit (Some (exampleRequest http.Background)) None None
           (mkWorld 0 tt) (mkWorld 0 tt) exampleHash).
  unfold DefaultRequestHashFunc, ret, defaultRequestHash, exampleRequest, exampleHash.
  cbn [http.URL_ http.Method http.String_].
  reflexivity.
Defined.

(** *** cache.go: what a cached response is keyed by *)

(** X15.  The default fingerprint is made of the method and the URL text
    alone.  Once the response to a [GET] is stored (msgpack returns the
    serialized entry from the stored bytes, and [url.Parse] accepts the text
    of the URL), every [GET] of a URL with the same text is answered with it
    for the five minutes of the TTL, whatever its header, its body and its
    context are (another [Authorization] header, say): the downstream
    handler is not run, and the response names the request that was stored,
    not the one that was made. *)
Theorem CacheHandler_hit_ignores_header
    (msgpack_Marshal : HRR.HTTPRequestResponse -> list byte * option error)
    (msgpack_Unmarshal : list byte -> HRR.HTTPRequestResponse * option error)
    (url_Parse : string -> http.URL + error)
    (r r2 : http.Request) (u u' u2 : http.URL)
    (resp : http.Response) (bs : list byte) (wA : World gocache.Cache) (t0 t1 : Z)
    (g : RequestHandlerFunc gocache.Cache) :
  http.Method r = http.MethodGet ->
  http.StatusCode resp = http.StatusOK ->
  0 <= t0 /\ t0 + 5 * Minute <= maxInt64 ->
  msgpack_Unmarshal bs = (serialized r u (Some resp) None, None) ->
  url_Parse (http.String_ u) = inl u' ->
  http.Method r2 = http.MethodGet -> http.URL_ r2 = Some u2 ->
  http.String_ u2 = http.String_ u ->
  t0 <= t1 <= t0 + 5 * Minute ->
  CacheHandler (NewMemoryCacheOption msgpack_Marshal msgpack_Unmarshal url_Parse)
    (Some r2) g (setClock t1 (storedWorld u bs wA t0))
  = Ret (Some (decodedResponse (decodedRequest r u') resp), None)
        (setClock t1 (storedWorld u bs wA t0))
  /\ http.Request_ (decodedResponse (decodedRequest r u') resp)
     = Some (decodedRequest r u')
  /\ http.ReqHeader (decodedRequest r u') = ∅.
Proof.
  intros Hget Hok Hrange Hun Hp Hget2 Hurl2 Hsame Ht1.
  split; [|split; reflexivity].
  apply (CacheHandler_hit msgpack_Marshal msgpack_Unmarshal url_Parse r u u' resp bs wA t0
           Hget Hok Hrange Hun Hp r2 u2 g t1 Hget2 Hurl2 Hsame).
  lia.
Qed.

(** The request of [TestCacheHandler] stored; a second request of the same
    URL with a header and a body of its own. *)
Lemma CacheHandler_hit_ignores_header_witness :
  CacheHandler (NewMemoryCacheOption refcodec.Marshal refcodec.Unmarshal refcodec.Parse)
    (Some (requestOf "GET" {[ "Authorization" := ["Bearer other"] ]}
             (Some (http.mkBody (bytes_of "q") None))))
    (fun _ => panic "not called")
    (setClock 2000
       (storedWorld (http.mkURL "https://example.com") helloBytes (emptyMemory 1000) 1000))
  = Ret (Some (decodedResponse
                 (decodedRequest (requestOf "GET" ∅ None) (http.mkURL "https://example.com"))
                 (responseOf 200 {[ "X-Test" := ["OK"] ]} (bytes_of "hello world"))),
         None)
        (setClock 2000
           (storedWorld (http.mkURL "https://example.com") helloBytes (emptyMemory 1000) 1000))
  /\ http.Request_
       (decodedResponse
          (decodedRequest (requestOf "GET" ∅ None) (http.mkURL "https://example.com"))
          (responseOf 200 {[ "X-Test" := ["OK"] ]} (bytes_of "hello world")))
     = Some (decodedRequest (requestOf "GET" ∅ None) (http.mkURL "https://example.com"))
  /\ http.ReqHeader
       (decodedRequest (requestOf "GET" ∅ None) (http.mkURL "https://example.com"))
     = ∅.
Proof.
  apply (CacheHandler_hit_ignores_header refcodec.Marshal refcodec.Unmarshal refcodec.Parse
           (requestOf "GET" ∅ None)
           (requestOf "GET" {[ "Authorization" := ["Bearer other"] ]}
              (Some (http.mkBody (bytes_of "q") None)))
           (http.mkURL "https://example.com") (http.mkURL "https://example.com")
           (http.mkURL "https://example.com")
           (responseOf 200 {[ "X-Test" := ["OK"] ]} (bytes_of "hello world"))
           helloBytes (emptyMemory 1000) 1000 2000 (fun _ => panic "not called")).
  - reflexivity.
  - reflexivity.
  - unfold maxInt64, Minute, Millisecond. lia.
  - exact (refcodec.Unmarshal_Marshal
             (serialized (requestOf "GET" ∅ None) (http.mkURL "https://example.com")
                (Some (responseOf 200 {[ "X-Test" := ["OK"] ]} (bytes_of "hello world")))
                None)).
  - reflexivity.
  - reflexivity.
  - reflexivity.
  - reflexivity.
  - unfold Minute, Millisecond. lia.
Defined.

(** *** cache.go: what the round trip of an entry rewrites *)

(** X16.  [Decode] of what [Encode] made of an entry with a request, a
    response of positive status code and an error succeeds, under the
    conditions of the round trip, with these rewritings: the status text of
    the response is the protocol text of the original ([Status: e.Proto]),
    its content length is the number of bytes of the body, and it names the
    rebuilt request; the rebuilt request has an empty header and the
    background context; the error is a new text error with the message of
    the original. *)
Theorem requestEntry_roundtrip_rewrites
    (msgpack_Marshal : HRR.HTTPRequestResponse -> list byte * option error)
    (msgpack_Unmarshal : list byte -> HRR.HTTPRequestResponse * option error)
    (url_Parse : string -> http.URL + error)
    (r : http.Request) (u u' : http.URL) (w : http.Response) (e : error) (bs : list byte) :
  http.URL_ r = Some u ->
  readable (http.ReqBody r) -> readable (http.RespBody w) ->
  validMethod (http.Method r) = true ->
  url_Parse (http.String_ u) = inl u' ->
  0 < http.StatusCode w ->
  msgpack_Marshal (fst (encodeEntry {| Request := Some r; Response := Some w; Error := Some e |}))
  = (bs, None) ->
  msgpack_Unmarshal bs
  = (fst (encodeEntry {| Request := Some r; Response := Some w; Error := Some e |}), None) ->
  requestEntry_Encode msgpack_Marshal {| Request := Some r; Response := Some w; Error := Some e |}
  = (bs, None)
  /\ exists r' w',
       requestEntry_Decode msgpack_Unmarshal url_Parse bs
       = ({| Request := Some r'; Response := Some w';
             Error := Some (errors_New (Error_ e)) |}, None)
       /\ http.Status w' = http.Proto w
       /\ http.ContentLength w' = Z.of_nat (length (bodyBytes (http.RespBody w)))
       /\ http.Request_ w' = Some r'
       /\ http.ReqHeader r' = ∅
       /\ http.ctx r' = http.Background.
Proof.
  intros Hu Hb Hwb Hm Hp Hc Hmar Hun.
  assert (Henc : encodeEntry {| Request := Some r; Response := Some w; Error := Some e |}
                 = (serialized r u (Some w) (Some e), None)).
  { apply (encodeEntry_readable {| Request := Some r; Response := Some w; Error := Some e |}
             r u eq_refl Hu Hb).
    intros w0 Hw0. inversion Hw0; subst. exact Hwb. }
  rewrite Henc in Hmar, Hun. simpl fst in Hmar, Hun.
  split.
  { unfold requestEntry_Encode. rewrite Henc. exact Hmar. }
  unfold requestEntry_Decode. rewrite Hun.
  rewrite (decodeEntry_serialized url_Parse r u u' _ _ Hm Hp).
  unfold decodedEntry. cbn [fmap option_fmap option_map].
  destruct (Z.ltb_spec 0 (http.StatusCode w)) as [_|E]; [|lia].
  eexists _, _. split; [reflexivity|]. repeat split.
Qed.

(** A cancelled [GET] with a header of its own, and a response whose status
    line reads [200 OK]. *)
Definition okResponse : http.Response :=
  {| http.Status := "200 OK"; http.StatusCode := 200; http.Proto := "HTTP/1.1";
     http.ProtoMajor := 1; http.ProtoMinor := 1;
     http.RespHeader := {[ "X-Test" := ["OK"] ]};
     http.RespBody := Some (http.mkBody (bytes_of "hello world") None);
     http.ContentLength := -1; http.Request_ := None |}.

Definition cancelledEntry : RequestEntry :=
  {| Request := Some (requestOf "GET" {[ "Accept" := ["text/html"] ]} None);
     Response := Some okResponse;
     Error := Some context_Canceled |}.

Lemma requestEntry_roundtrip_rewrites_witness :
  requestEntry_Encode refcodec.Marshal cancelledEntry
  = (refcodec.write (fst (encodeEntry cancelledEntry)), None)
  /\ exists r' w',
       requestEntry_Decode refcodec.Unmarshal refcodec.Parse
         (refcodec.write (fst (encodeEntry cancelledEntry)))
       = ({| Request := Some r'; Response := Some w';
             Error := Some (errors_New (Error_ context_Canceled)) |}, None)
       /\ http.Status w' = http.Proto okResponse
       /\ http.ContentLength w' = Z.of_nat (length (bodyBytes (http.RespBody okResponse)))
       /\ http.Request_ w' = Some r'
       /\ http.ReqHeader r' = ∅
       /\ http.ctx r' = http.Background.
Proof.
  apply (requestEntry_roundtrip_rewrites refcodec.Marshal refcodec.Unmarshal refcodec.Parse
           (requestOf "GET" {[ "Accept" := ["text/html"] ]} None)
           (http.mkURL "https://example.com") (http.mkURL "https://example.com")
           okResponse context_Canceled (refcodec.write (fst (encodeEntry cancelledEntry)))).
  - reflexivity.
  - exact I.
  - reflexivity.
  - reflexivity.
  - reflexivity.
  - reflexivity.
  - reflexivity.
  - exact (refcodec.Unmarshal_Marshal (fst (encodeEntry cancelledEntry))).
Defined.

(** *** cacher.go: writing a key twice *)

(** [Set(key, v1, ttl1)], then, when the clock reads [ts],
    [Set(key, v2, ttl2)], then, when it reads [t1], [Get(key)]. *)
Definition setSetGet {U} (cacher : Cacher U) (key v1 : list byte) (ttl1 ts : Z)
    (v2 : list byte) (ttl2 t1 : Z) : M U (list byte * option error) :=
  Cacher_Set cacher key v1 ttl1 ;;
  waitUntil ts ;;
  setThenGet cacher key v2 ttl2 t1.

Section LastWrite.

Variables (key v1 v2 : list byte) (ttl1 ttl2 t0 ts t1 : Z).

Hypothesis ttl2_positive : 0 < ttl2.
Hypothesis clock_range : 0 <= ts <= t1 /\ t1 <= maxInt64.
Hypothesis expiry_range : ts + ttl2 <= maxInt64.

Lemma MemoryCache_setSetGet (c : MemoryCache) (w : World gocache.Cache) :
  exists w',
    setSetGet (MemoryCacher c) key v1 ttl1 ts v2 ttl2 t1 w
    = Ret (if t1 <=? ts + ttl2 then (v2, None) else notFound) w'.
Proof.
  assert (H1 : exists w1, Cacher_Set (MemoryCacher c) key v1 ttl1 w = Ret None w1)
    by (eexists; reflexivity).
  destruct H1 as [w1 H1].
  unfold setSetGet. unfold bind at 1. rewrite H1. unfold bind at 1, waitUntil.
  destruct (MemoryCache_setThenGet key v2 ttl2 ts t1 ttl2_positive clock_range expiry_range
              c (setClock ts w1) eq_refl) as (w' & _ & H).
  exists w'. exact H.
Qed.

Lemma RedisCache_setSetGet (c : RedisCache) (w : World redis.Server) :
  redis.reachable (user w) = true ->
  exists w',
    setSetGet (RedisCacher c) key v1 ttl1 ts v2 ttl2 t1 w
    = Ret (if t1 <=? ts + ttl2 then (v2, None) else notFound) w'.
Proof.
  intros Hr.
  assert (H1 : exists w1, Cacher_Set (RedisCacher c) key v1 ttl1 w = Ret None w1
                          /\ redis.reachable (user w1) = true).
  { unfold RedisCacher, Cacher_Set, RedisCache_Set, bind, redis.Set_. rewrite Hr.
    eexists. split; reflexivity. }
  destruct H1 as (w1 & H1 & Hr1).
  unfold setSetGet. unfold bind at 1. rewrite H1. unfold bind at 1, waitUntil.
  destruct (RedisCache_setThenGet key v2 ttl2 ts t1 ttl2_positive
              c (setClock ts w1) eq_refl Hr1) as (w' & _ & H).
  exists w'. exact H.
Qed.

End LastWrite.

(** What [Get] answers at the instant [t1] for a value that expires at
    [expiry]. *)
Definition answerAt (value : list byte) (expiry t1 : Z) : list byte * option error :=
  if t1 <=? expiry then (value, None) else notFound.

(** X17.  The last write wins, on the three backends: after two [Set]s of
    a key, the second with a positive TTL at the instant [ts], [Get] returns
    the second value as long as the second TTL has not elapsed and
    [ErrCacheKeyNotFound] once it has, whatever the first value and the
    first TTL were (a longer first TTL does not keep the key). *)
Theorem Cacher_last_write_wins
    (msgpack_Marshal : fileCacheEntry -> list byte * option error)
    (msgpack_Unmarshal : list byte -> fileCacheEntry * option error)
    (path_Join : string -> string -> string)
    (mc : MemoryCache) (fc : FileCache) (rc : RedisCache)
    (key v1 v2 : list byte) (ttl1 ttl2 t0 ts t1 : Z) (data1 data2 : list byte)
    (wm : World gocache.Cache) (wf : World FS) (wr : World redis.Server) :
  0 < ttl2 -> 0 <= ts <= t1 /\ t1 <= maxInt64 -> ts + ttl2 <= maxInt64 ->
  clock wf = t0 -> TimeNowFunc fc = time_Now ->
  msgpack_Marshal {| Key := key; Value := v1; Start := Time_UnixNano t0;
                     TTL := Time_UnixNano (Time_Add t0 ttl1) |} = (data1, None) ->
  msgpack_Marshal {| Key := key; Value := v2; Start := Time_UnixNano ts;
                     TTL := Time_UnixNano (Time_Add ts ttl2) |} = (data2, None) ->
  msgpack_Unmarshal data2
  = ({| Key := key; Value := v2; Start := Time_UnixNano ts;
        TTL := Time_UnixNano (Time_Add ts ttl2) |}, None) ->
  redis.reachable (user wr) = true ->
  (exists w', setSetGet (MemoryCacher mc) key v1 ttl1 ts v2 ttl2 t1 wm
              = Ret (answerAt v2 (ts + ttl2) t1) w')
  /\ (exists w', setSetGet (FileCacher msgpack_Marshal msgpack_Unmarshal path_Join fc)
                   key v1 ttl1 ts v2 ttl2 t1 wf = Ret (answerAt v2 (ts + ttl2) t1) w')
  /\ (exists w', setSetGet (RedisCacher rc) key v1 ttl1 ts v2 ttl2 t1 wr
                 = Ret (answerAt v2 (ts + ttl2) t1) w').
Proof.
  intros Httl Hclk Hexp Hf Hnow Hmar1 Hmar2 Hun Hreach. unfold answerAt.
  split; [apply MemoryCache_setSetGet; assumption|].
  split; [|apply RedisCache_setSetGet; assumption].
  unfold setSetGet. unfold bind at 1.
  change (Cacher_Set (FileCacher msgpack_Marshal msgpack_Unmarshal path_Join fc))
    with (FileCache_Set msgpack_Marshal path_Join fc).
  rewrite (FileCache_Set_writes msgpack_Marshal path_Join fc key v1 ttl1 t0 data1
             Hnow Hmar1 wf Hf).
  unfold bind at 1, waitUntil.
  assert (Hexp' : minInt64 <= ts + ttl2 <= maxInt64)
    by (unfold minInt64, maxInt64 in *; lia).
  rewrite (FileCache_setThenGet msgpack_Marshal msgpack_Unmarshal path_Join
             fc key v2 ttl2 ts t1 data2 Hnow Hexp' Hmar2 Hun
             (setClock ts (setUser (<[FileCache_path path_Join fc key := data1]> (user wf)) wf))
             eq_refl).
  destruct (t1 <=? ts + ttl2); eexists; reflexivity.
Qed.

(** A value stored for an hour at the instant 1000 and overwritten, one
    second later, by a value stored for one second; read within that
    second. *)
Definition Second : Z := 1000 * Millisecond.

Lemma Cacher_last_write_wins_witness :
  (exists w', setSetGet (MemoryCacher mkMemoryCache) exampleKey (bytes_of "old") (3600 * Second)
                (1000 + Second) (bytes_of "new") Second (1000 + Second + 5) (emptyMemory 1000)
              = Ret (answerAt (bytes_of "new") (1000 + Second + Second) (1000 + Second + 5)) w')
  /\ (exists w', setSetGet (FileCacher reffile.Marshal reffile.Unmarshal reffile.Join tmpFileCache)
                   exampleKey (bytes_of "old") (3600 * Second)
                   (1000 + Second) (bytes_of "new") Second (1000 + Second + 5) (emptyDisk 1000)
                 = Ret (answerAt (bytes_of "new") (1000 + Second + Second) (1000 + Second + 5))
                       w')
  /\ (exists w', setSetGet (RedisCacher NewRedisCache) exampleKey (bytes_of "old") (3600 * Second)
                   (1000 + Second) (bytes_of "new") Second (1000 + Second + 5) (emptyRedis 1000)
                 = Ret (answerAt (bytes_of "new") (1000 + Second + Second) (1000 + Second + 5))
                       w').
Proof.
  apply (Cacher_last_write_wins reffile.Marshal reffile.Unmarshal reffile.Join
           mkMemoryCache tmpFileCache NewRedisCache
           exampleKey (bytes_of "old") (bytes_of "new") (3600 * Second) Second
           1000 (1000 + Second) (1000 + Second + 5)
           (refcodec.write {| Key := exampleKey; Value := bytes_of "old";
                              Start := Time_UnixNano 1000;
                              TTL := Time_UnixNano (Time_Add 1000 (3600 * Second)) |})
           (refcodec.write {| Key := exampleKey; Value := bytes_of "new";
                              Start := Time_UnixNano (1000 + Second);
                              TTL := Time_UnixNano (Time_Add (1000 + Second) Second) |})
           (emptyMemory 1000) (emptyDisk 1000) (emptyRedis 1000)).
  - reflexivity.
  - unfold maxInt64, Second, Millisecond. lia.
  - unfold maxInt64, Second, Millisecond. lia.
  - reflexivity.
  - reflexivity.
  - reflexivity.
  - reflexivity.
  - exact (reffile.Unmarshal_Marshal_entry
             {| Key := exampleKey; Value := bytes_of "new";
                Start := Time_UnixNano (1000 + Second);
                TTL := Time_UnixNano (Time_Add (1000 + Second) Second) |}).
  - reflexivity.
Defined.

(** *** cacher.go: a write to one key and a read of another *)

(** [Set(key, value, ttl)], then, when the clock reads [t1], [Get(key')];
    and the [Get(key')] at [t1] alone. *)
Definition setThenGetOther {U} (cacher : Cacher U) (key value : list byte) (ttl t1 : Z)
    (key' : list byte) : M U (list byte * option error) :=
  Cacher_Set cacher key value ttl ;;
  waitUntil t1 ;;
  Cacher_Get cacher key'.

Definition getAt {U} (cacher : Cacher U) (t1 : Z) (key' : list byte)
    : M U (list byte * option error) :=
  waitUntil t1 ;;
  Cacher_Get cacher key'.

Lemma string_of_inj (a b : list byte) : string_of a = string_of b -> a = b.
Proof.
  intros H. rewrite <- (bytes_of_string_of a), <- (bytes_of_string_of b), H. reflexivity.
Qed.

Lemma append_inj_r (p a b : string) : p +:+ a = p +:+ b -> a = b.
Proof. induction p as [|c p IH]; simpl; intros H; [exact H | inversion H; auto]. Qed.

(** What [FileCache.Get] returns depends on the file of the key and on the
    clock alone. *)
Lemma FileCache_Get_depends
    (msgpack_Unmarshal : list byte -> fileCacheEntry * option error)
    (path_Join : string -> string -> string) (c : FileCache) (key : list byte)
    (w w' : World FS) :
  TimeNowFunc c = time_Now -> clock w = clock w' ->
  user w !! FileCache_path path_Join c key = user w' !! FileCache_path path_Join c key ->
  returned (FileCache_Get msgpack_Unmarshal path_Join c key w)
  = returned (FileCache_Get msgpack_Unmarshal path_Join c key w').
Proof.
  intros Hnow Hc Hfile.
  unfold FileCache_Get, bind, os_Stat, os_ReadFile, os_Remove, ret.
  rewrite Hnow. unfold time_Now. rewrite <- Hfile.
  destruct (user w !! FileCache_path path_Join c key) as [data|] eqn:E; [|reflexivity].
  cbv beta iota. rewrite <- Hfile, E. cbv beta iota.
  destruct (msgpack_Unmarshal data) as [e [err|]]; [reflexivity|].
  cbv beta iota. rewrite <- Hc.
  destruct (0 <=? Time_Sub (time_Unix (TTL e)) (clock w)); [reflexivity|].
  rewrite <- Hfile, E. reflexivity.
Qed.

(** X18.  On the three backends a [Set] of one key changes no answer of a
    later [Get] of another key: for the memory and the redis backend
    whenever the keys differ (whatever the prefix), for the file backend
    whenever their files differ. *)
Theorem Cacher_keys_independent
    (msgpack_Marshal : fileCacheEntry -> list byte * option error)
    (msgpack_Unmarshal : list byte -> fileCacheEntry * option error)
    (path_Join : string -> string -> string)
    (mc : MemoryCache) (fc : FileCache) (rc : RedisCache)
    (key key' value : list byte) (ttl t1 : Z)
    (wm : World gocache.Cache) (wf : World FS) (wr : World redis.Server) :
  key <> key' ->
  TimeNowFunc fc = time_Now ->
  FileCache_path path_Join fc key <> FileCache_path path_Join fc key' ->
  returned (setThenGetOther (MemoryCacher mc) key value ttl t1 key' wm)
  = returned (getAt (MemoryCacher mc) t1 key' wm)
  /\ returned (setThenGetOther (RedisCacher rc) key value ttl t1 key' wr)
     = returned (getAt (RedisCacher rc) t1 key' wr)
  /\ returned (setThenGetOther (FileCacher msgpack_Marshal msgpack_Unmarshal path_Join fc)
                 key value ttl t1 key' wf)
     = returned (getAt (FileCacher msgpack_Marshal msgpack_Unmarshal path_Join fc) t1 key' wf).
Proof.
  intros Hne Hnow Hpath. split; [|split].
  - assert (Hset : exists u',
               Cacher_Set (MemoryCacher mc) key value ttl wm = Ret None (setUser u' wm)
               /\ gocache.items u' !! string_of key'
                  = gocache.items (user wm) !! string_of key').
    { eexists. split; [reflexivity|]. cbn [gocache.items].
      apply lookup_insert_ne. intros E. apply Hne, string_of_inj, E. }
    destruct Hset as (u' & Hset & Hu').
    unfold setThenGetOther, getAt. unfold bind at 1. rewrite Hset.
    unfold bind, waitUntil, MemoryCacher, Cacher_Get, MemoryCache_Get, bind, gocache.Get.
    cbn [user setUser setClock clock]. rewrite Hu'.
    destruct (gocache.items (user wm) !! string_of key') as [item|]; [|reflexivity].
    destruct ((0 <? gocache.Expiration item)
              && (gocache.Expiration item <? Time_UnixNano t1)); reflexivity.
  - assert (Hset : exists err u',
               Cacher_Set (RedisCacher rc) key value ttl wr = Ret err (setUser u' wr)
               /\ redis.reachable u' = redis.reachable (user wr)
               /\ redis.keys u' !! RedisCache_key rc key'
                  = redis.keys (user wr) !! RedisCache_key rc key').
    { unfold RedisCacher, Cacher_Set, RedisCache_Set, bind, redis.Set_, ret.
      destruct (redis.reachable (user wr)) eqn:Hr; cbn [negb].
      - eexists _, _. split; [reflexivity|]. split; [reflexivity|].
        cbn [redis.keys]. apply lookup_insert_ne.
        unfold RedisCache_key. intros E. apply Hne, string_of_inj.
        exact (append_inj_r _ _ _ E).
      - exists (errors_Wrap (Some redis.unreachable)
                  ("Set for cache key '" +:+ string_of key +:+ "'")), (user wr).
        split; [destruct wr; reflexivity|]. split; [exact Hr | reflexivity]. }
    destruct Hset as (err & u' & Hset & Hr' & Hu').
    unfold setThenGetOther, getAt. unfold bind at 1. rewrite Hset.
    unfold bind, waitUntil, RedisCacher, Cacher_Get, RedisCache_Get, bind, redis.Get.
    cbn [user setUser setClock clock]. rewrite Hr', Hu'.
    destruct (redis.reachable (user wr)); [|reflexivity]. cbn [negb].
    destruct (redis.keys (user wr) !! RedisCache_key rc key') as [[v [at_|]]|];
      try reflexivity.
    destruct (at_ <? t1); reflexivity.
  - unfold setThenGetOther, getAt. unfold bind at 1.
    change (Cacher_Set (FileCacher msgpack_Marshal msgpack_Unmarshal path_Join fc))
      with (FileCache_Set msgpack_Marshal path_Join fc).
    change (Cacher_Get (FileCacher msgpack_Marshal msgpack_Unmarshal path_Join fc))
      with (FileCache_Get msgpack_Unmarshal path_Join fc).
    assert (Hset : exists err u',
               FileCache_Set msgpack_Marshal path_Join fc key value ttl wf
               = Ret err (setUser u' wf)
               /\ u' !! FileCache_path path_Join fc key'
                  = user wf !! FileCache_path path_Join fc key').
    { unfold FileCache_Set, bind. rewrite Hnow. unfold time_Now.
      destruct (msgpack_Marshal _) as [data [e|]].
      - exists (errors_Wrap (Some e) (keyMessage "Error serializing cached data" key)), (user wf).
        split; [destruct wf; reflexivity | reflexivity].
      - eexists _, _. split; [reflexivity|].
        apply lookup_insert_ne. exact Hpath. }
    destruct Hset as (err & u' & -> & Hu').
    unfold bind, waitUntil.
    apply FileCache_Get_depends; [exact Hnow | reflexivity | exact Hu'].
Qed.

(** The key of option_test.go written, and another key read, on stores
    that hold a value for that other key. *)
Definition otherKey : list byte := bytes_of "other".

Lemma Cacher_keys_independent_witness :
  returned (setThenGetOther (MemoryCacher mkMemoryCache) exampleKey exampleValue Second 2000
              otherKey (emptyMemory 1000))
  = returned (getAt (MemoryCacher mkMemoryCache) 2000 otherKey (emptyMemory 1000))
  /\ returned (setThenGetOther (RedisCacher NewRedisCache) exampleKey exampleValue Second 2000
                 otherKey (emptyRedis 1000))
     = returned (getAt (RedisCacher NewRedisCache) 2000 otherKey (emptyRedis 1000))
  /\ returned (setThenGetOther
                 (FileCacher reffile.Marshal reffile.Unmarshal reffile.Join tmpFileCache)
                 exampleKey exampleValue Second 2000 otherKey (emptyDisk 1000))
     = returned (getAt (FileCacher reffile.Marshal reffile.Unmarshal reffile.Join tmpFileCache)
                   2000 otherKey (emptyDisk 1000)).
Proof.
  apply (Cacher_keys_independent reffile.Marshal reffile.Unmarshal reffile.Join
           mkMemoryCache tmpFileCache NewRedisCache exampleKey otherKey exampleValue
           Second 2000 (emptyMemory 1000) (emptyDisk 1000) (emptyRedis 1000)).
  - intros H. vm_compute in H. discriminate.
  - reflexivity.
  - intros H. vm_compute in H. discriminate.
Defined.

(** *** request_handler.go: chains of chains *)

Lemma compose_app {U} (a b : list (RequestHandler U)) (T : RequestHandlerFunc U) :
  compose (a ++ b) T = compose a (compose b T).
Proof.
  induction a as [|h a IH]; [reflexivity|]. simpl. rewrite IH. reflexivity.
Qed.

Lemma compose_chains {U} (ls : list (list (RequestHandler U))) (T : RequestHandlerFunc U) :
  compose (map ChainRequestHandlers ls) T = compose (concat ls) T.
Proof.
  induction ls as [|a ls IH]; [reflexivity|].
  simpl. rewrite IH, compose_app. apply ChainRequestHandlers_next.
Qed.

(** X19.  Chaining is associative: a chain whose interceptors are
    themselves chains behaves as the one chain of all their interceptors in
    order, for every request, terminal call and world (an empty inner chain
    contributes nothing). *)
Theorem ChainRequestHandlers_flatten {U} (ls : list (list (RequestHandler U)))
    (req : option http.Request) (T : RequestHandlerFunc U) (w : World U) :
  ChainRequestHandlers (map ChainRequestHandlers ls) req T w
  = ChainRequestHandlers (concat ls) req T w.
Proof. rewrite !ChainRequestHandlers_compose, compose_chains. reflexivity. Qed.

(** *** retry.go: a policy that stops, and the time a retried call takes *)

(** X20.  With the policy [StopBackOff] and a retry limit that is not zero,
    [RetryHandler] makes one attempt, whatever the retry predicate answers:
    it returns what the downstream handler returned, the response dropped
    when it came with an error, in the world the predicate left. *)
Theorem RetryHandler_stop_policy {U} (chooseDone : Z -> bool) (opt : RetryOption U)
    (req : option http.Request) (handlerFunc : RequestHandlerFunc U) (w w1 w2 : World U)
    (resp : option http.Response) (err : option error) (should : bool) :
  0 < MaxRetry opt ->
  RetryBackOff opt = Some StopBackOff ->
  handlerFunc req w = Ret (resp, err) w1 ->
  ShouldRetryFunc opt req resp err w1 = Ret should w2 ->
  RetryHandler chooseDone opt req handlerFunc w = Ret (dropFailedResponse resp err) w2.
Proof.
  intros Hk Hp Hf Hs. unfold RetryHandler.
  destruct (Z.eqb_spec (MaxRetry opt) 0) as [E|_]; [lia|].
  rewrite Hp. unfold bind at 1. cbn [newFromBackOff].
  unfold bind at 1, time_Now, ret at 1. cbn [BackOff_Reset].
  cbn [retryLoop]. unfold bind at 1, fn. unfold bind at 1. rewrite Hf.
  unfold bind at 1. rewrite Hs.
  destruct should; cbn [negb]; [|reflexivity].
  unfold bind at 1, time_Now.
  rewrite backOffTries_NextBackOff_go by (simpl; lia).
  reflexivity.
Qed.

(** The policy stops a predicate that always asks for a retry after the
    first of four attempts allowed. *)
Lemma RetryHandler_stop_policy_witness :
  RetryHandler (fun _ => true) (alwaysRetryOption StopBackOff)
    (Some (exampleRequest http.Background)) countingHandlerFunc (mkWorld 0 0%nat)
  = Ret (dropFailedResponse (Some http.emptyResponse) None) (mkWorld 0 1%nat).
Proof.
  apply (RetryHandler_stop_policy (fun _ => true) (alwaysRetryOption StopBackOff)
           (Some (exampleRequest http.Background)) countingHandlerFunc
           (mkWorld 0 0%nat) (mkWorld 0 1%nat) (mkWorld 0 1%nat)
           (Some http.emptyResponse) None true).
  - simpl. lia.
  - reflexivity.
  - reflexivity.
  - reflexivity.
Defined.

Section RetryLatency.

Context {U : Type}.
Variable chooseDone : Z -> bool.
Variable opt : RetryOption U.
Variable req : option http.Request.
Variable handlerFunc : RequestHandlerFunc U.

(** Every attempt takes the time [tau]; the retry predicate always asks for
    a retry and takes no time; the policy waits [d] each time; the context
    is never done. *)
Variables (tau d : Z).
Hypothesis handlerFunc_takes :
  forall w, exists r w', handlerFunc req w = Ret r w' /\ clock w' = clock w + tau.
Hypothesis should_always :
  forall resp err w, exists w',
    ShouldRetryFunc opt req resp err w = Ret true w' /\ clock w' = clock w.
Hypothesis never_done : getRequestContext req = http.Background.
Hypothesis d_nonneg : 0 <= d.

Lemma fn_takes (b : backOffTries) (w : World U) :
  0 < maxTries b < uint64_modulus -> 0 <= numTries b ->
  delegate b = ConstantBackOff d ->
  exists r b' w',
    fn chooseDone opt req handlerFunc b w = Ret (numTries b <? maxTries b, r, b') w'
    /\ clock w' = clock w + tau + (if numTries b <? maxTries b then d else 0)
    /\ maxTries b' = maxTries b
    /\ (numTries b < maxTries b -> numTries b' = numTries b + 1)
    /\ delegate b' = ConstantBackOff d.
Proof.
  intros Hmax Hnum Hdel. unfold fn, bind, time_Now, ret.
  destruct (handlerFunc_takes w) as ([resp err] & w1 & -> & Hc1).
  destruct (should_always resp err w1) as (w2 & -> & Hc2). simpl.
  destruct (Z.ltb_spec (numTries b) (maxTries b)) as [Hlt|Hge].
  - rewrite backOffTries_NextBackOff_go by lia.
    rewrite Hdel. cbn [BackOff_NextBackOff fst snd].
    destruct (Z.eqb_spec d Stop) as [E|_]; [unfold Stop in E; lia|].
    rewrite never_done, sleepContext_Background.
    eexists _, _, _. split; [reflexivity|]. simpl.
    repeat split; try lia.
    intros _. apply Z.mod_small. unfold uint64_modulus in *. lia.
  - rewrite backOffTries_NextBackOff_exhausted by lia. simpl.
    eexists _, _, _. split; [reflexivity|].
    repeat split; try assumption; lia.
Qed.

Lemma retryLoop_takes (n : nat) : forall (fuel : nat) (b : backOffTries) (w : World U),
  maxTries b - numTries b = Z.of_nat n ->
  0 < maxTries b < uint64_modulus -> 0 <= numTries b ->
  delegate b = ConstantBackOff d ->
  (n < fuel)%nat ->
  exists r w',
    retryLoop chooseDone fuel opt req handlerFunc b w = Ret r w'
    /\ clock w' = clock w + (Z.of_nat n + 1) * tau + Z.of_nat n * d.
Proof.
  induction n as [|n IH]; intros fuel b w Hrem Hmax Hnum Hdel Hfuel;
    (destruct fuel as [|fuel]; [lia|]);
    destruct (fn_takes b w Hmax Hnum Hdel) as (r & b' & w' & Hfn & Hc & Hm & Hn & Hdel');
    simpl; unfold bind at 1; rewrite Hfn.
  - destruct (Z.ltb_spec (numTries b) (maxTries b)) as [Hlt|_]; [lia|].
    eexists _, _. split; [reflexivity | lia].
  - destruct (Z.ltb_spec (numTries b) (maxTries b)) as [Hlt|Hge]; [|lia].
    specialize (Hn Hlt).
    destruct (IH fuel b' w') as (r' & w'' & Hloop & Hc');
      try assumption; try lia.
    eexists _, _. split; [exact Hloop | lia].
Qed.

End RetryLatency.

(** X21.  With retry limit [k], a constant wait [d >= 0], a context that is
    never done and a retry predicate that always asks for a retry and takes
    no time: when every attempt takes the time [tau], [RetryHandler] returns
    after exactly [(k + 1) * tau + k * d]; the [k] waits are slept in full
    and no wait follows the last attempt. *)
Theorem RetryHandler_latency {U} (chooseDone : Z -> bool) (opt : RetryOption U)
    (req : option http.Request) (handlerFunc : RequestHandlerFunc U) (tau d : Z)
    (w : World U) :
  0 <= MaxRetry opt < uint64_modulus ->
  RetryBackOff opt = Some (ConstantBackOff d) -> 0 <= d ->
  (forall w, exists r w', handlerFunc req w = Ret r w' /\ clock w' = clock w + tau) ->
  (forall resp err w, exists w',
      ShouldRetryFunc opt req resp err w = Ret true w' /\ clock w' = clock w) ->
  getRequestContext req = http.Background ->
  exists r w',
    RetryHandler chooseDone opt req handlerFunc w = Ret r w'
    /\ clock w' = clock w + (MaxRetry opt + 1) * tau + MaxRetry opt * d.
Proof.
  intros Hk Hp Hd Hf Hs Hctx. unfold RetryHandler.
  destruct (Z.eqb_spec (MaxRetry opt) 0) as [E|E].
  - destruct (Hf w) as (r & w' & Hr & Hc). exists r, w'. split; [exact Hr | lia].
  - rewrite Hp. unfold bind at 1. cbn [newFromBackOff].
    unfold bind at 1, time_Now, ret at 1. cbn [BackOff_Reset].
    destruct (retryLoop_takes chooseDone opt req handlerFunc tau d Hf Hs Hctx Hd
                (Z.to_nat (MaxRetry opt)) (S (Z.to_nat (MaxRetry opt)))
                (WithMaxRetries (ConstantBackOff d) (MaxRetry opt)) w)
      as (r & w' & Hloop & Hc); simpl; try lia; try reflexivity.
    exists r, w'. split; [exact Hloop|]. rewrite Hc. rewrite Z2Nat.id by lia. reflexivity.
Qed.

(** [TestRetryRequestHandler_AllFailed]: three waits of 5ms between four
    attempts that take no time. *)
Lemma RetryHandler_latency_witness :
  exists r w',
    RetryHandler (fun _ => true) (alwaysRetryOption (ConstantBackOff (5 * Millisecond)))
      (Some (exampleRequest http.Background)) countingHandlerFunc (mkWorld 0 0%nat)
    = Ret r w'
    /\ clock w' = clock (mkWorld 0 0%nat)
                  + (MaxRetry (alwaysRetryOption (ConstantBackOff (5 * Millisecond))) + 1) * 0
                  + MaxRetry (alwaysRetryOption (ConstantBackOff (5 * Millisecond)))
                    * (5 * Millisecond).
Proof.
  apply (RetryHandler_latency (fun _ => true)
           (alwaysRetryOption (ConstantBackOff (5 * Millisecond)))
           (Some (exampleRequest http.Background)) countingHandlerFunc
           0 (5 * Millisecond) (mkWorld 0 0%nat)).
  - simpl. unfold uint64_modulus. lia.
  - reflexivity.
  - unfold Millisecond. lia.
  - intros w. eexists _, _. split; [reflexivity|]. simpl. lia.
  - intros resp err w. exists w. split; reflexivity.
  - reflexivity.
Defined.

(** ** logger.go: the logging interceptor *)

(** github.com/sirupsen/logrus, as far as the package uses it: a level, and
    the fields [defaultLoggerFunc] attaches to a record, by key. *)
Module logrus.

Inductive Level : Type := InfoLevel | WarnLevel | ErrorLevel.

(** [logrus.Fields] with the nine keys of [defaultLoggerFunc]. *)
Record Fields : Type := mkFields {
  method : string;
  url : string;
  requestHeader : option (gmap string string);
  requestBody : string;
  responseHeader : option (gmap string string);
  responseBody : string;
  statusCode : Z;
  executeTime : string;
  executeTimeMs : Z
}.

End logrus.

Module LE.

(** [LoggerEntry].  A header that was not recorded is [nil]. *)
Record LoggerEntry : Type := mk {
  Method : string;
  URL : string;
  RequestHeader : option http.Header;
  RequestBody : list byte;
  ResponseHeader : option http.Header;
  ResponseBody : list byte;
  StatusCode : Z;
  ExecuteTime : Z;
  StartTime : Z
}.

(** The zero value. *)
Definition zero : LoggerEntry :=
  {| Method := ""; URL := ""; RequestHeader := None; RequestBody := [];
     ResponseHeader := None; ResponseBody := []; StatusCode := 0;
     ExecuteTime := 0; StartTime := 0 |}.

End LE.

(** [copyHTTPHeader]: [nil] for [nil]; otherwise every key of the header
    with what [Header.Get] returns for it. *)
Definition copyHTTPHeader (h : option http.Header) : option (gmap string string) :=
  match h with
  | None => None
  | Some h => Some (map_imap (fun k _ => Some (Header_Get h k)) h)
  end.

(** A body after [io.ReadAll] has read it to its end: no bytes are left,
    and the error it ended with, if any, is what a further read returns. *)
Definition drained (b : http.Body) : http.Body :=
  {| http.data := []; http.readErr := http.readErr b |}.

(** [copyHTTPResponseBody]: the bytes of the body, and the response with
    its body replaced by a reader over these bytes; when the read fails the
    body is left as the read left it. *)
Definition copyHTTPResponseBody (resp : http.Response) (b : http.Body)
    : list byte * option error * http.Response :=
  let '(body, err) := io_ReadAll b in
  let withBody (b' : http.Body) : http.Response :=
    {| http.Status := http.Status resp; http.StatusCode := http.StatusCode resp;
       http.Proto := http.Proto resp; http.ProtoMajor := http.ProtoMajor resp;
       http.ProtoMinor := http.ProtoMinor resp; http.RespHeader := http.RespHeader resp;
       http.RespBody := Some b';
       http.ContentLength := http.ContentLength resp;
       http.Request_ := http.Request_ resp |} in
  match err with
  | Some _ => ([], err, withBody (drained b))
  | None => (body, None, withBody (http.mkBody body None))
  end.

Section Logger.

Context {U : Type}.

(** [time.Duration.String], and [logrus.WithError(err).Warn(msg)] on the
    standard logger. *)
Variable Duration_String : Z -> string.
Variable logrus_WithError_Warn : error -> string -> M U unit.

(** A [*logrus.Entry]: what [WithFields(fields)] followed by [Info(msg)] or
    [Error(msg)] does with a record. *)
Definition Entry : Type := logrus.Level -> logrus.Fields -> string -> M U unit.

(** [LoggerOption] without its [LoggerFunc], which is passed the option it
    is a field of: the function is given the other fields. *)
Record LoggerSettings : Type := mkLoggerSettings {
  LogMessage : string;
  LogRequestHeader : bool;
  LogRequestBody : bool;
  LogResponseHeader : bool;
  LogResponseBody : bool;
  Logger : option Entry
}.

Definition LoggerFunc : Type :=
  option http.Request -> LE.LoggerEntry -> LoggerSettings -> M U unit.

Record LoggerOption : Type := mkLoggerOption {
  settings : LoggerSettings;
  LoggerFunc_ : LoggerFunc
}.

Definition defaultLogMessage : string := "http client request".

(** [Duration.Milliseconds]. *)
Definition Duration_Milliseconds (d : Z) : Z := Z.quot d 1000000.

Definition defaultLoggerFunc : LoggerFunc :=
  fun req e opt =>
    let fields :=
      {| logrus.method := LE.Method e;
         logrus.url := LE.URL e;
         logrus.requestHeader := copyHTTPHeader (LE.RequestHeader e);
         logrus.requestBody := string_of (LE.RequestBody e);
         logrus.responseHeader := copyHTTPHeader (LE.ResponseHeader e);
         logrus.responseBody := string_of (LE.ResponseBody e);
         logrus.statusCode := LE.StatusCode e;
         logrus.executeTime := Duration_String (LE.ExecuteTime e);
         logrus.executeTimeMs := Duration_Milliseconds (LE.ExecuteTime e) |} in
    match Logger opt with
    | None => panic "runtime error: invalid memory address or nil pointer dereference"
    | Some logger =>
        if LE.StatusCode e <? 400
        then logger logrus.InfoLevel fields (LogMessage opt)
        else logger logrus.ErrorLevel fields (LogMessage opt)
    end.

Definition NewLoggerOption (defaultLogger : Entry) : LoggerOption :=
  {| settings := {| LogRequestHeader := true; LogRequestBody := true;
                    LogResponseHeader := true; LogResponseBody := true;
                    LogMessage := defaultLogMessage;
                    Logger := Some defaultLogger |};
     LoggerFunc_ := defaultLoggerFunc |}.

(** [getLoggerEntry]: the entry, the error, and the response as the reading
    of its body left it.  [req.URL.String()] on a [nil] URL panics. *)
Definition getLoggerEntry (req : option http.Request) (resp : option http.Response)
    (opt : LoggerSettings) (startTime : Z)
    : M U (LE.LoggerEntry * option error * option http.Response) :=
  match req with
  | None => ret (LE.zero, Some (errors_New "http.Request is nil"), resp)
  | Some r =>
      match http.URL_ r with
      | None => panic "runtime error: invalid memory address or nil pointer dereference"
      | Some u =>
          now <- time_Now ;;
          let requestHeader :=
            if LogRequestHeader opt then Some (http.ReqHeader r) else None in
          let '(requestBody, err) :=
            match LogRequestBody opt, http.ReqBody r with
            | true, Some b => copyHTTPBody b
            | _, _ => ([], None)
            end in
          let entry :=
            {| LE.Method := http.Method r; LE.URL := http.String_ u;
               LE.RequestHeader := requestHeader; LE.RequestBody := requestBody;
               LE.ResponseHeader := None; LE.ResponseBody := []; LE.StatusCode := 0;
               LE.ExecuteTime := Time_Sub now startTime; LE.StartTime := startTime |} in
          match err with
          | Some _ => ret (entry, err, resp)
          | None =>
              let responseHeader :=
                match LogResponseHeader opt, resp with
                | true, Some p => Some (http.RespHeader p)
                | _, _ => None
                end in
              let '(responseBody, err, resp') :=
                match LogResponseBody opt, resp with
                | true, Some p =>
                    match http.RespBody p with
                    | Some b =>
                        let '(body, err, p') := copyHTTPResponseBody p b in
                        (body, err, Some p')
                    | None => ([], None, resp)
                    end
                | _, _ => ([], None, resp)
                end in
              let entry :=
                {| LE.Method := LE.Method entry; LE.URL := LE.URL entry;
                   LE.RequestHeader := LE.RequestHeader entry;
                   LE.RequestBody := LE.RequestBody entry;
                   LE.ResponseHeader := responseHeader; LE.ResponseBody := responseBody;
                   LE.StatusCode := 0;
                   LE.ExecuteTime := LE.ExecuteTime entry;
                   LE.StartTime := LE.StartTime entry |} in
              match err with
              | Some _ => ret (entry, err, resp')
              | None =>
                  let entry :=
                    {| LE.Method := LE.Method entry; LE.URL := LE.URL entry;
                       LE.RequestHeader := LE.RequestHeader entry;
                       LE.RequestBody := LE.RequestBody entry;
                       LE.ResponseHeader := LE.ResponseHeader entry;
                       LE.ResponseBody := LE.ResponseBody entry;
                       LE.StatusCode := match resp with
                                        | Some p => http.StatusCode p
                                        | None => 0
                                        end;
                       LE.ExecuteTime := LE.ExecuteTime entry;
                       LE.StartTime := LE.StartTime entry |} in
                  ret (entry, None, resp')
              end
          end
      end
  end.

Definition LoggerHandler (opt : LoggerOption) : RequestHandler U :=
  fun req handlerFunc =>
    startTime <- time_Now ;;
    '(resp, err) <- handlerFunc req ;;
    '(entry, loggerErr, resp) <- getLoggerEntry req resp (settings opt) startTime ;;
    match loggerErr with
    | Some e =>
        logrus_WithError_Warn e "gohttpclient build logger entry" ;;
        ret (resp, err)
    | None =>
        LoggerFunc_ opt req entry (settings opt) ;;
        ret (resp, err)
    end.

End Logger.

Arguments Entry U : clear implicits.
Arguments LoggerSettings U : clear implicits.
Arguments LoggerFunc U : clear implicits.
Arguments LoggerOption U : clear implicits.

(** *** What is logged, and what the caller gets *)

(** The status code recorded for a response; none for no response. *)
Definition statusOf (resp : option http.Response) : Z :=
  match resp with
  | Some p => http.StatusCode p
  | None => 0
  end.

(** The bytes recorded for the body of a response. *)
Definition responseBytes (resp : option http.Response) : list byte :=
  match resp with
  | Some p => bodyBytes (http.RespBody p)
  | None => []
  end.

Lemma copyHTTPResponseBody_readable (p : http.Response) (b : http.Body) :
  http.RespBody p = Some b -> http.readErr b = None ->
  copyHTTPResponseBody p b = (http.data b, None, p).
Proof.
  intros Hb He. unfold copyHTTPResponseBody, io_ReadAll. rewrite He.
  destruct p as [s c pr mj mn h rb cl rq]. simpl in Hb. subst rb.
  destruct b as [d e]. simpl in He. subst e. reflexivity.
Qed.

(** The entry of a request with a URL whose bodies, where they are to be
    recorded, are read without error. *)
Lemma getLoggerEntry_readable {U} (opt : LoggerSettings U) (r : http.Request) (u : http.URL)
    (resp : option http.Response) (startTime : Z) (w : World U) :
  http.URL_ r = Some u ->
  (LogRequestBody opt = true -> readable (http.ReqBody r)) ->
  (LogResponseBody opt = true -> forall p, resp = Some p -> readable (http.RespBody p)) ->
  exists entry,
    getLoggerEntry (Some r) resp opt startTime w = Ret (entry, None, resp) w
    /\ LE.Method entry = http.Method r
    /\ LE.URL entry = http.String_ u
    /\ LE.StatusCode entry = statusOf resp
    /\ LE.StartTime entry = startTime
    /\ LE.ExecuteTime entry = Time_Sub (clock w) startTime
    /\ LE.RequestHeader entry
       = (if LogRequestHeader opt then Some (http.ReqHeader r) else None)
    /\ LE.RequestBody entry
       = (if LogRequestBody opt then bodyBytes (http.ReqBody r) else [])
    /\ LE.ResponseHeader entry
       = (if LogResponseHeader opt then http.RespHeader <$> resp else None)
    /\ LE.ResponseBody entry
       = (if LogResponseBody opt then responseBytes resp else []).
Proof.
  intros Hu Hrb Hwb. unfold getLoggerEntry. rewrite Hu.
  unfold bind, time_Now, ret.
  assert (Hreq : match LogRequestBody opt, http.ReqBody r with
                 | true, Some b => copyHTTPBody b
                 | _, _ => ([], None)
                 end
                 = (if LogRequestBody opt then bodyBytes (http.ReqBody r) else [], None)).
  { destruct (LogRequestBody opt); [|reflexivity].
    specialize (Hrb eq_refl).
    destruct (http.ReqBody r) as [[d e]|]; simpl in *; [subst; reflexivity | reflexivity]. }
  rewrite Hreq. clear Hreq. cbv beta iota.
  assert (Hresp : match LogResponseBody opt, resp with
                  | true, Some p =>
                      match http.RespBody p with
                      | Some b =>
                          let '(body, err, p') := copyHTTPResponseBody p b in
                          (body, err, Some p')
                      | None => ([], None, resp)
                      end
                  | _, _ => ([], None, resp)
                  end
                  = (if LogResponseBody opt then responseBytes resp else [], None, resp)).
  { destruct (LogResponseBody opt); [|destruct resp; reflexivity].
    destruct resp as [p|]; [|reflexivity].
    specialize (Hwb eq_refl p eq_refl). simpl.
    destruct (http.RespBody p) as [b|] eqn:Hb; [|reflexivity].
    simpl in Hwb. rewrite (copyHTTPResponseBody_readable p b Hb Hwb). reflexivity. }
  rewrite Hresp. clear Hresp. cbv beta iota.
  eexists. split; [reflexivity|]. cbn.
  repeat split; try reflexivity;
    destruct (LogResponseHeader opt), resp; reflexivity.
Qed.

Lemma LoggerHandler_entry {U} (warn : error -> string -> M U unit) (opt : LoggerOption U)
    (r : http.Request) (u : http.URL) (handlerFunc : RequestHandlerFunc U) (w w1 : World U)
    (resp : option http.Response) (err : option error) :
  http.URL_ r = Some u ->
  (LogRequestBody (settings opt) = true -> readable (http.ReqBody r)) ->
  (LogResponseBody (settings opt) = true ->
   forall p, resp = Some p -> readable (http.RespBody p)) ->
  handlerFunc (Some r) w = Ret (resp, err) w1 ->
  exists entry,
    LoggerHandler warn opt (Some r) handlerFunc w
    = (LoggerFunc_ opt (Some r) entry (settings opt) ;; ret (resp, err)) w1
    /\ LE.Method entry = http.Method r
    /\ LE.URL entry = http.String_ u
    /\ LE.StatusCode entry = statusOf resp
    /\ LE.StartTime entry = clock w
    /\ LE.ExecuteTime entry = Time_Sub (clock w1) (clock w)
    /\ LE.RequestHeader entry
       = (if LogRequestHeader (settings opt) then Some (http.ReqHeader r) else None)
    /\ LE.RequestBody entry
       = (if LogRequestBody (settings opt) then bodyBytes (http.ReqBody r) else [])
    /\ LE.ResponseHeader entry
       = (if LogResponseHeader (settings opt) then http.RespHeader <$> resp else None)
    /\ LE.ResponseBody entry
       = (if LogResponseBody (settings opt) then responseBytes resp else []).
Proof.
  intros Hu Hrb Hwb Hf.
  destruct (getLoggerEntry_readable (settings opt) r u resp (clock w) w1 Hu Hrb Hwb)
    as (entry & Hentry & Hprops).
  exists entry. split; [|exact Hprops].
  unfold LoggerHandler. unfold bind at 1, time_Now. unfold bind at 1. rewrite Hf.
  unfold bind at 1. rewrite Hentry. reflexivity.
Qed.


(** A logger that keeps, of every record, the level, the message and the
    status code; the standard logger keeps its warnings in the same place. *)
Definition LogLine : Type := logrus.Level * string * Z.

Definition recordingLogger : Entry (list LogLine) :=
  fun level fields msg w =>
    Ret tt (setUser (user w ++ [(level, msg, logrus.statusCode fields)]) w).

Definition recordingWarn : error -> string -> M (list LogLine) unit :=
  fun e msg w => Ret tt (setUser (user w ++ [(logrus.WarnLevel, msg, 0)]) w).

(** [Duration.String] at the duration 0, the only one the runs below
    have. *)
Definition zeroDurationString : Z -> string := fun _ => "0s".

(** A transport that fails: no response, and an error. *)
Definition failingTransport {U} : RequestHandlerFunc U :=
  fun _ => ret (None, Some (errorString "EOF")).


(** X23.  When the entry cannot be built, [LoggerFunc] is not run: the
    standard logger gets a warning with the error, and the caller gets the
    error of the downstream handler as it is.  That is so for a [nil]
    request, for a request body that is to be recorded and cannot be read,
    and for a response body that is to be recorded and cannot be read; in
    that last case the caller gets the response with its body read to the
    failure. *)
Theorem LoggerHandler_entry_failure {U} (warn : error -> string -> M U unit)
    (opt : LoggerOption U) (handlerFunc : RequestHandlerFunc U) (w w1 : World U)
    (err : option error) :
  (forall resp,
     handlerFunc None w = Ret (resp, err) w1 ->
     LoggerHandler warn opt None handlerFunc w
     = (warn (errors_New "http.Request is nil") "gohttpclient build logger entry" ;;
        ret (resp, err)) w1)
  /\ (forall r u b e resp,
        http.URL_ r = Some u -> LogRequestBody (settings opt) = true ->
        http.ReqBody r = Some b -> http.readErr b = Some e ->
        handlerFunc (Some r) w = Ret (resp, err) w1 ->
        LoggerHandler warn opt (Some r) handlerFunc w
        = (warn e "gohttpclient build logger entry" ;; ret (resp, err)) w1)
  /\ (forall r u p b e,
        http.URL_ r = Some u ->
        (LogRequestBody (settings opt) = true -> readable (http.ReqBody r)) ->
        LogResponseBody (settings opt) = true ->
        http.RespBody p = Some b -> http.readErr b = Some e ->
        handlerFunc (Some r) w = Ret (Some p, err) w1 ->
        exists p',
          LoggerHandler warn opt (Some r) handlerFunc w
          = (warn e "gohttpclient build logger entry" ;; ret (Some p', err)) w1
          /\ http.StatusCode p' = http.StatusCode p
          /\ http.RespHeader p' = http.RespHeader p
          /\ http.RespBody p' = Some (drained b)).
Proof.
  split; [|split].
  - intros resp Hf. unfold LoggerHandler. unfold bind at 1, time_Now.
    unfold bind at 1. rewrite Hf. reflexivity.
  - intros r u b e resp Hu Hflag Hb He Hf.
    unfold LoggerHandler. unfold bind at 1, time_Now. unfold bind at 1. rewrite Hf.
    unfold bind at 1, getLoggerEntry. rewrite Hu, Hflag, Hb.
    unfold bind at 1, time_Now, copyHTTPBody, io_ReadAll. rewrite He. reflexivity.
  - intros r u p b e Hu Hrb Hflag Hb He Hf.
    unfold LoggerHandler. unfold bind at 1, time_Now. unfold bind at 1. rewrite Hf.
    unfold bind at 1, getLoggerEntry. rewrite Hu, Hflag.
    unfold bind at 1, time_Now.
    assert (Hreq : match LogRequestBody (settings opt), http.ReqBody r with
                   | true, Some b => copyHTTPBody b
                   | _, _ => ([], None)
                   end
                   = (if LogRequestBody (settings opt)
                      then bodyBytes (http.ReqBody r) else [], None)).
    { destruct (LogRequestBody (settings opt)); [|reflexivity].
      specialize (Hrb eq_refl).
      destruct (http.ReqBody r) as [[d e0]|]; simpl in *; [subst; reflexivity | reflexivity]. }
    rewrite Hreq. clear Hreq. cbv beta iota. rewrite Hb.
    unfold copyHTTPResponseBody, io_ReadAll. rewrite He. cbv beta iota.
    eexists. split; [reflexivity|]. repeat split.
Qed.

(** X24.  A request without URL makes [LoggerHandler] panic where it asks
    the URL for its text; the downstream handler has run by then, and its
    response and error are lost to the caller. *)
Theorem LoggerHandler_nil_URL {U} (warn : error -> string -> M U unit)
    (opt : LoggerOption U) (r : http.Request)
    (handlerFunc : RequestHandlerFunc U) (w w1 : World U)
    (resp : option http.Response) (err : option error) :
  http.URL_ r = None ->
  handlerFunc (Some r) w = Ret (resp, err) w1 ->
  LoggerHandler warn opt (Some r) handlerFunc w
  = Panic "runtime error: invalid memory address or nil pointer dereference" w1.
Proof.
  intros Hu Hf. unfold LoggerHandler. unfold bind at 1, time_Now.
  unfold bind at 1. rewrite Hf.
  unfold bind at 1, getLoggerEntry. rewrite Hu. reflexivity.
Qed.

(** A transport that answers with status 200 and leaves a line of its own
    in the log. *)
Definition countingTransport : RequestHandlerFunc (list LogLine) :=
  fun _ w =>
    Ret (Some (responseOf 200 ∅ []), None)
        (setUser (user w ++ [(logrus.InfoLevel, "downstream", 200)]) w).

Definition requestWithoutURL : http.Request :=
  {| http.Method := http.MethodGet; http.URL_ := None; http.ReqHeader := ∅;
     http.ReqBody := None; http.ctx := http.Background |}.

Lemma LoggerHandler_nil_URL_witness :
  LoggerHandler recordingWarn (NewLoggerOption zeroDurationString recordingLogger)
    (Some requestWithoutURL) countingTransport (mkWorld 0 [])
  = Panic "runtime error: invalid memory address or nil pointer dereference"
          (mkWorld 0 [(logrus.InfoLevel, "downstream", 200)]).
Proof.
  apply (LoggerHandler_nil_URL recordingWarn
           (NewLoggerOption zeroDurationString recordingLogger)
           requestWithoutURL countingTransport
           (mkWorld 0 []) (mkWorld 0 [(logrus.InfoLevel, "downstream", 200)])
           (Some (responseOf 200 ∅ [])) None).
  - reflexivity.
  - reflexivity.
Defined.

(** The level [defaultLoggerFunc] logs a status code at. *)
Definition levelOf (statusCode : Z) : logrus.Level :=
  if statusCode <? 400 then logrus.InfoLevel else logrus.ErrorLevel.

(** X25.  With [defaultLoggerFunc] and a logger, every call of a request
    with a URL whose recorded bodies are read without error leaves exactly
    one record, written after the downstream call, and returns what the
    downstream handler returned.  The record is at the error level exactly
    when the status code of the response is 400 or more; a call that failed
    without a response (a transport error) has status code 0 and is logged
    at the info level.  The record carries the method, the URL text, the
    status code and the execution time in whole milliseconds. *)
Theorem LoggerHandler_default_level {U} (Duration_String : Z -> string)
    (warn : error -> string -> M U unit) (logger : Entry U) (s : LoggerSettings U)
    (r : http.Request) (u : http.URL) (handlerFunc : RequestHandlerFunc U) (w w1 : World U)
    (resp : option http.Response) (err : option error) :
  Logger s = Some logger ->
  http.URL_ r = Some u ->
  (LogRequestBody s = true -> readable (http.ReqBody r)) ->
  (LogResponseBody s = true -> forall p, resp = Some p -> readable (http.RespBody p)) ->
  handlerFunc (Some r) w = Ret (resp, err) w1 ->
  exists fields,
    LoggerHandler warn {| settings := s; LoggerFunc_ := defaultLoggerFunc Duration_String |}
      (Some r) handlerFunc w
    = (logger (levelOf (statusOf resp)) fields (LogMessage s) ;; ret (resp, err)) w1
    /\ logrus.statusCode fields = statusOf resp
    /\ logrus.method fields = http.Method r
    /\ logrus.url fields = http.String_ u
    /\ logrus.executeTimeMs fields = Z.quot (Time_Sub (clock w1) (clock w)) 1000000
    /\ (resp = None -> levelOf (statusOf resp) = logrus.InfoLevel).
Proof.
  intros Hl Hu Hrb Hwb Hf.
  destruct (LoggerHandler_entry warn
              {| settings := s; LoggerFunc_ := defaultLoggerFunc Duration_String |}
              r u handlerFunc w w1 resp err Hu Hrb Hwb Hf)
    as (entry & Hrun & Hm & Hurl & Hst & _ & Hex & _).
  rewrite Hrun. cbn [LoggerFunc_ settings]. unfold defaultLoggerFunc. rewrite Hl.
  eexists. split.
  - unfold bind, levelOf. rewrite Hst.
    destruct (statusOf resp <? 400); reflexivity.
  - cbn [logrus.statusCode logrus.method logrus.url logrus.executeTimeMs].
    unfold Duration_Milliseconds. rewrite Hex.
    repeat split; try assumption.
    intros ->. reflexivity.
Qed.

(** The failing transport, logged by the default option; and a response
    with status 500. *)
Lemma LoggerHandler_default_level_witness :
  exists fields,
    LoggerHandler recordingWarn
      {| settings := settings (NewLoggerOption zeroDurationString recordingLogger);
         LoggerFunc_ := defaultLoggerFunc zeroDurationString |}
      (Some (exampleRequest http.Background)) failingTransport (mkWorld 0 [])
    = (recordingLogger (levelOf (statusOf None)) fields
         (LogMessage (settings (NewLoggerOption zeroDurationString recordingLogger))) ;;
       ret (None, Some (errorString "EOF"))) (mkWorld 0 [])
    /\ logrus.statusCode fields = statusOf None
    /\ logrus.method fields = http.Method (exampleRequest http.Background)
    /\ logrus.url fields = http.String_ (http.mkURL "https://example.com")
    /\ logrus.executeTimeMs fields
       = Z.quot (Time_Sub (clock (mkWorld 0 ([] : list LogLine)))
                          (clock (mkWorld 0 ([] : list LogLine)))) 1000000
    /\ (@None http.Response = None -> levelOf (statusOf None) = logrus.InfoLevel).
Proof.
  apply (LoggerHandler_default_level zeroDurationString recordingWarn recordingLogger
           (settings (NewLoggerOption zeroDurationString recordingLogger))
           (exampleRequest http.Background) (http.mkURL "https://example.com")
           failingTransport (mkWorld 0 []) (mkWorld 0 []) None (Some (errorString "EOF"))).
  - reflexivity.
  - reflexivity.
  - intros _. exact I.
  - intros _ p Hp. discriminate.
  - reflexivity.
Defined.

(** The two runs, evaluated: the failed call leaves an info record with
    status code 0, a response with status 500 an error record. *)
Example LoggerHandler_runs :
  LoggerHandler recordingWarn (NewLoggerOption zeroDurationString recordingLogger)
    (Some (exampleRequest http.Background)) failingTransport (mkWorld 0 [])
  = Ret (None, Some (errorString "EOF"))
        (mkWorld 0 [(logrus.InfoLevel, "http client request", 0)])
  /\ LoggerHandler recordingWarn (NewLoggerOption zeroDurationString recordingLogger)
       (Some (exampleRequest http.Background))
       (fun _ => ret (Some (responseOf 500 ∅ []), None)) (mkWorld 0 [])
     = Ret (Some (responseOf 500 ∅ []), None)
           (mkWorld 0 [(logrus.ErrorLevel, "http client request", 500)])
  /\ LoggerHandler recordingWarn (NewLoggerOption zeroDurationString recordingLogger)
       None failingTransport (mkWorld 0 [])
     = Ret (None, Some (errorString "EOF"))
           (mkWorld 0 [(logrus.WarnLevel, "gohttpclient build logger entry", 0)]).
Proof. repeat split. Qed.

(** ** ratelimit.go: the rate-limiting interceptor *)

Module url.

(** The fields of a [url.URL] that [getURLStringEndWithPath] copies or
    clears.  [User] is the user information, [nil] for none. *)
Record Parts : Type := mkParts {
  Scheme : string;
  Opaque : string;
  User : option string;
  Host : string;
  Path : string;
  RawPath : string;
  ForceQuery : bool;
  RawQuery : string;
  Fragment : string;
  RawFragment : string
}.

End url.

(** The world of the rate limiter: the [sync.Map] the option points to,
    which holds a limiter per key, and what the limiters and the transport
    keep. *)
Record RateWorld (L S : Type) : Type := mkRateWorld {
  limiters : gmap string L;
  others : S
}.
Arguments mkRateWorld {L S} _ _.
Arguments limiters {L S} _.
Arguments others {L S} _.

Section RateLimit.

(** [L]: the values of the interface [ratelimit.Limiter]
    (go.uber.org/ratelimit). *)
Context {L S : Type}.

(** The fields of a URL and [URL.String] of package net/url;
    [strings.ToLower]; and [Limiter.Take], which blocks until the limiter
    lets the caller go and returns the instant. *)
Variable url_parts : http.URL -> url.Parts.
Variable URL_String : url.Parts -> string.
Variable strings_ToLower : string -> string.
Variable Limiter_Take : L -> M (RateWorld L S) Z.

(** [RateLimitOption] without its [RateLimitFunc], which is passed the
    option it is a field of: the function is given the other fields.  The
    field [RateLimits] points to the map of the world. *)
Record RateLimitSettings : Type := mkRateLimitSettings {
  Rate : Z;
  RateLimitConstructor : M (RateWorld L S) L
}.

Definition RateLimitFunc : Type :=
  option http.Request -> RateLimitSettings -> M (RateWorld L S) (option error).

Record RateLimitOption : Type := mkRateLimitOption {
  rateSettings : RateLimitSettings;
  RateLimitFunc_ : RateLimitFunc
}.

(** [sync.Map.LoadOrStore]: the value the map holds for the key, if any;
    otherwise the given value, which is stored. *)
Definition sync_Map_LoadOrStore (key : string) (value : L) : M (RateWorld L S) (L * bool) :=
  fun w =>
    match limiters (user w) !! key with
    | Some actual => Ret (actual, true) w
    | None =>
        Ret (value, false)
            (setUser {| limiters := <[key := value]> (limiters (user w));
                        others := others (user w) |} w)
    end.

Definition getURLStringEndWithPath (u : http.URL) : string :=
  let p := url_parts u in
  URL_String {| url.Scheme := url.Scheme p; url.Opaque := ""; url.User := None;
                url.Host := url.Host p; url.Path := url.Path p;
                url.RawPath := url.RawPath p; url.ForceQuery := url.ForceQuery p;
                url.RawQuery := ""; url.Fragment := ""; url.RawFragment := "" |}.

(** The key of [defaultRateLimitFunc]. *)
Definition defaultRateLimitKey (req : option http.Request) : string :=
  match req with
  | Some r =>
      match http.URL_ r with
      | Some u => http.Method r +:+ " " +:+ strings_ToLower (getURLStringEndWithPath u)
      | None => ""
      end
  | None => ""
  end.

Definition defaultRateLimitFunc : RateLimitFunc :=
  fun req opt =>
    let key := defaultRateLimitKey req in
    value <- RateLimitConstructor opt ;;
    '(rl, _) <- sync_Map_LoadOrStore key value ;;
    Limiter_Take rl ;;
    ret None.

Definition RateLimitAllRequestsFunc : RateLimitFunc :=
  fun req opt =>
    let key := "__all__" in
    value <- RateLimitConstructor opt ;;
    '(rl, _) <- sync_Map_LoadOrStore key value ;;
    Limiter_Take rl ;;
    ret None.

(** [NewRateLimitOption], given [ratelimit.New]. *)
Definition NewRateLimitOption (ratelimit_New : Z -> M (RateWorld L S) L) (rate : Z)
    : RateLimitOption :=
  {| rateSettings := {| Rate := rate; RateLimitConstructor := ratelimit_New rate |};
     RateLimitFunc_ := defaultRateLimitFunc |}.

Definition RateLimitHandler (opt : RateLimitOption) : RequestHandler (RateWorld L S) :=
  fun req handlerFunc =>
    err <- RateLimitFunc_ opt req (rateSettings opt) ;;
    match err with
    | Some _ => ret (None, err)
    | None => handlerFunc req
    end.

End RateLimit.

Arguments RateLimitSettings L S : clear implicits.
Arguments RateLimitFunc L S : clear implicits.
Arguments RateLimitOption L S : clear implicits.

(** *** Which requests share a limiter *)

(** Two URLs with the same scheme, host and path, whatever their queries,
    fragments and user information are. *)
Definition sameEndpoint (p q : url.Parts) : Prop :=
  url.Scheme p = url.Scheme q /\ url.Host p = url.Host q
  /\ url.Path p = url.Path q /\ url.RawPath p = url.RawPath q
  /\ url.ForceQuery p = url.ForceQuery q.

(** A call of a built-in rate-limit function whose key has the limiter
    [l0] in the map: the limiter built for the call is dropped, and [l0]
    is taken from. *)
Lemma RateLimitHandler_stored {L S} (Limiter_Take : L -> M (RateWorld L S) Z)
    (s : RateLimitSettings L S) (f : RateLimitFunc L S) (key : string)
    (req : option http.Request) (handlerFunc : RequestHandlerFunc (RateWorld L S))
    (w w1 : World (RateWorld L S)) (l0 value : L) :
  (forall opt,
      f req opt
      = (value <- RateLimitConstructor opt ;;
         '(rl, _) <- sync_Map_LoadOrStore key value ;;
         Limiter_Take rl ;;
         ret None)) ->
  RateLimitConstructor s w = Ret value w1 ->
  limiters (user w1) !! key = Some l0 ->
  RateLimitHandler {| rateSettings := s; RateLimitFunc_ := f |} req handlerFunc w
  = (Limiter_Take l0 ;; handlerFunc req) w1.
Proof.
  intros Hf Hc Hl. unfold RateLimitHandler. cbn [RateLimitFunc_ rateSettings].
  rewrite Hf. unfold bind at 1. unfold bind at 1. rewrite Hc.
  unfold bind at 1, sync_Map_LoadOrStore. rewrite Hl.
  unfold bind. destruct (Limiter_Take l0 w1); reflexivity.
Qed.

(** X26.  Under [defaultRateLimitFunc] the limiter of a request is chosen
    by its method and by the scheme, host and path of its URL: once the map
    holds a limiter for a request, every request with the same method and
    the same endpoint takes from that limiter, whatever its query, its
    fragment and its user information are; the limiter built for the call
    is dropped, the downstream handler is called after the take, and the
    interceptor adds no error of its own. *)
Theorem RateLimitHandler_same_endpoint {L S}
    (url_parts : http.URL -> url.Parts) (URL_String : url.Parts -> string)
    (strings_ToLower : string -> string) (Limiter_Take : L -> M (RateWorld L S) Z)
    (s : RateLimitSettings L S) (r1 r2 : http.Request) (u1 u2 : http.URL)
    (handlerFunc : RequestHandlerFunc (RateWorld L S))
    (w w1 : World (RateWorld L S)) (l0 value : L) :
  http.URL_ r1 = Some u1 -> http.URL_ r2 = Some u2 ->
  http.Method r2 = http.Method r1 ->
  sameEndpoint (url_parts u2) (url_parts u1) ->
  RateLimitConstructor s w = Ret value w1 ->
  limiters (user w1)
    !! defaultRateLimitKey url_parts URL_String strings_ToLower (Some r1) = Some l0 ->
  RateLimitHandler
    {| rateSettings := s;
       RateLimitFunc_ := defaultRateLimitFunc url_parts URL_String strings_ToLower
                           Limiter_Take |}
    (Some r2) handlerFunc w
  = (Limiter_Take l0 ;; handlerFunc (Some r2)) w1.
Proof.
  intros Hu1 Hu2 Hm (Hs & Hh & Hp & Hr & Hq) Hc Hl.
  apply (RateLimitHandler_stored Limiter_Take s _
           (defaultRateLimitKey url_parts URL_String strings_ToLower (Some r2))
           (Some r2) handlerFunc w w1 l0 value); [reflexivity | exact Hc |].
  rewrite <- Hl. f_equal.
  unfold defaultRateLimitKey, getURLStringEndWithPath.
  rewrite Hu1, Hu2, Hm, Hs, Hh, Hp, Hr, Hq. reflexivity.
Qed.

(** X27.  Under [RateLimitAllRequestsFunc] all requests share one limiter,
    kept under the key [__all__]: the first call stores the limiter it
    built and takes from it before it calls downstream; a later call, of
    whatever request, builds a limiter, drops it, and takes from the stored
    one.  The interceptor returns what the downstream handler returned. *)
Theorem RateLimitAllRequestsFunc_one_limiter {L S}
    (Limiter_Take : L -> M (RateWorld L S) Z) (s : RateLimitSettings L S)
    (req1 req2 : option http.Request) (handlerFunc : RequestHandlerFunc (RateWorld L S))
    (w w1 w2 w3 w4 : World (RateWorld L S)) (l l' : L) (t : Z) (res1 : Result) :
  RateLimitConstructor s w = Ret l w1 ->
  limiters (user w1) !! "__all__" = None ->
  Limiter_Take l (setUser {| limiters := <["__all__" := l]> (limiters (user w1));
                             others := others (user w1) |} w1) = Ret t w2 ->
  handlerFunc req1 w2 = Ret res1 w3 ->
  RateLimitConstructor s w3 = Ret l' w4 ->
  limiters (user w4) !! "__all__" = Some l ->
  RateLimitHandler
    {| rateSettings := s; RateLimitFunc_ := RateLimitAllRequestsFunc Limiter_Take |}
    req1 handlerFunc w
  = Ret res1 w3
  /\ RateLimitHandler
       {| rateSettings := s; RateLimitFunc_ := RateLimitAllRequestsFunc Limiter_Take |}
       req2 handlerFunc w3
     = (Limiter_Take l ;; handlerFunc req2) w4.
Proof.
  intros Hc Hnone Htake Hf Hc' Hl. split.
  - unfold RateLimitHandler, RateLimitAllRequestsFunc. cbn [RateLimitFunc_ rateSettings].
    unfold bind at 1. unfold bind at 1. rewrite Hc.
    unfold bind at 1, sync_Map_LoadOrStore. rewrite Hnone.
    unfold bind at 1. rewrite Htake. exact Hf.
  - apply (RateLimitHandler_stored Limiter_Take s _ "__all__" req2 handlerFunc w3 w4 l l');
      [reflexivity | exact Hc' | exact Hl].
Qed.

(** *** Limiters, URLs and a transport for closed examples *)

(** Limiters are numbered as they are built; the world keeps the next
    number and the limiters taken from, in order. *)
Definition LimiterLog : Type := nat * list nat.

Definition numberedLimiter (rate : Z) : M (RateWorld nat LimiterLog) nat :=
  fun w =>
    let '(next, taken) := others (user w) in
    Ret next (setUser {| limiters := limiters (user w); others := (S next, taken) |} w).

Definition loggedTake (l : nat) : M (RateWorld nat LimiterLog) Z :=
  fun w =>
    let '(next, taken) := others (user w) in
    Ret (clock w)
        (setUser {| limiters := limiters (user w); others := (next, taken ++ [l]) |} w).

(** The fields and the text of a URL of the form
    [scheme://host/path?query], without user information and fragment, for
    closed examples. *)
Fixpoint cutAt (c : ascii) (s : string) : string * option string :=
  match s with
  | EmptyString => (EmptyString, None)
  | String x s' =>
      if Ascii.eqb x c then (EmptyString, Some s')
      else let '(before, after) := cutAt c s' in (String x before, after)
  end.

Definition exampleParts (u : http.URL) : url.Parts :=
  let '(beforeQuery, query) := cutAt "?" (http.String_ u) in
  let '(scheme, rest) := cutAt ":" beforeQuery in
  let authority :=
    match rest with
    | Some (String "/" (String "/" a)) => a
    | _ => ""
    end in
  let '(host, path) := cutAt "/" authority in
  {| url.Scheme := scheme; url.Opaque := ""; url.User := None;
     url.Host := host;
     url.Path := match path with Some p => "/" +:+ p | None => "" end;
     url.RawPath := "";
     url.ForceQuery := false;
     url.RawQuery := match query with Some q => q | None => "" end;
     url.Fragment := ""; url.RawFragment := "" |}.

Definition exampleURLString (p : url.Parts) : string :=
  url.Scheme p +:+ "://" +:+ url.Host p +:+ url.Path p
  +:+ (if String.eqb (url.RawQuery p) "" then "" else "?" +:+ url.RawQuery p).

Definition getRequest (url : string) : http.Request :=
  {| http.Method := http.MethodGet; http.URL_ := Some (http.mkURL url);
     http.ReqHeader := ∅; http.ReqBody := None; http.ctx := http.Background |}.

Definition helloTransport : RequestHandlerFunc (RateWorld nat LimiterLog) :=
  fun _ => ret (Some (responseOf 200 ∅ (bytes_of "hello world")), None).

(** The world after a first request of the endpoint: limiter 0 is stored
    for it and was taken from once. *)
Definition afterFirst : World (RateWorld nat LimiterLog) :=
  mkWorld 0 {| limiters := {[ "GET https://example.com" := 0%nat ]};
               others := (1%nat, [0%nat]) |}.

Lemma RateLimitHandler_same_endpoint_witness :
  RateLimitHandler
    {| rateSettings := rateSettings
                         (NewRateLimitOption exampleParts exampleURLString (fun s => s)
                            loggedTake numberedLimiter 200);
       RateLimitFunc_ := defaultRateLimitFunc exampleParts exampleURLString (fun s => s)
                           loggedTake |}
    (Some (getRequest "https://example.com?page=2")) helloTransport afterFirst
  = (loggedTake 0%nat ;; helloTransport (Some (getRequest "https://example.com?page=2")))
      (mkWorld 0 {| limiters := {[ "GET https://example.com" := 0%nat ]};
                    others := (2%nat, [0%nat]) |}).
Proof.
  apply (RateLimitHandler_same_endpoint exampleParts exampleURLString (fun s => s) loggedTake
           (rateSettings (NewRateLimitOption exampleParts exampleURLString (fun s => s)
                            loggedTake numberedLimiter 200))
           (getRequest "https://example.com") (getRequest "https://example.com?page=2")
           (http.mkURL "https://example.com") (http.mkURL "https://example.com?page=2")
           helloTransport afterFirst
           (mkWorld 0 {| limiters := {[ "GET https://example.com" := 0%nat ]};
                         others := (2%nat, [0%nat]) |})
           0%nat 1%nat).
  - reflexivity.
  - reflexivity.
  - reflexivity.
  - repeat split.
  - reflexivity.
  - reflexivity.
Defined.

Lemma RateLimitAllRequestsFunc_one_limiter_witness :
  RateLimitHandler
    {| rateSettings := {| Rate := 200; RateLimitConstructor := numberedLimiter 200 |};
       RateLimitFunc_ := RateLimitAllRequestsFunc loggedTake |}
    (Some (getRequest "https://example.com")) helloTransport
    (mkWorld 0 {| limiters := ∅; others := (0%nat, []) |})
  = Ret (Some (responseOf 200 ∅ (bytes_of "hello world")), None)
        (mkWorld 0 {| limiters := {[ "__all__" := 0%nat ]}; others := (1%nat, [0%nat]) |})
  /\ RateLimitHandler
       {| rateSettings := {| Rate := 200; RateLimitConstructor := numberedLimiter 200 |};
          RateLimitFunc_ := RateLimitAllRequestsFunc loggedTake |}
       None helloTransport
       (mkWorld 0 {| limiters := {[ "__all__" := 0%nat ]}; others := (1%nat, [0%nat]) |})
     = (loggedTake 0%nat ;; helloTransport None)
         (mkWorld 0 {| limiters := {[ "__all__" := 0%nat ]}; others := (2%nat, [0%nat]) |}).
Proof.
  apply (RateLimitAllRequestsFunc_one_limiter loggedTake
           {| Rate := 200; RateLimitConstructor := numberedLimiter 200 |}
           (Some (getRequest "https://example.com")) None helloTransport
           (mkWorld 0 {| limiters := ∅; others := (0%nat, []) |})
           (mkWorld 0 {| limiters := ∅; others := (1%nat, []) |})
           (mkWorld 0 {| limiters := {[ "__all__" := 0%nat ]}; others := (1%nat, [0%nat]) |})
           (mkWorld 0 {| limiters := {[ "__all__" := 0%nat ]}; others := (1%nat, [0%nat]) |})
           (mkWorld 0 {| limiters := {[ "__all__" := 0%nat ]}; others := (2%nat, [0%nat]) |})
           0%nat 1%nat 0 (Some (responseOf 200 ∅ (bytes_of "hello world")), None)).
  - reflexivity.
  - reflexivity.
  - reflexivity.
  - reflexivity.
  - reflexivity.
  - reflexivity.
Defined.
